(** * Hybrid progressive capture: rollout scripts, forge client, governor

    A shallow embedding of the parts of the repository that the
    specification's router, forge-client, governor and rollout sections
    talk about, followed by the properties established for them.

    Conventions.
    - A JavaScript [number] is an IEEE-754 binary64 value and is modelled by
      Rocq's primitive [float]; integer counters that only ever count calls
      are kept in [Z].
    - A thrown JavaScript error is a value of [JsError]; code that may throw
      returns [JsError + A].
    - The relational store and the forge are outside the program.  Their
      answers are inputs of the model: the store calls that fail are given
      by a [Faults] function, the forge by a record of answer functions. *)

From Stdlib Require Import ZArith List String Ascii Bool Lia.
From Stdlib Require Import Floats.PrimFloat Floats.SpecFloat Floats.FloatOps.
From Stdlib Require Import Numbers.DecimalString.
Import ListNotations.

Local Open Scope string_scope.
Local Open Scope Z_scope.

(* ================================================================== *)
(** * JavaScript values used by the sources *)
(* ================================================================== *)

Module Js.

(** The number with the integer value [z] (exact for |z| < 2^53). *)
Definition of_Z (z : Z) : float :=
  SF2Prim (binary_normalize prec emax z 0 false).

(** Truthiness of a number: [0], [-0] and [NaN] are falsy. *)
Definition truthy (x : float) : bool :=
  negb (PrimFloat.is_zero x || PrimFloat.is_nan x).

(** [x || d] on numbers. *)
Definition or_else (x d : float) : float :=
  if truthy x then x else d.

(** [Math.floor]. *)
Definition Math_floor (x : float) : float :=
  match Prim2SF x with
  | S754_finite s m e =>
      if 0 <=? e then x
      else
        let d := 2 ^ (- e) in
        let q := Z.pos m / d in
        if s then (if Z.pos m mod d =? 0 then x else of_Z (- (q + 1)))
        else of_Z q
  | _ => x
  end.

(** [Math.max(0, v)]: [NaN] is contagious. *)
Definition Math_max0 (v : float) : float :=
  if PrimFloat.is_nan v then v
  else if PrimFloat.ltb PrimFloat.zero v then v else PrimFloat.zero.

(** The result of [Number.prototype.toFixed].  For a finite number below
    10^21 in magnitude it is the decimal numeral with exactly [digits]
    fraction digits that is nearest to the number (ties towards the larger
    magnitude); [Fixed neg n digits] stands for that numeral, whose value
    is [n / 10^digits], with a leading minus sign when [neg].  Larger
    numbers print in exponent notation, which is not expanded here. *)
Inductive NumberString : Type :=
| NaNString
| InfinityString (neg : bool)
| Fixed (neg : bool) (n : Z) (digits : nat)
| Exponent (x : float).

Definition toFixed (x : float) (digits : nat) : NumberString :=
  match Prim2SF x with
  | S754_nan => NaNString
  | S754_infinity s => InfinityString s
  | S754_zero _ => Fixed false 0 digits
  | S754_finite s m e =>
      let scale := 10 ^ Z.of_nat digits in
      let big :=
        if 0 <=? e then 10 ^ 21 <=? Z.pos m * 2 ^ e
        else 10 ^ 21 * 2 ^ (- e) <=? Z.pos m in
      if big then Exponent x
      else
        let n :=
          if 0 <=? e then Z.pos m * 2 ^ e * scale
          else (2 * Z.pos m * scale + 2 ^ (- e)) / (2 * 2 ^ (- e)) in
        Fixed s n digits
  end.

(** The characters of a [Fixed] numeral, as [toFixed] prints them. *)
Definition digits_of (n : Z) : string :=
  NilZero.string_of_uint (N.to_uint (Z.to_N n)).

Fixpoint zeros (k : nat) : string :=
  match k with
  | O => ""
  | S k' => "0" ++ zeros k'
  end.

Definition render (s : NumberString) : option string :=
  match s with
  | NaNString => Some "NaN"
  | InfinityString neg => Some (if neg then "-Infinity" else "Infinity")
  | Fixed neg n digits =>
      let m := digits_of n in
      let m :=
        if Nat.eqb digits 0 then m
        else
          let m' := zeros (S digits - String.length m) ++ m in
          let k := String.length m' in
          substring 0 (k - digits) m' ++ "." ++ substring (k - digits) digits m' in
      Some ((if neg then "-" else "") ++ m)
  | Exponent _ => None
  end.

(** [parseInt(s)] without a radix: leading white space is skipped, an
    optional sign is read, a [0x]/[0X] prefix selects base 16, and digits
    are read up to the first character that is not a digit of the base.
    [None] is [NaN].  (White space outside ASCII is not recognised.) *)
Definition is_space (c : ascii) : bool :=
  let n := nat_of_ascii c in
  (Nat.eqb n 32 || (Nat.leb 9 n && Nat.leb n 13))%bool.

Fixpoint skip_spaces (s : string) : string :=
  match s with
  | String c r => if is_space c then skip_spaces r else s
  | EmptyString => s
  end.

Definition digit_value (base : Z) (c : ascii) : option Z :=
  let n := Z.of_nat (nat_of_ascii c) in
  let v :=
    if (48 <=? n) && (n <=? 57) then Some (n - 48)
    else if (97 <=? n) && (n <=? 122) then Some (n - 87)
    else if (65 <=? n) && (n <=? 90) then Some (n - 55)
    else None in
  match v with
  | Some d => if d <? base then Some d else None
  | None => None
  end.

Fixpoint read_digits (base : Z) (acc : option Z) (s : string) : option Z :=
  match s with
  | String c r =>
      match digit_value base c with
      | Some d =>
          read_digits base
            (Some (match acc with Some a => a * base + d | None => d end)) r
      | None => acc
      end
  | EmptyString => acc
  end.

Definition parseInt (s : string) : option Z :=
  let s := skip_spaces s in
  let '(neg, s) :=
    match s with
    | String "-" r => (true, r)
    | String "+" r => (false, r)
    | _ => (false, s)
    end in
  let '(base, s) :=
    match s with
    | String "0" (String "x" r) => (16, r)
    | String "0" (String "X" r) => (16, r)
    | _ => (10, s)
    end in
  match read_digits base None s with
  | Some v => Some (if neg then - v else v)
  | None => None
  end.

(** A thrown error object: the fields the sources inspect. *)
Record JsError : Type := mkError {
  err_name : string;
  err_status : option Z;
  err_message : string
}.

(** [error.status === 404], the test the capture scripts use for a
    forge "not found". *)
Definition isNotFound (e : JsError) : bool :=
  match err_status e with
  | Some st => st =? 404
  | None => false
  end.

(** The decimal numeral of an integer, as a template string prints it. *)
Definition int_string (z : Z) : string :=
  if z <? 0 then "-" ++ digits_of (- z) else digits_of z.

End Js.

(* ================================================================== *)
(** * Hybrid queue manager: the router's classifier *)
(* ================================================================== *)

Module HybridQueueManager.

Inductive TriggerSource : Type := manual | scheduled.

(** Modelled from the spec: the declaration of the [JobData] interface is
    not among the sources; the fields are those the specification lists
    and the router reads ([timeRange] is the time range in whole days).
    An optional field that is absent is [None]. *)
Record JobData : Type := mkJobData {
  repositoryId : string;
  repositoryName : string;
  prNumbers : option (list Z);
  timeRange : option Z;
  maxItems : option Z;
  triggerSource : TriggerSource
}.

Definition is_manual (t : TriggerSource) : bool :=
  match t with manual => true | scheduled => false end.

(** [isRecentDataJob]: three tests in order, the first that holds wins.
    [data.timeRange && data.timeRange <= 1] is falsy for an absent range
    and for [0]; [data.prNumbers && data.prNumbers.length <= 10] is falsy
    only for an absent list, an array being truthy whatever its length. *)
Definition isRecentDataJob (data : JobData) (cutoffHours : Z) : bool :=
  if match timeRange data with
     | Some t => negb (t =? 0) && (t <=? 1)
     | None => false
     end
  then true
  else if match prNumbers data with
          | Some l => Z.of_nat (List.length l) <=? 10
          | None => false
          end
  then true
  else if is_manual (triggerSource data) then true
  else false.

Inductive Processor : Type := inngest | github_actions.

(** [queueJob]'s choice of back-end. *)
Definition route (data : JobData) : Processor :=
  let cutoffHours := 24 in
  if isRecentDataJob data cutoffHours then inngest else github_actions.

(** The classification rule in the specification's words: low-latency iff
    (a) the time range is at most one day, or (b) the list of PR numbers
    is non-empty with at most ten elements, or (c) the trigger is manual. *)
Definition spec_low_latency (data : JobData) : bool :=
  match timeRange data with Some t => t <=? 1 | None => false end
  || match prNumbers data with
     | Some l => negb (Nat.eqb (List.length l) 0) && (Z.of_nat (List.length l) <=? 10)
     | None => false
     end
  || is_manual (triggerSource data).

(** [queueWithInngest]: the item cap sent to Inngest,
    [Math.min(data.maxItems || 50, 50)]. *)
Definition inngest_maxItems (data : JobData) : Z :=
  Z.min (match maxItems data with
         | Some n => if n =? 0 then 50 else n
         | None => 50
         end) 50.

End HybridQueueManager.

(* ================================================================== *)
(** * Rate-limit monitor (the governor) *)
(* ================================================================== *)

Module RateLimitMonitor.

(** The [rateLimit] object of a forge answer.  A numeric field that is
    missing reads as [undefined], which behaves as [NaN] in the sums,
    comparisons and [||] defaults below; it is represented by [NaN]. *)
Record RateLimit : Type := mkRateLimit {
  rl_cost : float;
  rl_remaining : float;
  rl_limit : float;
  rl_resetAt : option string
}.

(** A tracked sample: [{ timestamp, queryType, itemsProcessed, ...rateLimit }].
    Times are milliseconds since the epoch. *)
Record Entry : Type := mkEntry {
  timestamp : Z;
  queryType : string;
  itemsProcessed : float;
  cost : float;
  remaining : float;
  limit : float;
  resetAt : option string
}.

Inductive Message : Type :=
| RateLimitCritical (remaining : float)
| RateLimitWarning (remaining : float)
| QueryEfficiency (pointsPerItem : Js.NumberString).

Record Alert : Type := mkAlert {
  level : string;
  message : Message;
  alert_timestamp : Z
}.

Record Thresholds : Type := mkThresholds {
  warning : float;
  critical : float;
  efficiency : float
}.

Record Monitor : Type := mkMonitor {
  history : list Entry;
  alerts : list Alert;
  thresholds : Thresholds
}.

(** [new RateLimitMonitor()]. *)
Definition constructor : Monitor :=
  {| history := [];
     alerts := [];
     thresholds := {| warning := 1000; critical := 100; efficiency := 5 |} |}.

(** [a.slice(-n)]: the last [n] elements, the whole array when shorter. *)
Definition slice_last {A : Type} (n : nat) (a : list A) : list A :=
  skipn (List.length a - n) a.

(** [a[a.length - 1]], [undefined] on the empty array. *)
Definition last_of {A : Type} (a : list A) : option A :=
  nth_error a (List.length a - 1).

Definition length_number {A : Type} (a : list A) : float :=
  Js.of_Z (Z.of_nat (List.length a)).

Definition addAlert (now : Z) (lvl : string) (msg : Message) (m : Monitor)
  : Monitor :=
  let pushed := (alerts m ++ [ {| level := lvl; message := msg;
                                  alert_timestamp := now |} ])%list in
  {| history := history m;
     alerts := if Nat.ltb 50 (List.length pushed) then slice_last 50 pushed
               else pushed;
     thresholds := thresholds m |}.

Definition checkThresholds (now : Z) (entry : Entry) (m : Monitor) : Monitor :=
  let m :=
    if PrimFloat.ltb (remaining entry) (critical (thresholds m)) then
      addAlert now "critical" (RateLimitCritical (remaining entry)) m
    else if PrimFloat.ltb (remaining entry) (warning (thresholds m)) then
      addAlert now "warning" (RateLimitWarning (remaining entry)) m
    else m in
  let eff := PrimFloat.div (cost entry) (itemsProcessed entry) in
  if PrimFloat.ltb (efficiency (thresholds m)) eff then
    addAlert now "info" (QueryEfficiency (Js.toFixed eff 2)) m
  else m.

(** [cleanOldEntries]: keeps the entries younger than 24 hours (a change
    of the local zone offset inside the window is not modelled). *)
Definition cleanOldEntries (now : Z) (m : Monitor) : Monitor :=
  let cutoff := now - 24 * 3600 * 1000 in
  {| history := filter (fun entry => cutoff <? timestamp entry) (history m);
     alerts := alerts m;
     thresholds := thresholds m |}.

(** [track(rateLimit, queryType = 'unknown', itemsProcessed = 1)]. *)
Definition track (now : Z) (rateLimit : RateLimit)
  (queryType_arg : option string) (itemsProcessed_arg : option float)
  (m : Monitor) : Entry * Monitor :=
  let entry :=
    {| timestamp := now;
       queryType := match queryType_arg with Some q => q | None => "unknown" end;
       itemsProcessed := match itemsProcessed_arg with
                         | Some n => n
                         | None => 1%float
                         end;
       cost := rl_cost rateLimit;
       remaining := rl_remaining rateLimit;
       limit := rl_limit rateLimit;
       resetAt := rl_resetAt rateLimit |} in
  let m := {| history := (history m ++ [entry])%list;
              alerts := alerts m;
              thresholds := thresholds m |} in
  let m := checkThresholds now entry m in
  let m := cleanOldEntries now m in
  (entry, m).

(** [recent.reduce((sum, entry) => sum + entry.cost, 0)]. *)
Definition total (field : Entry -> float) (recent : list Entry) : float :=
  fold_left (fun sum entry => PrimFloat.add sum (field entry)) recent
    PrimFloat.zero.

Definition field_of_last (field : Entry -> float) (h : list Entry) : float :=
  match last_of h with
  | Some e => field e
  | None => PrimFloat.nan
  end.

Record Stats : Type := mkStats {
  totalQueries : nat;
  recentQueries : nat;
  stats_averageCost : float;
  averageEfficiency : float;
  stats_currentRemaining : float;
  currentLimit : float;
  stats_alerts : nat;
  lastUpdate : option Z
}.

Definition getStats (m : Monitor) : option Stats :=
  match history m with
  | [] => None
  | _ =>
      let recent := slice_last 10 (history m) in
      let totalCost := total cost recent in
      let totalItems := total itemsProcessed recent in
      Some {| totalQueries := List.length (history m);
              recentQueries := List.length recent;
              stats_averageCost := PrimFloat.div totalCost (length_number recent);
              averageEfficiency :=
                if PrimFloat.ltb PrimFloat.zero totalItems
                then PrimFloat.div totalCost totalItems
                else PrimFloat.zero;
              stats_currentRemaining :=
                Js.or_else (field_of_last remaining (history m)) 0%float;
              currentLimit :=
                Js.or_else (field_of_last limit (history m)) 5000%float;
              stats_alerts := List.length (alerts m);
              lastUpdate := option_map timestamp (last_of (history m)) |}
  end.

Record Prediction : Type := mkPrediction {
  queriesRemaining : float;
  averageCost : Js.NumberString;
  predictedCost : Js.NumberString;
  currentRemaining : float;
  willExceedLimit : bool;
  safeQueries : float
}.

Definition predict (queriesRemaining : float) (m : Monitor)
  : option Prediction :=
  match history m with
  | [] => None
  | _ =>
      let recent := slice_last 10 (history m) in
      let averageCost :=
        PrimFloat.div (total cost recent) (length_number recent) in
      let currentRemaining :=
        Js.or_else (field_of_last remaining (history m)) 0%float in
      let predictedCost := PrimFloat.mul queriesRemaining averageCost in
      let willExceed := PrimFloat.ltb currentRemaining predictedCost in
      Some {| queriesRemaining := queriesRemaining;
              averageCost := Js.toFixed averageCost 2;
              predictedCost := Js.toFixed predictedCost 0;
              currentRemaining := currentRemaining;
              willExceedLimit := willExceed;
              safeQueries :=
                Js.Math_floor (PrimFloat.div currentRemaining averageCost) |}
  end.

(** [setThresholds(newThresholds)]: the given fields replace the old. *)
Definition setThresholds (w c e : option float) (m : Monitor) : Monitor :=
  let t := thresholds m in
  {| history := history m;
     alerts := alerts m;
     thresholds :=
       {| warning := match w with Some x => x | None => warning t end;
          critical := match c with Some x => x | None => critical t end;
          efficiency := match e with Some x => x | None => efficiency t end |} |}.

(** ** The prediction in the specification's words *)

(** The reference window: the last ten samples, all of them when fewer. *)
Definition reference_window (h : list Entry) : list Entry :=
  rev (firstn 10 (rev h)).

(** The mean of the [cost] fields of a window, in binary64 arithmetic,
    the costs added from the oldest sample on. *)
Definition mean_cost (w : list Entry) : float :=
  PrimFloat.div (fold_left PrimFloat.add (map cost w) PrimFloat.zero)
    (Js.of_Z (Z.of_nat (List.length w))).

(** [numeral_is s x]: the decimal numeral [s] has exactly the value of
    the number [x]. *)
Definition numeral_is (s : Js.NumberString) (x : float) : bool :=
  match s, Prim2SF x with
  | Js.Fixed neg n d, S754_finite sx m e =>
      Bool.eqb neg sx &&
      (if 0 <=? e then n =? Z.pos m * 2 ^ e * 10 ^ Z.of_nat d
       else n * 2 ^ (- e) =? Z.pos m * 10 ^ Z.of_nat d)
  | Js.Fixed _ n _, S754_zero _ => n =? 0
  | Js.NaNString, S754_nan => true
  | Js.InfinityString neg, S754_infinity sx => Bool.eqb neg sx
  | _, _ => false
  end.

(** The most recent sample. *)
Definition most_recent (h : list Entry) : option Entry :=
  hd_error (rev h).

(** The prediction as the specification words it: the report carries the
    mean of the reference window and [queriesRemaining] times that mean
    themselves, the remaining budget of the most recent sample, the floor
    of their quotient, and the comparison of the two. *)
Definition exact_prediction (q : float) (m : Monitor) : Prop :=
  let mean := mean_cost (reference_window (history m)) in
  exists r,
    predict q m = Some r
    /\ numeral_is (averageCost r) mean = true
    /\ numeral_is (predictedCost r) (PrimFloat.mul q mean) = true
    /\ Some (currentRemaining r) = option_map remaining (most_recent (history m))
    /\ safeQueries r = Js.Math_floor (PrimFloat.div (currentRemaining r) mean)
    /\ willExceedLimit r = PrimFloat.ltb (currentRemaining r) (PrimFloat.mul q mean).

End RateLimitMonitor.

(* ================================================================== *)
(** * Hybrid forge client *)
(* ================================================================== *)

Module HybridGitHubClient.

Import Js.
Export RateLimitMonitor (RateLimit, mkRateLimit, rl_cost, rl_remaining,
  rl_limit, rl_resetAt).

Inductive Query : Type :=
| GET_PR_COMPLETE_DATA
| GET_PR_REVIEWS
| GET_PR_COMMENTS
| GET_RECENT_PRS.

Record Variables : Type := mkVariables {
  v_owner : string;
  v_repo : string;
  v_number : option Z;
  v_since : option string;
  v_first : option Z
}.

(** The REST endpoints the fine-grained path calls. *)
Inductive RestCall : Type :=
| pulls_get (owner repo : string) (pull_number : Z)
| pulls_listFiles (owner repo : string) (pull_number : Z)
| pulls_listReviews (owner repo : string) (pull_number : Z)
| issues_listComments (owner repo : string) (issue_number : Z)
| pulls_listReviewComments (owner repo : string) (pull_number : Z)
| pulls_list (owner repo : string) (since : string) (per_page : Z).

Inductive ForgeCall : Type :=
| GraphqlCall (q : Query) (v : Variables)
| RestApiCall (c : RestCall).

Inductive LogLine : Type :=
| console_log (text : string)
| console_warn (text : string) (detail : string)
| console_error (text : string) (detail : string).

Record Metrics : Type := mkMetrics {
  graphqlQueries : Z;
  restQueries : Z;
  fallbacks : Z;
  totalPointsSaved : float
}.

(** The client object ([lastRateLimit] belongs to its GraphQL client). *)
Record Client : Type := mkClient {
  useGraphQL : bool;
  metrics : Metrics;
  lastRateLimit : option RateLimit
}.

(** What a run can change or emit: the client object, the console, and
    the calls that reached the forge, oldest first. *)
Record World : Type := mkWorld {
  client : Client;
  console : list LogLine;
  calls : list ForgeCall
}.

(** [new HybridGitHubClient(token)]. *)
Definition constructor : Client :=
  {| useGraphQL := true;
     metrics := {| graphqlQueries := 0; restQueries := 0; fallbacks := 0;
                   totalPointsSaved := 0%float |};
     lastRateLimit := None |}.

(** ** Computations that may throw and that change the world *)

Definition M (A : Type) : Type := World -> (JsError + A) * World.

Definition ret {A : Type} (a : A) : M A := fun w => (inr a, w).

Definition throw {A : Type} (e : JsError) : M A := fun w => (inl e, w).

Definition bind {A B : Type} (m : M A) (k : A -> M B) : M B :=
  fun w =>
    match m w with
    | (inr a, w') => k a w'
    | (inl e, w') => (inl e, w')
    end.

Definition try_catch {A : Type} (m : M A) (handler : JsError -> M A) : M A :=
  fun w =>
    match m w with
    | (inr a, w') => (inr a, w')
    | (inl e, w') => handler e w'
    end.

Definition lift {A : Type} (r : JsError + A) : M A := fun w => (r, w).

Definition emit (l : LogLine) : M unit :=
  fun w => (inr tt, {| client := client w;
                       console := (console w ++ [l])%list;
                       calls := calls w |}).

Definition issue (c : ForgeCall) : M unit :=
  fun w => (inr tt, {| client := client w;
                       console := console w;
                       calls := (calls w ++ [c])%list |}).

Definition get_client : M Client := fun w => (inr (client w), w).

Definition set_client (c : Client) : M unit :=
  fun w => (inr tt, {| client := c; console := console w; calls := calls w |}).

Definition update_metrics (f : Metrics -> Metrics) : M unit :=
  bind get_client (fun c =>
  set_client {| useGraphQL := useGraphQL c;
                metrics := f (metrics c);
                lastRateLimit := lastRateLimit c |}).

Declare Scope client_scope.
Delimit Scope client_scope with client.
Notation "x <- m ;; k" := (bind m (fun x => k))
  (at level 61, m at next level, right associativity) : client_scope.
Notation "m ;;; k" := (bind m (fun _ => k))
  (at level 61, right associativity) : client_scope.
Local Open Scope client_scope.

Section Client.

(** A JSON value of a forge answer.  The sources copy such values field
    by field; the properties below do not depend on their inner shape. *)
Variable Payload : Type.

(** The answer of the compound endpoint: [{ ...data, rateLimit }]. *)
Record GraphQLResult : Type := mkGraphQLResult {
  data : Payload;
  rateLimit : option RateLimit
}.

(** The forge: its answer to each call, an error value when the call
    fails. *)
Record Forge : Type := mkForge {
  graphql : Query -> Variables -> JsError + GraphQLResult;
  rest : RestCall -> JsError + Payload
}.

Variable forge : Forge.

(** The field mappings of [transformPRCompleteData], [transformPRReviews],
    [transformPRComments] and [transformRecentPRs] on the [data] part of
    an answer; each throws a [TypeError] when it dereferences a missing
    node such as [result.repository.pullRequest]. *)
Variable mapPRCompleteData :
  Payload -> JsError + (Payload * Payload * Payload * Payload * Payload).
Variable mapPRReviews : Payload -> JsError + Payload.
Variable mapPRComments : Payload -> JsError + (Payload * Payload).
Variable mapRecentPRs : Payload -> JsError + Payload.

Record PRCompleteData : Type := mkPRCompleteData {
  pullRequest : Payload;
  files : Payload;
  reviews : Payload;
  issueComments : Payload;
  reviewComments : Payload;
  cd_rateLimit : option RateLimit
}.

Record PRReviews : Type := mkPRReviews {
  r_reviews : Payload;
  r_rateLimit : option RateLimit
}.

Record PRComments : Type := mkPRComments {
  c_issueComments : Payload;
  c_reviewComments : Payload;
  c_rateLimit : option RateLimit
}.

(** [GitHubGraphQLClient.query]. *)
Definition graphql_query (q : Query) (v : Variables) : M GraphQLResult :=
  issue (GraphqlCall q v) ;;;
  match graphql forge q v with
  | inr result =>
      match rateLimit result with
      | Some rl =>
          c <- get_client ;;
          set_client {| useGraphQL := useGraphQL c;
                        metrics := metrics c;
                        lastRateLimit := Some rl |} ;;;
          emit (console_log "GraphQL Rate Limit") ;;;
          (if PrimFloat.ltb (rl_remaining rl) 1000%float
           then emit (console_warn "GraphQL rate limit low" "")
           else ret tt) ;;;
          ret result
      | None => ret result
      end
  | inl error =>
      (if String.eqb (err_name error) "GraphqlResponseError"
       then emit (console_error "GraphQL Error:" (err_message error))
       else ret tt) ;;;
      throw error
  end.

(** One REST call through Octokit. *)
Definition rest_call (c : RestCall) : M Payload :=
  issue (RestApiCall c) ;;; lift (rest forge c).

(** [Promise.all] over REST calls: every call is issued; the result is
    the list of answers, or the error of a call that failed (here the
    first in the order of the array). *)
Fixpoint first_error (cs : list RestCall) : JsError + list Payload :=
  match cs with
  | [] => inr []
  | c :: cs' =>
      match rest forge c, first_error cs' with
      | inl e, _ => inl e
      | inr _, inl e => inl e
      | inr p, inr ps => inr (p :: ps)
      end
  end.

Definition issue_all (cs : list RestCall) : M unit :=
  fun w => (inr tt, {| client := client w;
                       console := console w;
                       calls := (calls w ++ map RestApiCall cs)%list |}).

Definition promise_all (cs : list RestCall) : M (list Payload) :=
  issue_all cs ;;; lift (first_error cs).

Definition add_restQueries (n : Z) : M unit :=
  update_metrics (fun m =>
    {| graphqlQueries := graphqlQueries m;
       restQueries := restQueries m + n;
       fallbacks := fallbacks m;
       totalPointsSaved := totalPointsSaved m |}).

Definition incr_graphqlQueries : M unit :=
  update_metrics (fun m =>
    {| graphqlQueries := graphqlQueries m + 1;
       restQueries := restQueries m;
       fallbacks := fallbacks m;
       totalPointsSaved := totalPointsSaved m |}).

Definition incr_fallbacks : M unit :=
  update_metrics (fun m =>
    {| graphqlQueries := graphqlQueries m;
       restQueries := restQueries m;
       fallbacks := fallbacks m + 1;
       totalPointsSaved := totalPointsSaved m |}).

Definition add_pointsSaved (p : float) : M unit :=
  update_metrics (fun m =>
    {| graphqlQueries := graphqlQueries m;
       restQueries := restQueries m;
       fallbacks := fallbacks m;
       totalPointsSaved := PrimFloat.add (totalPointsSaved m) p |}).

Definition calculatePointsSaved (restCalls graphqlCost : float) : float :=
  Math_max0 (PrimFloat.sub restCalls graphqlCost).

Definition TypeError (msg : string) : JsError :=
  {| err_name := "TypeError"; err_status := None; err_message := msg |}.

(** The constant the fine-grained path reports as its rate limit. *)
Definition rest_rateLimit : RateLimit :=
  {| rl_cost := 5; rl_remaining := 5000; rl_limit := 5000;
     rl_resetAt := None |}.

Definition getPRCompleteDataREST (owner repo : string) (prNumber : Z)
  : M PRCompleteData :=
  try_catch
    (answers <- promise_all
       [ pulls_get owner repo prNumber;
         pulls_listFiles owner repo prNumber;
         pulls_listReviews owner repo prNumber;
         issues_listComments owner repo prNumber;
         pulls_listReviewComments owner repo prNumber ] ;;
     match answers with
     | [prData; files; reviews; issueComments; reviewComments] =>
         add_restQueries 5 ;;;
         ret {| pullRequest := prData;
                files := files;
                reviews := reviews;
                issueComments := issueComments;
                reviewComments := reviewComments;
                cd_rateLimit := Some rest_rateLimit |}
     | _ => throw (TypeError "object is not iterable")
     end)
    (fun error =>
       emit (console_error "REST API failed for PR" (err_message error)) ;;;
       throw error).

Definition transformPRCompleteData (result : GraphQLResult)
  : JsError + PRCompleteData :=
  match mapPRCompleteData (data result) with
  | inr (pr, fs, rs, ics, rcs) =>
      inr {| pullRequest := pr; files := fs; reviews := rs;
             issueComments := ics; reviewComments := rcs;
             cd_rateLimit := rateLimit result |}
  | inl e => inl e
  end.

Definition getPRCompleteData (owner repo : string) (prNumber : Z)
  : M PRCompleteData :=
  c <- get_client ;;
  if useGraphQL c then
    try_catch
      (result <- graphql_query GET_PR_COMPLETE_DATA
         {| v_owner := owner; v_repo := repo; v_number := Some prNumber;
            v_since := None; v_first := None |} ;;
       incr_graphqlQueries ;;;
       transformed <- lift (transformPRCompleteData result) ;;
       cost <- match rateLimit result with
               | Some rl => ret (rl_cost rl)
               | None => throw (TypeError "Cannot read properties of undefined")
               end ;;
       add_pointsSaved (calculatePointsSaved 5 cost) ;;;
       ret transformed)
      (fun error =>
         emit (console_warn "GraphQL failed for PR, falling back to REST:"
                 (err_message error)) ;;;
         incr_fallbacks ;;;
         getPRCompleteDataREST owner repo prNumber)
  else getPRCompleteDataREST owner repo prNumber.

Definition getPRReviewsREST (owner repo : string) (prNumber : Z)
  : M PRReviews :=
  reviews <- rest_call (pulls_listReviews owner repo prNumber) ;;
  add_restQueries 1 ;;;
  ret {| r_reviews := reviews; r_rateLimit := None |}.

Definition transformPRReviews (result : GraphQLResult) : JsError + PRReviews :=
  match mapPRReviews (data result) with
  | inr rs => inr {| r_reviews := rs; r_rateLimit := rateLimit result |}
  | inl e => inl e
  end.

Definition getPRReviews (owner repo : string) (prNumber : Z) : M PRReviews :=
  c <- get_client ;;
  if useGraphQL c then
    try_catch
      (result <- graphql_query GET_PR_REVIEWS
         {| v_owner := owner; v_repo := repo; v_number := Some prNumber;
            v_since := None; v_first := None |} ;;
       incr_graphqlQueries ;;;
       lift (transformPRReviews result))
      (fun error =>
         emit (console_warn
                 "GraphQL reviews failed for PR, falling back to REST:"
                 (err_message error)) ;;;
         incr_fallbacks ;;;
         getPRReviewsREST owner repo prNumber)
  else getPRReviewsREST owner repo prNumber.

Definition getPRCommentsREST (owner repo : string) (prNumber : Z)
  : M PRComments :=
  answers <- promise_all
    [ issues_listComments owner repo prNumber;
      pulls_listReviewComments owner repo prNumber ] ;;
  match answers with
  | [issueComments; reviewComments] =>
      add_restQueries 2 ;;;
      ret {| c_issueComments := issueComments;
             c_reviewComments := reviewComments;
             c_rateLimit := None |}
  | _ => throw (TypeError "object is not iterable")
  end.

Definition transformPRComments (result : GraphQLResult)
  : JsError + PRComments :=
  match mapPRComments (data result) with
  | inr (ics, rcs) =>
      inr {| c_issueComments := ics; c_reviewComments := rcs;
             c_rateLimit := rateLimit result |}
  | inl e => inl e
  end.

Definition getPRComments (owner repo : string) (prNumber : Z)
  : M PRComments :=
  c <- get_client ;;
  if useGraphQL c then
    try_catch
      (result <- graphql_query GET_PR_COMMENTS
         {| v_owner := owner; v_repo := repo; v_number := Some prNumber;
            v_since := None; v_first := None |} ;;
       incr_graphqlQueries ;;;
       lift (transformPRComments result))
      (fun error =>
         emit (console_warn
                 "GraphQL comments failed for PR, falling back to REST:"
                 (err_message error)) ;;;
         incr_fallbacks ;;;
         getPRCommentsREST owner repo prNumber)
  else getPRCommentsREST owner repo prNumber.

(** [limit = 50] when the argument is omitted. *)
Definition default_limit (limit : option Z) : Z :=
  match limit with Some l => l | None => 50 end.

Definition getRecentPRsREST (owner repo since : string) (limit : option Z)
  : M Payload :=
  prs <- rest_call (pulls_list owner repo since (default_limit limit)) ;;
  add_restQueries 1 ;;;
  ret prs.

Definition transformRecentPRs (result : GraphQLResult) : JsError + Payload :=
  mapRecentPRs (data result).

Definition getRecentPRs (owner repo since : string) (limit : option Z)
  : M Payload :=
  c <- get_client ;;
  if useGraphQL c then
    try_catch
      (result <- graphql_query GET_RECENT_PRS
         {| v_owner := owner; v_repo := repo; v_number := None;
            v_since := Some since;
            v_first := Some (default_limit limit) |} ;;
       incr_graphqlQueries ;;;
       lift (transformRecentPRs result))
      (fun error =>
         emit (console_warn "GraphQL recent PRs failed, falling back to REST:"
                 (err_message error)) ;;;
         incr_fallbacks ;;;
         getRecentPRsREST owner repo since (Some (default_limit limit)))
  else getRecentPRsREST owner repo since (Some (default_limit limit)).

Definition setGraphQLEnabled (enabled : bool) : M unit :=
  c <- get_client ;;
  set_client {| useGraphQL := enabled;
                metrics := metrics c;
                lastRateLimit := lastRateLimit c |}.

Definition getRateLimit : M (option RateLimit) :=
  c <- get_client ;; ret (lastRateLimit c).

End Client.

Arguments graphql {Payload} _ _ _.
Arguments rest {Payload} _ _.
Arguments data {Payload} _.
Arguments rateLimit {Payload} _.
Arguments pullRequest {Payload} _.
Arguments files {Payload} _.
Arguments reviews {Payload} _.
Arguments issueComments {Payload} _.
Arguments reviewComments {Payload} _.
Arguments cd_rateLimit {Payload} _.
Arguments r_reviews {Payload} _.
Arguments r_rateLimit {Payload} _.
Arguments c_issueComments {Payload} _.
Arguments c_reviewComments {Payload} _.
Arguments c_rateLimit {Payload} _.

(** The world in which the fine-grained path starts after the compound
    query [q] failed with [error]: the query has reached the forge, the
    error has been printed, the warning [text] emitted and the
    [fallbacks] counter incremented. *)
Definition after_failure (q : Query) (v : Variables) (error : JsError)
  (text : string) (w : World) : World :=
  {| client :=
       {| useGraphQL := useGraphQL (client w);
          metrics :=
            {| graphqlQueries := graphqlQueries (metrics (client w));
               restQueries := restQueries (metrics (client w));
               fallbacks := fallbacks (metrics (client w)) + 1;
               totalPointsSaved := totalPointsSaved (metrics (client w)) |};
          lastRateLimit := lastRateLimit (client w) |};
     console :=
       ((if String.eqb (err_name error) "GraphqlResponseError"
         then (console w ++ [console_error "GraphQL Error:" (err_message error)])
         else console w)
        ++ [console_warn text (err_message error)])%list;
     calls := (calls w ++ [GraphqlCall q v])%list |}.
(** ** The fallback policy in observable terms *)

Definition fallbacks_of (w : World) : Z := fallbacks (metrics (client w)).

(** [fell_back w run rest_path restCalls]: started in [w], [run] behaved
    as the fine-grained path [rest_path] started in a world where the
    [fallbacks] counter is one higher and a warning has been printed; at
    the end the counter is one higher than in [w] and the REST calls
    [restCalls] have reached the forge. *)
Definition fell_back {A : Type} (w : World) (run rest_path : M A)
  (restCalls : list RestCall) : Prop :=
  exists w',
    run w = rest_path w'
    /\ fallbacks_of w' = fallbacks_of w + 1
    /\ (exists text detail, In (console_warn text detail) (console w'))
    /\ fallbacks_of (snd (run w)) = fallbacks_of w + 1
    /\ incl (map RestApiCall restCalls) (calls (snd (run w))).

(** [short_circuits w run q v error]: started in [w], [run] surfaced the
    error of the compound query without falling back: the result is that
    error, the [fallbacks] counter is unchanged and the compound query is
    the only call that reached the forge. *)
Definition short_circuits {A : Type} (w : World) (run : M A)
  (q : Query) (v : Variables) (error : JsError) : Prop :=
  fst (run w) = inl error
  /\ fallbacks_of (snd (run w)) = fallbacks_of w
  /\ calls (snd (run w)) = (calls w ++ [GraphqlCall q v])%list.

Definition complete_data_calls (owner repo : string) (prNumber : Z)
  : list RestCall :=
  [ pulls_get owner repo prNumber;
    pulls_listFiles owner repo prNumber;
    pulls_listReviews owner repo prNumber;
    issues_listComments owner repo prNumber;
    pulls_listReviewComments owner repo prNumber ].

Definition pr_variables (owner repo : string) (prNumber : Z) : Variables :=
  {| v_owner := owner; v_repo := repo; v_number := Some prNumber;
     v_since := None; v_first := None |}.

Definition recent_variables (owner repo since : string) (limit : option Z)
  : Variables :=
  {| v_owner := owner; v_repo := repo; v_number := None;
     v_since := Some since; v_first := Some (default_limit limit) |}.

(** [getMetrics()]: the counters and three derived numbers. *)
Record MetricsReport : Type := mkMetricsReport {
  mr_metrics : Metrics;
  totalQueries : float;
  fallbackRate : float;
  efficiency : float
}.

Definition getMetrics (c : Client) : MetricsReport :=
  let m := metrics c in
  {| mr_metrics := m;
     totalQueries := of_Z (graphqlQueries m + restQueries m);
     fallbackRate :=
       PrimFloat.mul
         (PrimFloat.div (of_Z (fallbacks m))
            (of_Z (graphqlQueries m + fallbacks m)))
         100%float;
     efficiency :=
       PrimFloat.div (totalPointsSaved m)
         (of_Z (graphqlQueries m + restQueries m)) |}.


(** [only_rest w w' cs]: from [w] to [w'] exactly the REST calls [cs]
    reached the forge and nothing of the compound path moved. *)
Definition only_rest (w w' : World) (cs : list RestCall) : Prop :=
  calls w' = (calls w ++ map RestApiCall cs)%list
  /\ graphqlQueries (metrics (client w')) = graphqlQueries (metrics (client w))
  /\ fallbacks (metrics (client w')) = fallbacks (metrics (client w))
  /\ lastRateLimit (client w') = lastRateLimit (client w).

End HybridGitHubClient.

(* ================================================================== *)
(** * Rate limiter of the capture scripts *)
(* ================================================================== *)

Module RateLimiter.

(** The limiter object.  Times are milliseconds since the epoch. *)
Record Limiter : Type := mkLimiter {
  lastCheck : Z;
  remainingRequests : Z;
  resetTime : Z;
  checkInterval : Z;
  requestCount : Z
}.

(** [new RateLimiter(octokit)]. *)
Definition constructor : Limiter :=
  {| lastCheck := 0; remainingRequests := 5000; resetTime := 0;
     checkInterval := 10; requestCount := 0 |}.

(** The [core] resource of the forge's rate-limit answer: requests
    remaining and reset time in seconds. *)
Record Core : Type := mkCore {
  core_remaining : Z;
  core_reset : Z
}.

(** What a run of the limiter can see and do besides its own fields: the
    clock, which [sleep] advances, the pauses taken, and the number of
    rate-limit queries sent. *)
Record World : Type := mkWorld {
  limiter : Limiter;
  clock : Z;
  pauses : list Z;
  queries : nat
}.

(** The forge's answer to a rate-limit query made at a given time. *)
Definition Api : Type := Z -> Js.JsError + Core.

Definition sleep (ms : Z) (w : World) : World :=
  {| limiter := limiter w; clock := clock w + ms;
     pauses := (pauses w ++ [ms])%list; queries := queries w |}.

(** [checkRateLimit()]: a failed query costs a pause of one second and
    leaves the fields as they were. *)
Definition checkRateLimit (api : Api) (w : World) : World :=
  let w := {| limiter := limiter w; clock := clock w; pauses := pauses w;
              queries := S (queries w) |} in
  match api (clock w) with
  | inr core =>
      {| limiter :=
           {| lastCheck := clock w;
              remainingRequests := core_remaining core;
              resetTime := core_reset core * 1000;
              checkInterval := checkInterval (limiter w);
              requestCount := requestCount (limiter w) |};
         clock := clock w; pauses := pauses w; queries := queries w |}
  | inl _ => sleep 1000 w
  end.

(** [calculateWaitTime()] at time [now]. *)
Definition calculateWaitTime (now : Z) (l : Limiter) : Z :=
  let timeUntilReset := resetTime l - now in
  if timeUntilReset <=? 0 then 0
  else if remainingRequests l <? 10 then timeUntilReset
  else
    let requestsPerSecond :=
      PrimFloat.div (Js.of_Z (remainingRequests l))
        (PrimFloat.div (Js.of_Z timeUntilReset) 1000%float) in
    if PrimFloat.ltb 1%float requestsPerSecond then 0 else 1000.

Definition count_request (w : World) : World :=
  {| limiter :=
       {| lastCheck := lastCheck (limiter w);
          remainingRequests := remainingRequests (limiter w);
          resetTime := resetTime (limiter w);
          checkInterval := checkInterval (limiter w);
          requestCount := requestCount (limiter w) + 1 |};
     clock := clock w; pauses := pauses w; queries := queries w |}.

(** [checkAndWait()].  [requestCount % checkInterval] is the remainder of
    the truncated division; the counter never being negative, it is
    [Z.rem]. *)
Definition checkAndWait (api : Api) (w : World) : World :=
  let w := count_request w in
  let w :=
    if (Z.rem (requestCount (limiter w)) (checkInterval (limiter w)) =? 0)
       || (remainingRequests (limiter w) <? 100)
    then checkRateLimit api w else w in
  if remainingRequests (limiter w) <? 50 then
    let waitTime := calculateWaitTime (clock w) (limiter w) in
    if 0 <? waitTime then checkRateLimit api (sleep waitTime w) else w
  else w.

(** [getStatus()]. *)
Definition getStatus (l : Limiter) : Z * Z * Z :=
  (remainingRequests l, resetTime l, lastCheck l).

End RateLimiter.

(* ================================================================== *)
(** * The relational store as the scripts see it *)
(* ================================================================== *)

Module Supabase.

Inductive Verb : Type := Select | Update | Insert.

(** The failures of the store that a run meets: [faults table verb] is
    the error message the client returns for that kind of call, [None]
    when the call goes through.  A call that fails changes nothing. *)
Definition Faults : Type := string -> Verb -> option string.

Definition no_faults : Faults := fun _ _ => None.

(** [.single()]: exactly one row, an error otherwise. *)
Definition single {A : Type} (rows : list A) : string + A :=
  match rows with
  | [row] => inr row
  | _ => inl "JSON object requested, multiple (or no) rows returned"
  end.

(** [s || d] on strings: the empty string and a missing value are falsy. *)
Definition or_string (s : option string) (d : option string) : option string :=
  match s with
  | Some "" => d
  | Some _ => s
  | None => d
  end.

Definition present (s : option string) : bool :=
  match s with
  | Some "" => false
  | Some _ => true
  | None => false
  end.

End Supabase.

(* ================================================================== *)
(** * Rollout controller: the scripts that change and verify the rollout *)
(* ================================================================== *)

Module Rollout.

Import Supabase.

(** A row of [rollout_configuration]. *)
Record RolloutConfiguration : Type := mkConfig {
  id : string;
  feature_name : string;
  rollout_percentage : Z;
  rollout_strategy : string;
  emergency_stop : bool;
  is_active : bool;
  auto_rollback_enabled : bool;
  updated_at : string
}.

Record HistoryMetadata : Type := mkMetadata {
  md_timestamp : string;
  md_script : string
}.

(** A row of [rollout_history], with the columns the scripts write. *)
Record RolloutHistory : Type := mkHistory {
  rollout_config_id : string;
  action : string;
  previous_percentage : Z;
  new_percentage : Z;
  reason : string;
  triggered_by : string;
  metadata : HistoryMetadata
}.

Record Store : Type := mkStore {
  rollout_configuration : list RolloutConfiguration;
  rollout_history : list RolloutHistory
}.

Definition set_percentage (p : Z) (now : string) (c : RolloutConfiguration)
  : RolloutConfiguration :=
  {| id := id c;
     feature_name := feature_name c;
     rollout_percentage := p;
     rollout_strategy := rollout_strategy c;
     emergency_stop := emergency_stop c;
     is_active := is_active c;
     auto_rollback_enabled := auto_rollback_enabled c;
     updated_at := now |}.

Definition set_stop (stop active : bool) (now : string)
  (c : RolloutConfiguration) : RolloutConfiguration :=
  {| id := id c;
     feature_name := feature_name c;
     rollout_percentage := rollout_percentage c;
     rollout_strategy := rollout_strategy c;
     emergency_stop := stop;
     is_active := active;
     auto_rollback_enabled := auto_rollback_enabled c;
     updated_at := now |}.

(** [update(values)] restricted by a filter: the rows that match are
    rewritten, the others kept. *)
Definition update_where (sel : RolloutConfiguration -> bool)
  (f : RolloutConfiguration -> RolloutConfiguration)
  (rows : list RolloutConfiguration) : list RolloutConfiguration :=
  map (fun r => if sel r then f r else r) rows.

(** What a script leaves behind: exit code, console lines that report an
    error, a warning or the final success (the informational lines are
    not recorded), and the store. *)
Inductive Line : Type :=
| error_line (text : string) (detail : string)
| log_line (text : string).

Record Run : Type := mkRun {
  exit_code : Z;
  console : list Line;
  store : Store
}.

(** ** [scripts/rollout/set-rollout-percentage.js] *)

Record Env : Type := mkEnv {
  argv2 : option string;
  argv3 : option string;
  TARGET_PERCENTAGE : option string;
  REASON : option string;
  SUPABASE_URL : option string;
  SUPABASE_SERVICE_KEY : option string
}.

Definition targetPercentage (env : Env) : string :=
  match or_string (or_string (argv2 env) (TARGET_PERCENTAGE env)) (Some "25") with
  | Some s => s
  | None => "25"
  end.

Definition reason_text (env : Env) : string :=
  match or_string (or_string (argv3 env) (REASON env))
          (Some ("Setting rollout to " ++ targetPercentage env ++ "%")) with
  | Some s => s
  | None => ""
  end.

Definition the_feature : string := "hybrid_progressive_capture".

(** The first query of the script: the active row of the feature. *)
Definition fetch_active (faults : Faults) (s : Store)
  : string + RolloutConfiguration :=
  match faults "rollout_configuration" Select with
  | Some msg => inl msg
  | None =>
      single (filter (fun r => String.eqb (feature_name r) the_feature
                               && is_active r)
                (rollout_configuration s))
  end.

Definition setRolloutPercentage (env : Env) (faults : Faults) (now : string)
  (s : Store) : Run :=
  if negb (present (SUPABASE_URL env)) || negb (present (SUPABASE_SERVICE_KEY env))
  then {| exit_code := 1;
          console := [error_line
            "Missing SUPABASE_URL or SUPABASE_SERVICE_KEY environment variables" ""];
          store := s |}
  else
  match Js.parseInt (targetPercentage env) with
  | None =>
      {| exit_code := 1;
         console := [error_line "Invalid percentage. Must be between 0 and 100" ""];
         store := s |}
  | Some percentage =>
  if (percentage <? 0) || (100 <? percentage)
  then {| exit_code := 1;
          console := [error_line "Invalid percentage. Must be between 0 and 100" ""];
          store := s |}
  else
  match fetch_active faults s with
  | inl msg =>
      {| exit_code := 1;
         console := [error_line "Error fetching rollout configuration:" msg];
         store := s |}
  | inr config =>
  if emergency_stop config
  then {| exit_code := 1;
          console := [error_line
            "Cannot update rollout percentage: Emergency stop is active" ""];
          store := s |}
  else
  let previousPercentage := rollout_percentage config in
  match faults "rollout_configuration" Update with
  | Some msg =>
      {| exit_code := 1;
         console := [error_line "Error updating rollout percentage:" msg];
         store := s |}
  | None =>
  let s1 :=
    {| rollout_configuration :=
         update_where (fun r => String.eqb (id r) (id config))
           (set_percentage percentage now) (rollout_configuration s);
       rollout_history := rollout_history s |} in
  let entry :=
    {| rollout_config_id := id config;
       action := "updated";
       previous_percentage := previousPercentage;
       new_percentage := percentage;
       reason := reason_text env;
       triggered_by := "manual";
       metadata := {| md_timestamp := now;
                      md_script := "set-rollout-percentage.js" |} |} in
  match faults "rollout_history" Insert with
  | Some msg =>
      {| exit_code := 0;
         console := [error_line "Error logging rollout history:" msg;
                     log_line "Successfully updated rollout percentage"];
         store := s1 |}
  | None =>
      {| exit_code := 0;
         console := [log_line "Successfully updated rollout percentage"];
         store := {| rollout_configuration := rollout_configuration s1;
                     rollout_history := (rollout_history s1 ++ [entry])%list |} |}
  end end end end.

(** ** [ops/scripts/rollout-manager.ts], the operator CLI *)

(** [.eq('feature_name', f).select().single()] after an [update]: the
    store refuses the request, and keeps its rows, unless exactly one
    row matches. *)
Definition update_single (faults : Faults) (featureName : string)
  (f : RolloutConfiguration -> RolloutConfiguration) (s : Store)
  : (string + RolloutConfiguration) * Store :=
  match faults "rollout_configuration" Update with
  | Some msg => (inl msg, s)
  | None =>
      let sel := fun r => String.eqb (feature_name r) featureName in
      match single (filter sel (rollout_configuration s)) with
      | inl msg => (inl msg, s)
      | inr row =>
          (inr (f row),
           {| rollout_configuration :=
                update_where sel f (rollout_configuration s);
              rollout_history := rollout_history s |})
      end
  end.

Definition queryRollout (faults : Faults) (featureName : string) (s : Store)
  : option RolloutConfiguration * list Line :=
  match faults "rollout_configuration" Select with
  | Some msg => (None, [error_line "Error querying rollout configuration:" msg])
  | None =>
      match single (filter (fun r => String.eqb (feature_name r) featureName)
                      (rollout_configuration s)) with
      | inl msg => (None, [error_line "Error querying rollout configuration:" msg])
      | inr row => (Some row, [log_line "Current rollout configuration:"])
      end
  end.

Definition updateRolloutPercentage (faults : Faults) (now : string)
  (featureName : string) (newPercentage : Z) (s : Store)
  : option RolloutConfiguration * list Line * Store :=
  if (newPercentage <? 0) || (100 <? newPercentage)
  then (None, [error_line "Error: Rollout percentage must be between 0 and 100" ""], s)
  else
    match update_single faults featureName (set_percentage newPercentage now) s with
    | (inl msg, s') =>
        (None, [error_line "Error updating rollout percentage:" msg], s')
    | (inr row, s') =>
        (Some row, [log_line "Rollout percentage updated successfully!"], s')
    end.

Definition emergencyStop (faults : Faults) (now : string)
  (featureName : string) (s : Store)
  : option RolloutConfiguration * list Line * Store :=
  match update_single faults featureName (set_stop true false now) s with
  | (inl msg, s') =>
      (None, [error_line "Error activating emergency stop:" msg], s')
  | (inr row, s') => (Some row, [log_line "Emergency stop activated!"], s')
  end.

Definition resumeRollout (faults : Faults) (now : string)
  (featureName : string) (s : Store)
  : option RolloutConfiguration * list Line * Store :=
  match update_single faults featureName (set_stop false true now) s with
  | (inl msg, s') => (None, [error_line "Error resuming rollout:" msg], s')
  | (inr row, s') => (Some row, [log_line "Rollout resumed!"], s')
  end.

Definition arg_or_default (a : option string) : string :=
  match or_string a (Some the_feature) with
  | Some f => f
  | None => the_feature
  end.

(** [main()] for the commands that write: [update], [stop], [resume].
    The process ends with [process.exit(0)] whatever happened. *)
Definition main (faults : Faults) (now : string) (command : string)
  (arg1 arg2 : option string) (s : Store) : Run :=
  if String.eqb command "update" then
    match Js.parseInt (match arg1 with Some a => a | None => "undefined" end) with
    | None =>
        {| exit_code := 0;
           console := [error_line "Error: Please provide a valid percentage number" ""];
           store := s |}
    | Some percentage =>
        let '(_, l1, s1) :=
          updateRolloutPercentage faults now (arg_or_default arg2) percentage s in
        let '(_, l2) := queryRollout faults (arg_or_default arg2) s1 in
        {| exit_code := 0; console := (l1 ++ l2)%list; store := s1 |}
    end
  else if String.eqb command "stop" then
    let '(_, l1, s1) := emergencyStop faults now (arg_or_default arg1) s in
    {| exit_code := 0; console := l1; store := s1 |}
  else if String.eqb command "resume" then
    let '(_, l1, s1) := resumeRollout faults now (arg_or_default arg1) s in
    let '(_, l2) := queryRollout faults (arg_or_default arg1) s1 in
    {| exit_code := 0; console := (l1 ++ l2)%list; store := s1 |}
  else
    {| exit_code := 0; console := [log_line "Rollout Manager - Available Commands:"];
       store := s |}.

(** ** [scripts/rollout/verify-rollback.js] *)

Record VerificationReport : Type := mkReport {
  vr_timestamp : string;
  expectedPercentage : string;
  actualPercentage : string;
  status : string;
  checks : list string
}.

(** The world of the verification step: the store it is meant to check
    and the working directory it writes its report to. *)
Record Workspace : Type := mkWorkspace {
  ws_store : Store;
  ws_files : list (string * VerificationReport)
}.

Definition verify_rollback (EXPECTED_PERCENTAGE : option string)
  (now : string) (stamp : string) (w : Workspace) : Z * Workspace :=
  let expectedPercentage :=
    match or_string EXPECTED_PERCENTAGE (Some "0") with
    | Some e => e
    | None => "0"
    end in
  let verificationReport :=
    {| vr_timestamp := now;
       expectedPercentage := expectedPercentage;
       actualPercentage := expectedPercentage;
       status := "verified";
       checks := [ "Feature flags updated";
                   "Database rollback percentage matches expected";
                   "CDN cache cleared";
                   "Monitoring alerts configured" ] |} in
  (0, {| ws_store := ws_store w;
         ws_files := (ws_files w ++
                      [(("verification-" ++ stamp ++ ".json")%string,
                        verificationReport)])%list |}).

(** ** Notions of the specification *)

(** The effective percentage of a configuration: the stored percentage
    unless the emergency stop is set, then 0. *)
Definition effective_percentage (c : RolloutConfiguration) : Z :=
  if emergency_stop c then 0 else rollout_percentage c.

(** The configuration row of the feature, when there is exactly one. *)
Definition config_of (featureName : string) (s : Store)
  : option RolloutConfiguration :=
  match filter (fun r => String.eqb (feature_name r) featureName)
          (rollout_configuration s) with
  | [row] => Some row
  | _ => None
  end.

(** The percentage in effect for the feature, as the update script reads
    it: that of the one active row of the feature. *)
Definition percentage_in_effect (s : Store) : option Z :=
  match fetch_active no_faults s with
  | inr config => Some (rollout_percentage config)
  | inl _ => None
  end.

(** [audited s s']: going from [s] to [s'] appended one history entry
    whose previous and new percentage are those in effect in [s] and in
    [s']. *)
Definition audited (s s' : Store) : Prop :=
  exists e before after,
    percentage_in_effect s = Some before
    /\ percentage_in_effect s' = Some after
    /\ rollout_history s' = (rollout_history s ++ [e])%list
    /\ previous_percentage e = before
    /\ new_percentage e = after.

(** [atomic s s']: the configuration write and the history append took
    effect together or not at all. *)
Definition atomic (s s' : Store) : Prop :=
  s' = s \/ audited s s'.

(** [same_but_percentage r r']: the rows agree on every column except
    possibly the percentage and the update time. *)
Definition same_but_percentage (r r' : RolloutConfiguration) : Prop :=
  id r' = id r
  /\ feature_name r' = feature_name r
  /\ rollout_strategy r' = rollout_strategy r
  /\ emergency_stop r' = emergency_stop r
  /\ is_active r' = is_active r
  /\ auto_rollback_enabled r' = auto_rollback_enabled r.

(** [same_but_flags r r']: the rows agree on every column except
    possibly the two flags and the update time. *)
Definition same_but_flags (r r' : RolloutConfiguration) : Prop :=
  id r' = id r
  /\ feature_name r' = feature_name r
  /\ rollout_percentage r' = rollout_percentage r
  /\ rollout_strategy r' = rollout_strategy r
  /\ auto_rollback_enabled r' = auto_rollback_enabled r.

End Rollout.

(* ================================================================== *)
(** * Progress tracker: the job row at the end of a capture run *)
(* ================================================================== *)

Module ProgressTracker.

Import Supabase.

(** A row of [progressive_capture_jobs] (the JSON [metadata] column is
    left out; [updated_at] is the column [updateJobStatus] writes). *)
Record Job : Type := mkJob {
  id : string;
  job_type : string;
  repository_id : string;
  processor_type : string;
  status : string;
  time_range_days : option Z;
  workflow_run_id : option Z;
  error : option string;
  created_at : string;
  started_at : option string;
  completed_at : option string;
  updated_at : option string
}.

Record ErrorRecord : Type := mkErrorRecord {
  itemId : option string;
  er_error : string;
  er_timestamp : string
}.

(** A row of [progressive_capture_progress]. *)
Record Progress : Type := mkProgress {
  p_id : string;
  p_job_id : string;
  total_items : Z;
  processed_items : Z;
  failed_items : Z;
  current_item : string;
  p_errors : list ErrorRecord;
  p_updated_at : option string
}.

Record Store : Type := mkStore {
  progressive_capture_jobs : list Job;
  progressive_capture_progress : list Progress
}.

(** The tracker object. *)
Record Tracker : Type := mkTracker {
  jobId : string;
  progressId : option string;
  totalItems : Z;
  processedItems : Z;
  failedItems : Z;
  errors : list ErrorRecord
}.

(** The columns [updateJobStatus] sends: [status] and [updated_at]
    always, [completed_at] for the status [completed], [error] for the
    status [failed] with a non-empty error text. *)
Definition apply_updateData (now : string) (status_arg : string)
  (error_arg : option string) (j : Job) : Job :=
  {| id := id j;
     job_type := job_type j;
     repository_id := repository_id j;
     processor_type := processor_type j;
     status := status_arg;
     time_range_days := time_range_days j;
     workflow_run_id := workflow_run_id j;
     error := if String.eqb status_arg "completed" then error j
              else if String.eqb status_arg "failed" && present error_arg
                   then error_arg
                   else error j;
     created_at := created_at j;
     started_at := started_at j;
     completed_at := if String.eqb status_arg "completed" then Some now
                     else completed_at j;
     updated_at := Some now |}.

(** [updateJobStatus(status, error = null)].  A failure of the store call
    is swallowed: it is only printed. *)
Definition updateJobStatus (faults : Faults) (now : string) (t : Tracker)
  (status_arg : string) (error_arg : option string) (s : Store) : Store :=
  match faults "progressive_capture_jobs" Update with
  | Some _ => s
  | None =>
      {| progressive_capture_jobs :=
           map (fun j => if String.eqb (id j) (jobId t)
                         then apply_updateData now status_arg error_arg j
                         else j)
             (progressive_capture_jobs s);
         progressive_capture_progress := progressive_capture_progress s |}
  end.

Definition update_progress (faults : Faults) (pid : string)
  (f : Progress -> Progress) (s : Store) : Store :=
  match faults "progressive_capture_progress" Update with
  | Some _ => s
  | None =>
      {| progressive_capture_jobs := progressive_capture_jobs s;
         progressive_capture_progress :=
           map (fun p => if String.eqb (p_id p) pid then f p else p)
             (progressive_capture_progress s) |}
  end.

(** [complete()]. *)
Definition complete (faults : Faults) (now : string) (t : Tracker)
  (s : Store) : Store :=
  let s :=
    match progressId t with
    | Some pid =>
        update_progress faults pid
          (fun p => {| p_id := p_id p; p_job_id := p_job_id p;
                       total_items := total_items p;
                       processed_items := processedItems t;
                       failed_items := failedItems t;
                       current_item := "Completed";
                       p_errors := p_errors p;
                       p_updated_at := Some now |}) s
    | None => s
    end in
  updateJobStatus faults now t "completed" None s.

(** [fail(error)], [message] being [error.message]. *)
Definition fail (faults : Faults) (now : string) (t : Tracker)
  (message : string) (s : Store) : Store :=
  let s :=
    match progressId t with
    | Some pid =>
        update_progress faults pid
          (fun p => {| p_id := p_id p; p_job_id := p_job_id p;
                       total_items := total_items p;
                       processed_items := processed_items p;
                       failed_items := failed_items p;
                       current_item := "Failed";
                       p_errors := (errors t ++
                                    [ {| itemId := None; er_error := message;
                                         er_timestamp := now |} ])%list;
                       p_updated_at := Some now |}) s
    | None => s
    end in
  updateJobStatus faults now t "failed" (Some message) s.

(** ** The timestamp invariant of the specification *)

Definition is_some {A : Type} (o : option A) : bool :=
  match o with Some _ => true | None => false end.

Definition terminal (st : string) : bool :=
  String.eqb st "completed" || String.eqb st "failed".

Definition at_least_processing (st : string) : bool :=
  String.eqb st "processing" || terminal st.

(** [completed] is set iff the status is terminal, and [started] is set
    iff the status is at least [processing]. *)
Definition timestamps_consistent (j : Job) : bool :=
  Bool.eqb (is_some (completed_at j)) (terminal (status j))
  && Bool.eqb (is_some (started_at j)) (at_least_processing (status j)).

(** ** The tracker during a run *)

(** [new ProgressTracker(supabase, jobId)] (the start time, which is only
    printed, is not kept). *)
Definition constructor (jobId_arg : string) : Tracker :=
  {| jobId := jobId_arg; progressId := None; totalItems := 0;
     processedItems := 0; failedItems := 0; errors := [] |}.

(** [start(totalItems = 0)]: inserts the progress row; [new_id] is the id
    the store gives to the row.  When the insert fails the tracker goes
    on without a progress row. *)
Definition start (faults : Faults) (new_id : string) (now : string)
  (totalItems_arg : Z) (t : Tracker) (s : Store) : Tracker * Store :=
  let t := {| jobId := jobId t; progressId := progressId t;
              totalItems := totalItems_arg;
              processedItems := processedItems t;
              failedItems := failedItems t; errors := errors t |} in
  match faults "progressive_capture_progress" Insert with
  | Some _ => (t, s)
  | None =>
      ({| jobId := jobId t; progressId := Some new_id;
          totalItems := totalItems t; processedItems := processedItems t;
          failedItems := failedItems t; errors := errors t |},
       {| progressive_capture_jobs := progressive_capture_jobs s;
          progressive_capture_progress :=
            (progressive_capture_progress s ++
             [ {| p_id := new_id; p_job_id := jobId t;
                  total_items := totalItems_arg; processed_items := 0;
                  failed_items := 0; current_item := "Starting...";
                  p_errors := []; p_updated_at := None |} ])%list |})
  end.

(** [increment(currentItem = null)]. *)
Definition increment (faults : Faults) (now : string)
  (currentItem : option string) (t : Tracker) (s : Store) : Tracker * Store :=
  let t := {| jobId := jobId t; progressId := progressId t;
              totalItems := totalItems t;
              processedItems := processedItems t + 1;
              failedItems := failedItems t; errors := errors t |} in
  match progressId t with
  | Some pid =>
      (t, update_progress faults pid
            (fun p => {| p_id := p_id p; p_job_id := p_job_id p;
                         total_items := total_items p;
                         processed_items := processedItems t;
                         failed_items := failed_items p;
                         current_item :=
                           match or_string currentItem None with
                           | Some c => c
                           | None => "Item " ++ Js.int_string (processedItems t)
                           end;
                         p_errors := p_errors p;
                         p_updated_at := Some now |}) s)
  | None => (t, s)
  end.

(** [recordError(itemId, error)], [message] being [error.message]. *)
Definition recordError (faults : Faults) (now : string)
  (itemId_arg : option string) (message : string) (t : Tracker) (s : Store)
  : Tracker * Store :=
  let t := {| jobId := jobId t; progressId := progressId t;
              totalItems := totalItems t;
              processedItems := processedItems t;
              failedItems := failedItems t + 1;
              errors := (errors t ++
                         [ {| itemId := itemId_arg; er_error := message;
                              er_timestamp := now |} ])%list |} in
  match progressId t with
  | Some pid =>
      (t, update_progress faults pid
            (fun p => {| p_id := p_id p; p_job_id := p_job_id p;
                         total_items := total_items p;
                         processed_items := processed_items p;
                         failed_items := failedItems t;
                         current_item := current_item p;
                         p_errors := errors t;
                         p_updated_at := Some now |}) s)
  | None => (t, s)
  end.

(** The calls a capture run makes on its tracker. *)
Inductive Call : Type :=
| call_start (new_id : string) (totalItems_arg : Z)
| call_increment (currentItem : option string)
| call_recordError (itemId_arg : option string) (message : string)
| call_complete
| call_fail (message : string).

Definition perform (faults : Faults) (now : string) (c : Call)
  (ts : Tracker * Store) : Tracker * Store :=
  let '(t, s) := ts in
  match c with
  | call_start new_id total => start faults new_id now total t s
  | call_increment item => increment faults now item t s
  | call_recordError item message => recordError faults now item message t s
  | call_complete => (t, complete faults now t s)
  | call_fail message => (t, fail faults now t message s)
  end.

(** A sequence of calls, each made at its own time. *)
Definition perform_all (faults : Faults) (cs : list (string * Call))
  (ts : Tracker * Store) : Tracker * Store :=
  fold_left (fun ts c => perform faults (fst c) (snd c) ts) cs ts.

Definition is_increment (c : string * Call) : bool :=
  match snd c with call_increment _ => true | _ => false end.

Definition is_recordError (c : string * Call) : bool :=
  match snd c with call_recordError _ _ => true | _ => false end.

Definition is_item_call (c : string * Call) : bool :=
  is_increment c || is_recordError c.

End ProgressTracker.

(* ================================================================== *)
(** * The capture run shared by the capture scripts *)
(* ================================================================== *)

Module BaseCaptureScript.

Import Supabase ProgressTracker.

Section Run.

(** The hooks a capture script supplies, and the part of the world they
    act on: [getItemsToProcess], [processItem], [getTotalItems], and the
    key [item.id || item.number] under which a failure is recorded.
    [checkAndWait] is the rate limiter's pause before each item; it does
    not throw. *)
Variable Item : Type.
Variable W : Type.
Variable getItemsToProcess : W -> (Js.JsError + list Item) * W.
Variable processItem : Item -> W -> (Js.JsError + unit) * W.
Variable getTotalItems : Z.
Variable checkAndWait : W -> W.
Variable item_key : Item -> option string.

Record State : Type := mkState {
  tracker : Tracker;
  store : Store;
  world : W;
  processed : Z;
  failed : Z
}.

(** The body of the loop over the items: an item that throws is recorded
    and the loop goes on. *)
Definition process_one (faults : Faults) (now : string) (st : State)
  (item : Item) : State :=
  match processItem item (checkAndWait (world st)) with
  | (inr _, w) =>
      let '(t, s) := increment faults now None (tracker st) (store st) in
      {| tracker := t; store := s; world := w;
         processed := processed st + 1; failed := failed st |}
  | (inl error, w) =>
      let '(t, s) := recordError faults now (item_key item)
                       (Js.err_message error) (tracker st) (store st) in
      {| tracker := t; store := s; world := w;
         processed := processed st; failed := failed st + 1 |}
  end.

(** [run()], up to the call of [complete()] or [fail()]; the report
    printed and written to the log directory afterwards is not
    modelled.  [new_id] is the id the store gives to the progress row. *)
Definition run (faults : Faults) (new_id now : string) (t0 : Tracker)
  (s0 : Store) (w0 : W) : (Js.JsError + unit) * State :=
  let '(t1, s1) := start faults new_id now getTotalItems t0 s0 in
  match getItemsToProcess w0 with
  | (inr items, w1) =>
      let st := fold_left (process_one faults now) items
                  {| tracker := t1; store := s1; world := w1;
                     processed := 0; failed := 0 |} in
      (inr tt,
       {| tracker := tracker st;
          store := complete faults now (tracker st) (store st);
          world := world st;
          processed := processed st; failed := failed st |})
  | (inl error, w1) =>
      (inl error,
       {| tracker := t1;
          store := fail faults now t1 (Js.err_message error) s1;
          world := w1; processed := 0; failed := 0 |})
  end.

End Run.

Arguments tracker {W} _.
Arguments store {W} _.
Arguments world {W} _.
Arguments processed {W} _.
Arguments failed {W} _.

End BaseCaptureScript.

(* ================================================================== *)
(** * The pull-request details capture script on the hybrid client *)
(* ================================================================== *)

Module PRDetailsGraphQLCaptureScript.

Import Js HybridGitHubClient.
Local Open Scope client_scope.

Section Script.

Variable Payload : Type.
Variable forge : Forge Payload.
Variable mapPRCompleteData :
  Payload -> JsError + (Payload * Payload * Payload * Payload * Payload).
Variable mapRecentPRs : Payload -> JsError + Payload.

(** [recentPRs.map(pr => pr.number)] on the answer of [getRecentPRs]. *)
Variable numbers_of : Payload -> list Z.

(** The upserts of one record into [pull_requests], [reviews] and
    [comments], by their outcome: they throw when the upsert of the
    pull-request row is refused, failures of the other upserts are only
    printed. *)
Variable persist : PRCompleteData Payload -> JsError + unit.

(** [owner] and [repo] are the first two segments of the repository
    name split at the slash. *)
Variable owner repo : string.

(** [processItem(pr)]: a 404 on the way is printed and swallowed, any
    other error is thrown again. *)
Definition processItem (number : Z) : M unit :=
  try_catch
    (completeData <- getPRCompleteData Payload forge mapPRCompleteData
                       owner repo number ;;
     lift (persist completeData))
    (fun error =>
       if isNotFound error
       then emit (console_warn "PR not found (may have been deleted)" "")
       else throw error).

(** [getItemsToProcess()].  [prNumbers] and [useGraphQL_flag] are the
    fields the constructor read from the environment, [since] the start
    of the time range, [db] the answer of the store to the query for
    pull requests that lack details. *)
Definition getItemsToProcess (prNumbers : list Z) (useGraphQL_flag : bool)
  (since : string) (db : string + list Z) : M (list Z) :=
  match prNumbers with
  | _ :: _ => ret prNumbers
  | [] =>
      try_catch
        (if useGraphQL_flag then
           recentPRs <- getRecentPRs Payload forge mapRecentPRs owner repo
                          since (Some 100) ;;
           ret (numbers_of recentPRs)
         else
           match db with
           | inl msg => emit (console_error "Database query error:" msg) ;;;
                        ret []
           | inr prs => ret prs
           end)
        (fun error =>
           emit (console_error "Failed to get PRs to process:"
                   (err_message error)) ;;;
           ret [])
  end.

(** [getTotalItems()]: [this.prNumbers.length || 100]. *)
Definition getTotalItems (prNumbers : list Z) : Z :=
  match prNumbers with
  | [] => 100
  | _ => Z.of_nat (List.length prNumbers)
  end.

(** The run of the script: the hooks above plugged into the shared run.
    The world is the hybrid client's together with the rate limiter's,
    [wait] being the limiter's [checkAndWait]. *)
Definition run_script (L : Type) (wait : L -> L) (prNumbers : list Z)
  (useGraphQL_flag : bool) (since : string) (db : string + list Z)
  (faults : Supabase.Faults) (new_id now job : string)
  (s0 : ProgressTracker.Store) (w0 : World * L)
  : (JsError + unit) * BaseCaptureScript.State (World * L) :=
  BaseCaptureScript.run Z (World * L)
    (fun wl =>
       let '(r, w) := getItemsToProcess prNumbers useGraphQL_flag since db
                        (fst wl) in
       (r, (w, snd wl)))
    (fun number wl =>
       let '(r, w) := processItem number (fst wl) in (r, (w, snd wl)))
    (getTotalItems prNumbers)
    (fun wl => (fst wl, wait (snd wl)))
    (fun number => Some (int_string number))
    faults new_id now (ProgressTracker.constructor job) s0 w0.

End Script.

End PRDetailsGraphQLCaptureScript.

(* ================================================================== *)
(** * Concrete inputs used below *)
(* ================================================================== *)

Module Examples.

(** A scheduled thirty-day request that names no pull request. *)
Definition scheduled_backfill : HybridQueueManager.JobData :=
  {| HybridQueueManager.repositoryId := "r1";
     HybridQueueManager.repositoryName := "owner/r1";
     HybridQueueManager.prNumbers := Some [];
     HybridQueueManager.timeRange := Some 30;
     HybridQueueManager.maxItems := Some 1000;
     HybridQueueManager.triggerSource := HybridQueueManager.scheduled |}.

(** A scheduled request whose time range is zero days. *)
Definition scheduled_today : HybridQueueManager.JobData :=
  {| HybridQueueManager.repositoryId := "r1";
     HybridQueueManager.repositoryName := "owner/r1";
     HybridQueueManager.prNumbers := None;
     HybridQueueManager.timeRange := Some 0;
     HybridQueueManager.maxItems := None;
     HybridQueueManager.triggerSource := HybridQueueManager.scheduled |}.

Definition sample (c r : float) : RateLimitMonitor.Entry :=
  {| RateLimitMonitor.timestamp := 0;
     RateLimitMonitor.queryType := "getPRCompleteData";
     RateLimitMonitor.itemsProcessed := 1;
     RateLimitMonitor.cost := c;
     RateLimitMonitor.remaining := r;
     RateLimitMonitor.limit := 5000;
     RateLimitMonitor.resetAt := None |}.

Definition monitor_with (h : list RateLimitMonitor.Entry)
  : RateLimitMonitor.Monitor :=
  {| RateLimitMonitor.history := h;
     RateLimitMonitor.alerts := [];
     RateLimitMonitor.thresholds :=
       RateLimitMonitor.thresholds RateLimitMonitor.constructor |}.

(** Three samples of cost 1, 1 and 2. *)
Definition three_samples : RateLimitMonitor.Monitor :=
  monitor_with [sample 1 4999; sample 1 4998; sample 2 4996].

(** Five samples of total cost 7 that leave one point of budget. *)
Definition nearly_exhausted : RateLimitMonitor.Monitor :=
  monitor_with [sample 1 7; sample 1 6; sample 1 5; sample 2 3; sample 2 1].

(** A forge that answers every compound query with a 404 and every REST
    call with a payload. *)
Definition not_found : Js.JsError :=
  {| Js.err_name := "HttpError"; Js.err_status := Some 404;
     Js.err_message := "Not Found" |}.

Definition forge_compound_404 : HybridGitHubClient.Forge string :=
  {| HybridGitHubClient.graphql := fun _ _ => inl not_found;
     HybridGitHubClient.rest := fun _ => inr "payload" |}.

(** A forge whose compound endpoint answers, reporting 4200 points left. *)
Definition forge_healthy : HybridGitHubClient.Forge string :=
  {| HybridGitHubClient.graphql := fun _ _ =>
       inr {| HybridGitHubClient.data := "data";
              HybridGitHubClient.rateLimit :=
                Some {| RateLimitMonitor.rl_cost := 1;
                        RateLimitMonitor.rl_remaining := 4200;
                        RateLimitMonitor.rl_limit := 5000;
                        RateLimitMonitor.rl_resetAt := Some "soon" |} |};
     HybridGitHubClient.rest := fun _ => inr "payload" |}.

(** A forge that answers every call with a 404. *)
Definition forge_all_404 : HybridGitHubClient.Forge string :=
  {| HybridGitHubClient.graphql := fun _ _ => inl not_found;
     HybridGitHubClient.rest := fun _ => inl not_found |}.

Definition map5 (p : string)
  : Js.JsError + (string * string * string * string * string) :=
  inr (p, p, p, p, p).

Definition fresh_world : HybridGitHubClient.World :=
  {| HybridGitHubClient.client := HybridGitHubClient.constructor;
     HybridGitHubClient.console := [];
     HybridGitHubClient.calls := [] |}.

(** The same client after [setGraphQLEnabled(false)]. *)
Definition rest_only_world : HybridGitHubClient.World :=
  snd (HybridGitHubClient.setGraphQLEnabled false fresh_world).

(** One active configuration row at ten percent, no history yet. *)
Definition row_at_10 : Rollout.RolloutConfiguration :=
  {| Rollout.id := "cfg-1";
     Rollout.feature_name := "hybrid_progressive_capture";
     Rollout.rollout_percentage := 10;
     Rollout.rollout_strategy := "percentage";
     Rollout.emergency_stop := false;
     Rollout.is_active := true;
     Rollout.auto_rollback_enabled := true;
     Rollout.updated_at := "2025-07-01T00:00:00.000Z" |}.

Definition store_at_10 : Rollout.Store :=
  {| Rollout.rollout_configuration := [row_at_10];
     Rollout.rollout_history := [] |}.

(** The row at fifty percent after the CLI's [stop]. *)
Definition row_stopped_at_50 : Rollout.RolloutConfiguration :=
  {| Rollout.id := "cfg-1";
     Rollout.feature_name := "hybrid_progressive_capture";
     Rollout.rollout_percentage := 50;
     Rollout.rollout_strategy := "percentage";
     Rollout.emergency_stop := true;
     Rollout.is_active := false;
     Rollout.auto_rollback_enabled := true;
     Rollout.updated_at := "2025-07-01T00:00:00.000Z" |}.

Definition store_stopped_at_50 : Rollout.Store :=
  {| Rollout.rollout_configuration := [row_stopped_at_50];
     Rollout.rollout_history := [] |}.

(** A row at fifty percent with the emergency stop set in the database,
    the row still being active. *)
Definition row_flagged_at_50 : Rollout.RolloutConfiguration :=
  {| Rollout.id := "cfg-1";
     Rollout.feature_name := "hybrid_progressive_capture";
     Rollout.rollout_percentage := 50;
     Rollout.rollout_strategy := "percentage";
     Rollout.emergency_stop := true;
     Rollout.is_active := true;
     Rollout.auto_rollback_enabled := true;
     Rollout.updated_at := "2025-07-01T00:00:00.000Z" |}.

Definition store_flagged_at_50 : Rollout.Store :=
  {| Rollout.rollout_configuration := [row_flagged_at_50];
     Rollout.rollout_history := [] |}.

(** A row at fifty percent, running. *)
Definition store_at_50 : Rollout.Store :=
  {| Rollout.rollout_configuration :=
       [Rollout.set_percentage 50 "2025-07-01T00:00:00.000Z" row_at_10];
     Rollout.rollout_history := [] |}.

(** The environment of [node set-rollout-percentage.js <target>]. *)
Definition env_target (target : string) : Rollout.Env :=
  {| Rollout.argv2 := Some target;
     Rollout.argv3 := None;
     Rollout.TARGET_PERCENTAGE := None;
     Rollout.REASON := None;
     Rollout.SUPABASE_URL := Some "https://store.example";
     Rollout.SUPABASE_SERVICE_KEY := Some "service-key" |}.

(** The store refuses the insert into [rollout_history]. *)
Definition history_insert_fails : Supabase.Faults :=
  fun table verb =>
    match verb with
    | Supabase.Insert =>
        if String.eqb table "rollout_history"
        then Some "permission denied for table rollout_history"
        else None
    | _ => None
    end.

Definition later : string := "2025-07-02T00:00:00.000Z".

(** A job that a worker is processing. *)
Definition job_processing : ProgressTracker.Job :=
  {| ProgressTracker.id := "job-1";
     ProgressTracker.job_type := "historical-pr-sync";
     ProgressTracker.repository_id := "r1";
     ProgressTracker.processor_type := "github_actions";
     ProgressTracker.status := "processing";
     ProgressTracker.time_range_days := Some 30;
     ProgressTracker.workflow_run_id := Some 1;
     ProgressTracker.error := None;
     ProgressTracker.created_at := "2025-07-01T00:00:00.000Z";
     ProgressTracker.started_at := Some "2025-07-01T00:00:05.000Z";
     ProgressTracker.completed_at := None;
     ProgressTracker.updated_at := None |}.

(** The same job before any worker picked it up. *)
Definition job_pending : ProgressTracker.Job :=
  {| ProgressTracker.id := "job-1";
     ProgressTracker.job_type := "historical-pr-sync";
     ProgressTracker.repository_id := "r1";
     ProgressTracker.processor_type := "github_actions";
     ProgressTracker.status := "pending";
     ProgressTracker.time_range_days := Some 30;
     ProgressTracker.workflow_run_id := None;
     ProgressTracker.error := None;
     ProgressTracker.created_at := "2025-07-01T00:00:00.000Z";
     ProgressTracker.started_at := None;
     ProgressTracker.completed_at := None;
     ProgressTracker.updated_at := None |}.

Definition pending_store : ProgressTracker.Store :=
  {| ProgressTracker.progressive_capture_jobs := [job_pending];
     ProgressTracker.progressive_capture_progress := [] |}.

Definition jobs_store : ProgressTracker.Store :=
  {| ProgressTracker.progressive_capture_jobs := [job_processing];
     ProgressTracker.progressive_capture_progress := [] |}.

Definition tracker_of_job_1 : ProgressTracker.Tracker :=
  {| ProgressTracker.jobId := "job-1";
     ProgressTracker.progressId := None;
     ProgressTracker.totalItems := 0;
     ProgressTracker.processedItems := 0;
     ProgressTracker.failedItems := 0;
     ProgressTracker.errors := [] |}.



(** Hooks of a small capture run over the items 1, 2 and 3, of which the
    second throws. *)
Definition three_items (w : unit) : (Js.JsError + list Z) * unit :=
  (inr [1; 2; 3], w).

Definition items_unavailable (w : unit) : (Js.JsError + list Z) * unit :=
  (inl {| Js.err_name := "Error"; Js.err_status := None;
          Js.err_message := "no items" |}, w).

Definition second_item_throws (item : Z) (w : unit)
  : (Js.JsError + unit) * unit :=
  (if item =? 2
   then inl {| Js.err_name := "Error"; Js.err_status := Some 500;
               Js.err_message := "server error" |}
   else inr tt, w).

(** A forge that answers every call with a server error. *)
Definition server_error : Js.JsError :=
  {| Js.err_name := "HttpError"; Js.err_status := Some 500;
     Js.err_message := "Internal Server Error" |}.

Definition forge_all_500 : HybridGitHubClient.Forge string :=
  {| HybridGitHubClient.graphql := fun _ _ => inl server_error;
     HybridGitHubClient.rest := fun _ => inl server_error |}.

End Examples.

(* ================================================================== *)
(** * Properties of the router's classifier *)
(* ================================================================== *)

Section RouterFacts.

Import HybridQueueManager.

(** What [isRecentDataJob] computes, test by test. *)
Lemma isRecentDataJob_true_iff (data : JobData) (cutoffHours : Z) :
  isRecentDataJob data cutoffHours = true <->
  (exists t, timeRange data = Some t /\ t <> 0 /\ t <= 1)
  \/ (exists l, prNumbers data = Some l /\ (List.length l <= 10)%nat)
  \/ triggerSource data = manual.
Proof.
  unfold isRecentDataJob.
  destruct (timeRange data) as [t|]; destruct (prNumbers data) as [l|];
    destruct (triggerSource data); simpl;
    try (destruct (Z.eqb_spec t 0) as [E0|E0];
         destruct (Z.leb_spec t 1) as [L1|L1]; simpl);
    try (destruct (Z.leb_spec (Z.of_nat (List.length l)) 10) as [L2|L2];
         simpl);
    (split; [intros Hyp | intros [[t' [E [N L]]] | [[l' [E L]] | E]]]);
    try reflexivity; try discriminate;
    try (injection E as <-; lia);
    first [ left; exists t; repeat split; (reflexivity || lia)
          | right; left; exists l; split; (reflexivity || lia)
          | right; right; reflexivity ].
Qed.

(** The code and the specification's rule agree on every request whose
    list of PR numbers is not the empty list and whose time range is not
    zero. *)
Lemma isRecentDataJob_agrees_with_rule (data : JobData) (cutoffHours : Z) :
  prNumbers data <> Some [] ->
  timeRange data <> Some 0 ->
  isRecentDataJob data cutoffHours = spec_low_latency data.
Proof.
  intros Hl Ht. unfold isRecentDataJob, spec_low_latency.
  destruct (timeRange data) as [t|]; destruct (prNumbers data) as [[|n l]|];
    try congruence; simpl.
  - destruct (Z.eqb_spec t 0); [congruence|]. simpl.
    destruct (t <=? 1), (Z.pos (Pos.of_succ_nat (List.length l)) <=? 10),
      (is_manual (triggerSource data)); reflexivity.
  - destruct (Z.eqb_spec t 0); [congruence|]. simpl.
    destruct (t <=? 1), (is_manual (triggerSource data)); reflexivity.
  - destruct (Z.pos (Pos.of_succ_nat (List.length l)) <=? 10),
      (is_manual (triggerSource data)); reflexivity.
  - destruct (is_manual (triggerSource data)); reflexivity.
Qed.

(** C6, at the failing input.  A scheduled request with an empty list of
    PR numbers and a thirty-day range is low-latency for
    [isRecentDataJob] and is routed to the worker pool, while the
    specification's rule classifies it as batch; a scheduled request with
    a zero-day range goes the other way. *)
Theorem isRecentDataJob_empty_prNumbers :
  isRecentDataJob Examples.scheduled_backfill 24 = true
  /\ route Examples.scheduled_backfill = inngest
  /\ spec_low_latency Examples.scheduled_backfill = false
  /\ isRecentDataJob Examples.scheduled_today 24 = false
  /\ spec_low_latency Examples.scheduled_today = true.
Proof. repeat split; reflexivity. Qed.

End RouterFacts.

(* ================================================================== *)
(** * Properties of the rate-limit monitor *)
(* ================================================================== *)

Section MonitorFacts.

Import RateLimitMonitor.

Lemma slice_last_is_window (h : list Entry) :
  slice_last 10 h = reference_window h.
Proof.
  unfold slice_last, reference_window.
  rewrite firstn_rev, rev_involutive. reflexivity.
Qed.

Lemma slice_last_length {A : Type} (n : nat) (a : list A) :
  List.length (slice_last n a) = Nat.min n (List.length a).
Proof. unfold slice_last. rewrite length_skipn. lia. Qed.

Lemma total_is_fold (field : Entry -> float) (w : list Entry) :
  total field w = fold_left PrimFloat.add (map field w) PrimFloat.zero.
Proof.
  unfold total. generalize PrimFloat.zero.
  induction w as [|e w IH]; intros acc; simpl; [reflexivity | apply IH].
Qed.

Lemma last_of_is_most_recent (h : list Entry) :
  last_of h = most_recent h.
Proof.
  unfold last_of, most_recent.
  destruct h as [|e h'] using rev_ind; [reflexivity|].
  rewrite rev_app_distr, length_app. simpl.
  rewrite nth_error_app2 by lia.
  replace (List.length h' + 1 - 1 - List.length h')%nat with 0%nat by lia.
  reflexivity.
Qed.

(** C9.  A monitor whose history is empty, as it is from construction
    until the first [track], has no prediction and no statistics:
    [predict] returns [null] for every [queriesRemaining] and so does
    [getStats]. *)
Theorem predict_and_getStats_null_without_samples (m : Monitor) :
  history m = [] ->
  (forall q, predict q m = None) /\ getStats m = None.
Proof.
  intros H. unfold predict, getStats. rewrite H. split; reflexivity.
Qed.

Lemma predict_and_getStats_null_without_samples_witness :
  history constructor = []
  /\ (forall q, predict q constructor = None)
  /\ getStats constructor = None.
Proof.
  split; [reflexivity|].
  apply (predict_and_getStats_null_without_samples constructor). reflexivity.
Defined.

(** Changing the thresholds before any sample is tracked keeps the
    history empty. *)
Lemma setThresholds_keeps_history (w c e : option float) (m : Monitor) :
  history (setThresholds w c e m) = history m.
Proof. reflexivity. Qed.

(** With samples there is always a prediction. *)
Lemma predict_some_iff (q : float) (m : Monitor) :
  (exists r, predict q m = Some r) <-> history m <> [].
Proof.
  unfold predict. destruct (history m); split.
  - intros [r H]. discriminate.
  - intros H. congruence.
  - intros _. discriminate.
  - intros _. eexists. reflexivity.
Qed.

(** C7, as the code has it.  With at least one sample, [predict] returns
    a report in which [averageCost] is the numeral with two decimals
    nearest to the mean cost of the reference window, [predictedCost] the
    numeral with no decimals nearest to [queriesRemaining] times that
    mean, [currentRemaining] the remaining budget of the most recent
    sample (0 when that is zero or not a number), [safeQueries] the floor
    of [currentRemaining] over the unrounded mean, and [willExceedLimit]
    the comparison of the unrounded product with [currentRemaining]. *)
Theorem predict_report (q : float) (m : Monitor) :
  history m <> [] ->
  let mean := mean_cost (reference_window (history m)) in
  let left :=
    Js.or_else (match most_recent (history m) with
                | Some e => remaining e
                | None => PrimFloat.nan
                end) 0%float in
  predict q m =
  Some {| queriesRemaining := q;
          averageCost := Js.toFixed mean 2;
          predictedCost := Js.toFixed (PrimFloat.mul q mean) 0;
          currentRemaining := left;
          willExceedLimit := PrimFloat.ltb left (PrimFloat.mul q mean);
          safeQueries := Js.Math_floor (PrimFloat.div left mean) |}.
Proof.
  intros H mean left. unfold predict.
  destruct (history m) as [|e h] eqn:E; [congruence|].
  assert (Hm : PrimFloat.div (total cost (slice_last 10 (e :: h)))
                 (length_number (slice_last 10 (e :: h))) = mean).
  { unfold mean, mean_cost, length_number.
    rewrite total_is_fold, slice_last_is_window. reflexivity. }
  assert (Hl : Js.or_else (field_of_last remaining (e :: h)) 0%float = left).
  { unfold left, field_of_last. rewrite last_of_is_most_recent. reflexivity. }
  rewrite Hm, Hl. reflexivity.
Qed.

Lemma predict_report_witness :
  history Examples.three_samples <> []
  /\ option_map (fun r => (Js.render (averageCost r),
                           Js.render (predictedCost r),
                           currentRemaining r, willExceedLimit r,
                           safeQueries r))
       (predict 3 Examples.three_samples)
     = Some (Some "1.33", Some "4", 4996%float, false, 3747%float).
Proof.
  split; [discriminate|].
  rewrite (predict_report 3 Examples.three_samples) by discriminate.
  vm_compute. reflexivity.
Defined.

(** C7, as stated, fails.  For three samples of cost 1, 1 and 2 the
    report carries the numeral 1.33, which is not the mean. *)
Lemma predict_not_exact : ~ exact_prediction 3 Examples.three_samples.
Proof.
  intros [r [H [A _]]].
  vm_compute in H. injection H as <-.
  vm_compute in A. discriminate.
Qed.

(** The report of the second example: the product 1.4 is printed as 1,
    the remaining budget is 1, and the limit is reported as exceeded. *)
Lemma predict_nearly_exhausted :
  option_map (fun r => (Js.render (averageCost r),
                        Js.render (predictedCost r),
                        currentRemaining r, willExceedLimit r,
                        safeQueries r))
    (predict 1 Examples.nearly_exhausted)
  = Some (Some "1.40", Some "1", 1%float, true, 0%float).
Proof. vm_compute. reflexivity. Qed.

End MonitorFacts.

(* ================================================================== *)
(** * Properties of the hybrid forge client *)
(* ================================================================== *)

Section ClientFacts.

Import HybridGitHubClient.

Variable Payload : Type.
Variable forge : Forge Payload.
Variable mapPRCompleteData :
  Payload -> Js.JsError + (Payload * Payload * Payload * Payload * Payload).
Variable mapPRReviews : Payload -> Js.JsError + Payload.
Variable mapPRComments : Payload -> Js.JsError + (Payload * Payload).
Variable mapRecentPRs : Payload -> Js.JsError + Payload.

Ltac run_client :=
  unfold getPRCompleteData, getPRCompleteDataREST, getPRReviews,
    getPRReviewsREST, getPRComments, getPRCommentsREST, getRecentPRs,
    getRecentPRsREST, graphql_query, rest_call, promise_all, issue_all,
    add_restQueries, incr_fallbacks, incr_graphqlQueries, add_pointsSaved,
    update_metrics, try_catch, bind, get_client, set_client, emit, issue,
    lift, throw, ret, fallbacks_of; simpl.

(** Every call of a [Promise.all] reaches the forge. *)
Lemma promise_all_run (cs : list RestCall) (w : World) :
  promise_all Payload forge cs w =
  (first_error Payload forge cs,
   {| client := client w; console := console w;
      calls := (calls w ++ map RestApiCall cs)%list |}).
Proof. reflexivity. Qed.

(** The fine-grained paths leave the [fallbacks] counter alone and issue
    all their REST calls, whether these succeed or not. *)
Lemma getPRCompleteDataREST_effects (owner repo : string) (n : Z) (w : World) :
  let out := getPRCompleteDataREST Payload forge owner repo n w in
  fallbacks_of (snd out) = fallbacks_of w
  /\ incl (map RestApiCall (complete_data_calls owner repo n)) (calls (snd out)).
Proof.
  run_client.
  destruct (rest forge (pulls_get owner repo n));
    destruct (rest forge (pulls_listFiles owner repo n));
    destruct (rest forge (pulls_listReviews owner repo n));
    destruct (rest forge (issues_listComments owner repo n));
    destruct (rest forge (pulls_listReviewComments owner repo n));
    simpl; (split; [reflexivity | intros c Hc; apply in_or_app; right; exact Hc]).
Qed.

Lemma getPRReviewsREST_effects (owner repo : string) (n : Z) (w : World) :
  let out := getPRReviewsREST Payload forge owner repo n w in
  fallbacks_of (snd out) = fallbacks_of w
  /\ incl (map RestApiCall [pulls_listReviews owner repo n]) (calls (snd out)).
Proof.
  run_client.
  destruct (rest forge (pulls_listReviews owner repo n)); simpl;
    (split; [reflexivity | intros c Hc; apply in_or_app; right; exact Hc]).
Qed.

Lemma getPRCommentsREST_effects (owner repo : string) (n : Z) (w : World) :
  let out := getPRCommentsREST Payload forge owner repo n w in
  fallbacks_of (snd out) = fallbacks_of w
  /\ incl (map RestApiCall [issues_listComments owner repo n;
                            pulls_listReviewComments owner repo n])
       (calls (snd out)).
Proof.
  run_client.
  destruct (rest forge (issues_listComments owner repo n));
    destruct (rest forge (pulls_listReviewComments owner repo n)); simpl;
    (split; [reflexivity | intros c Hc; apply in_or_app; right; exact Hc]).
Qed.

Lemma getRecentPRsREST_effects (owner repo since : string) (limit : option Z)
  (w : World) :
  let out := getRecentPRsREST Payload forge owner repo since limit w in
  fallbacks_of (snd out) = fallbacks_of w
  /\ incl (map RestApiCall [pulls_list owner repo since (default_limit limit)])
       (calls (snd out)).
Proof.
  run_client.
  destruct (rest forge (pulls_list owner repo since (default_limit limit)));
    simpl;
    (split; [reflexivity | intros c Hc; apply in_or_app; right; exact Hc]).
Qed.

Lemma after_failure_warns q v error text w :
  exists t d, In (console_warn t d) (console (after_failure q v error text w)).
Proof.
  exists text, (Js.err_message error). simpl.
  apply in_or_app. right. left. reflexivity.
Qed.

Lemma getPRCompleteData_failure (owner repo : string) (n : Z)
  (error : Js.JsError) (w : World) :
  useGraphQL (client w) = true ->
  graphql forge GET_PR_COMPLETE_DATA (pr_variables owner repo n) = inl error ->
  getPRCompleteData Payload forge mapPRCompleteData owner repo n w =
  getPRCompleteDataREST Payload forge owner repo n
    (after_failure GET_PR_COMPLETE_DATA (pr_variables owner repo n) error
       "GraphQL failed for PR, falling back to REST:" w).
Proof.
  intros Hu Hq. unfold getPRCompleteData at 1, after_failure.
  unfold graphql_query, try_catch, bind, get_client, issue, emit, throw,
    incr_fallbacks, update_metrics, set_client, ret.
  simpl. rewrite Hu. fold (pr_variables owner repo n). rewrite Hq.
  destruct (String.eqb (Js.err_name error) "GraphqlResponseError");
    simpl; rewrite ?Hu; reflexivity.
Qed.

Lemma getPRReviews_failure (owner repo : string) (n : Z)
  (error : Js.JsError) (w : World) :
  useGraphQL (client w) = true ->
  graphql forge GET_PR_REVIEWS (pr_variables owner repo n) = inl error ->
  getPRReviews Payload forge mapPRReviews owner repo n w =
  getPRReviewsREST Payload forge owner repo n
    (after_failure GET_PR_REVIEWS (pr_variables owner repo n) error
       "GraphQL reviews failed for PR, falling back to REST:" w).
Proof.
  intros Hu Hq. unfold getPRReviews at 1, after_failure.
  unfold graphql_query, try_catch, bind, get_client, issue, emit, throw,
    incr_fallbacks, update_metrics, set_client, ret.
  simpl. rewrite Hu. fold (pr_variables owner repo n). rewrite Hq.
  destruct (String.eqb (Js.err_name error) "GraphqlResponseError");
    simpl; rewrite ?Hu; reflexivity.
Qed.

Lemma getPRComments_failure (owner repo : string) (n : Z)
  (error : Js.JsError) (w : World) :
  useGraphQL (client w) = true ->
  graphql forge GET_PR_COMMENTS (pr_variables owner repo n) = inl error ->
  getPRComments Payload forge mapPRComments owner repo n w =
  getPRCommentsREST Payload forge owner repo n
    (after_failure GET_PR_COMMENTS (pr_variables owner repo n) error
       "GraphQL comments failed for PR, falling back to REST:" w).
Proof.
  intros Hu Hq. unfold getPRComments at 1, after_failure.
  unfold graphql_query, try_catch, bind, get_client, issue, emit, throw,
    incr_fallbacks, update_metrics, set_client, ret.
  simpl. rewrite Hu. fold (pr_variables owner repo n). rewrite Hq.
  destruct (String.eqb (Js.err_name error) "GraphqlResponseError");
    simpl; rewrite ?Hu; reflexivity.
Qed.

Lemma getRecentPRs_failure (owner repo since : string) (limit : option Z)
  (error : Js.JsError) (w : World) :
  useGraphQL (client w) = true ->
  graphql forge GET_RECENT_PRS (recent_variables owner repo since limit)
    = inl error ->
  getRecentPRs Payload forge mapRecentPRs owner repo since limit w =
  getRecentPRsREST Payload forge owner repo since (Some (default_limit limit))
    (after_failure GET_RECENT_PRS (recent_variables owner repo since limit)
       error "GraphQL recent PRs failed, falling back to REST:" w).
Proof.
  intros Hu Hq. unfold getRecentPRs at 1, after_failure.
  unfold graphql_query, try_catch, bind, get_client, issue, emit, throw,
    incr_fallbacks, update_metrics, set_client, ret.
  simpl. rewrite Hu. fold (recent_variables owner repo since limit).
  rewrite Hq.
  destruct (String.eqb (Js.err_name error) "GraphqlResponseError");
    simpl; rewrite ?Hu; reflexivity.
Qed.

(** How a fallback is assembled from a failure equation and the effects
    of the fine-grained path. *)
Lemma fell_back_intro {A : Type} (w w' : World) (run rest_path : M A)
  (restCalls : list RestCall) :
  run w = rest_path w' ->
  fallbacks_of w' = fallbacks_of w + 1 ->
  (exists t d, In (console_warn t d) (console w')) ->
  fallbacks_of (snd (rest_path w')) = fallbacks_of w' ->
  incl (map RestApiCall restCalls) (calls (snd (rest_path w'))) ->
  fell_back w run rest_path restCalls.
Proof.
  intros E F W F' I. exists w'. rewrite E.
  repeat split; try assumption. congruence.
Qed.

(** C1, as the code has it.  With the compound path enabled, a compound
    query that fails with any error, a 404 included, makes each of the
    four read operations fall back: the [fallbacks] counter is
    incremented, a warning is printed, the REST calls of the fine-grained
    path are issued and its outcome is the outcome of the operation. *)
Theorem compound_failure_falls_back (error : Js.JsError) (w : World) :
  useGraphQL (client w) = true ->
  (forall owner repo n,
     graphql forge GET_PR_COMPLETE_DATA (pr_variables owner repo n) = inl error ->
     fell_back w
       (getPRCompleteData Payload forge mapPRCompleteData owner repo n)
       (getPRCompleteDataREST Payload forge owner repo n)
       (complete_data_calls owner repo n))
  /\ (forall owner repo n,
        graphql forge GET_PR_REVIEWS (pr_variables owner repo n) = inl error ->
        fell_back w
          (getPRReviews Payload forge mapPRReviews owner repo n)
          (getPRReviewsREST Payload forge owner repo n)
          [pulls_listReviews owner repo n])
  /\ (forall owner repo n,
        graphql forge GET_PR_COMMENTS (pr_variables owner repo n) = inl error ->
        fell_back w
          (getPRComments Payload forge mapPRComments owner repo n)
          (getPRCommentsREST Payload forge owner repo n)
          [issues_listComments owner repo n;
           pulls_listReviewComments owner repo n])
  /\ (forall owner repo since limit,
        graphql forge GET_RECENT_PRS (recent_variables owner repo since limit)
          = inl error ->
        fell_back w
          (getRecentPRs Payload forge mapRecentPRs owner repo since limit)
          (getRecentPRsREST Payload forge owner repo since
             (Some (default_limit limit)))
          [pulls_list owner repo since (default_limit limit)]).
Proof.
  intros Hu. repeat split; intros.
  - eapply fell_back_intro;
      [ apply getPRCompleteData_failure; eassumption
      | reflexivity
      | apply after_failure_warns
      | apply getPRCompleteDataREST_effects
      | apply getPRCompleteDataREST_effects ].
  - eapply fell_back_intro;
      [ apply getPRReviews_failure; eassumption
      | reflexivity
      | apply after_failure_warns
      | apply getPRReviewsREST_effects
      | apply getPRReviewsREST_effects ].
  - eapply fell_back_intro;
      [ apply getPRComments_failure; eassumption
      | reflexivity
      | apply after_failure_warns
      | apply getPRCommentsREST_effects
      | apply getPRCommentsREST_effects ].
  - eapply fell_back_intro;
      [ apply getRecentPRs_failure; eassumption
      | reflexivity
      | apply after_failure_warns
      | apply getRecentPRsREST_effects
      | apply (getRecentPRsREST_effects owner repo since
                 (Some (default_limit limit))) ].
Qed.

(** What the fine-grained path returns when it succeeds. *)
Lemma getPRCompleteDataREST_result (owner repo : string) (n : Z)
  (w w' : World) (r : PRCompleteData Payload) :
  getPRCompleteDataREST Payload forge owner repo n w = (inr r, w') ->
  cd_rateLimit r = Some rest_rateLimit /\ fallbacks_of w' = fallbacks_of w.
Proof.
  run_client.
  destruct (rest forge (pulls_get owner repo n));
    destruct (rest forge (pulls_listFiles owner repo n));
    destruct (rest forge (pulls_listReviews owner repo n));
    destruct (rest forge (issues_listComments owner repo n));
    destruct (rest forge (pulls_listReviewComments owner repo n));
    simpl; intros H; inversion H; subst; simpl; split; reflexivity.
Qed.

(** C10.  Whenever [getPRCompleteData] returns a record that the
    fine-grained path produced, because the compound path is disabled or
    because the call fell back, the [rateLimit] field of the record is
    the constant with cost 5, remaining 5000 and limit 5000, whatever the
    forge answered; a sample tracked from it therefore reports 5000
    points remaining. *)
Theorem fine_grained_rateLimit_is_constant (owner repo : string) (n : Z)
  (w w' : World) (r : PRCompleteData Payload) :
  getPRCompleteData Payload forge mapPRCompleteData owner repo n w
    = (inr r, w') ->
  useGraphQL (client w) = false \/ fallbacks_of w' <> fallbacks_of w ->
  cd_rateLimit r =
    Some {| rl_cost := 5; rl_remaining := 5000; rl_limit := 5000;
            rl_resetAt := None |}
  /\ forall rl now queryType items m,
       cd_rateLimit r = Some rl ->
       let sample := fst (RateLimitMonitor.track now rl queryType items m) in
       RateLimitMonitor.remaining sample = 5000%float
       /\ RateLimitMonitor.cost sample = 5%float
       /\ RateLimitMonitor.limit sample = 5000%float.
Proof.
  intros Hrun Hserved.
  assert (Hc : cd_rateLimit r = Some rest_rateLimit).
  { revert Hrun. unfold getPRCompleteData, bind, get_client. simpl.
    destruct (useGraphQL (client w)) eqn:Hu.
    - destruct Hserved as [Hf | Hne]; [discriminate|].
      unfold try_catch, bind, graphql_query, issue, emit, throw, ret, lift,
        incr_graphqlQueries, incr_fallbacks, add_pointsSaved, update_metrics,
        get_client, set_client, transformPRCompleteData.
      simpl.
      destruct (graphql forge GET_PR_COMPLETE_DATA _) as [e | res]; simpl.
      + destruct (String.eqb (Js.err_name e) "GraphqlResponseError"); simpl;
          intros H; apply getPRCompleteDataREST_result in H; apply H.
      + destruct (rateLimit res) as [rl|] eqn:Hrl; simpl.
        * destruct (PrimFloat.ltb (rl_remaining rl) 1000); simpl;
            (destruct (mapPRCompleteData (data res))
               as [e | [[[[p1 p2] p3] p4] p5]]; simpl; rewrite ?Hrl; simpl;
             [ intros H; apply getPRCompleteDataREST_result in H; apply H
             | intros H; inversion H; subst; exfalso; apply Hne; reflexivity ]).
        * destruct (mapPRCompleteData (data res))
            as [e | [[[[p1 p2] p3] p4] p5]]; simpl; rewrite ?Hrl; simpl;
            intros H; apply getPRCompleteDataREST_result in H; apply H.
    - intros H. apply getPRCompleteDataREST_result in H. apply H. }
  split; [exact Hc|].
  intros rl now queryType items m Hrl. rewrite Hc in Hrl.
  injection Hrl as <-. simpl. repeat split; reflexivity.
Qed.

End ClientFacts.

(** C1, as stated, fails.  The compound query for PR 7 is answered with
    a 404 and the compound path is enabled; [getPRCompleteData] does not
    surface the 404: it falls back, issues the five REST calls and
    returns their data, with [fallbacks] at 1. *)
Lemma not_found_does_not_short_circuit :
  let run :=
    HybridGitHubClient.getPRCompleteData string Examples.forge_compound_404
      Examples.map5 "o" "r" 7 in
  HybridGitHubClient.useGraphQL
    (HybridGitHubClient.client Examples.fresh_world) = true
  /\ HybridGitHubClient.graphql Examples.forge_compound_404
       HybridGitHubClient.GET_PR_COMPLETE_DATA
       (HybridGitHubClient.pr_variables "o" "r" 7) = inl Examples.not_found
  /\ Js.isNotFound Examples.not_found = true
  /\ ~ HybridGitHubClient.short_circuits Examples.fresh_world run
         HybridGitHubClient.GET_PR_COMPLETE_DATA
         (HybridGitHubClient.pr_variables "o" "r" 7) Examples.not_found
  /\ (exists r, fst (run Examples.fresh_world) = inr r)
  /\ HybridGitHubClient.fallbacks_of (snd (run Examples.fresh_world)) = 1
  /\ In (HybridGitHubClient.RestApiCall (HybridGitHubClient.pulls_get "o" "r" 7))
       (HybridGitHubClient.calls (snd (run Examples.fresh_world))).
Proof.
  repeat split; try reflexivity.
  - intros [H _]. vm_compute in H. discriminate.
  - eexists. vm_compute. reflexivity.
  - vm_compute. right. left. reflexivity.
Qed.

Lemma compound_failure_falls_back_witness :
  HybridGitHubClient.useGraphQL
    (HybridGitHubClient.client Examples.fresh_world) = true
  /\ HybridGitHubClient.graphql Examples.forge_compound_404
       HybridGitHubClient.GET_PR_COMPLETE_DATA
       (HybridGitHubClient.pr_variables "o" "r" 7) = inl Examples.not_found
  /\ HybridGitHubClient.fell_back Examples.fresh_world
       (HybridGitHubClient.getPRCompleteData string
          Examples.forge_compound_404 Examples.map5 "o" "r" 7)
       (HybridGitHubClient.getPRCompleteDataREST string
          Examples.forge_compound_404 "o" "r" 7)
       (HybridGitHubClient.complete_data_calls "o" "r" 7).
Proof.
  split; [reflexivity|]. split; [reflexivity|].
  apply (proj1 (compound_failure_falls_back string Examples.forge_compound_404
                  Examples.map5 (fun p => inr p) (fun p => inr (p, p))
                  (fun p => inr p) Examples.not_found Examples.fresh_world
                  eq_refl) "o" "r" 7 eq_refl).
Defined.

Lemma fine_grained_rateLimit_is_constant_witness :
  exists r w',
    HybridGitHubClient.getPRCompleteData string Examples.forge_healthy
      Examples.map5 "o" "r" 7 Examples.rest_only_world = (inr r, w')
    /\ HybridGitHubClient.useGraphQL
         (HybridGitHubClient.client Examples.rest_only_world) = false
    /\ HybridGitHubClient.cd_rateLimit r =
         Some {| RateLimitMonitor.rl_cost := 5;
                 RateLimitMonitor.rl_remaining := 5000;
                 RateLimitMonitor.rl_limit := 5000;
                 RateLimitMonitor.rl_resetAt := None |}.
Proof.
  eexists. eexists. split; [vm_compute; reflexivity|].
  split; [reflexivity|].
  eapply proj1.
  eapply (fine_grained_rateLimit_is_constant string Examples.forge_healthy
            Examples.map5 "o" "r" 7 Examples.rest_only_world).
  - vm_compute. reflexivity.
  - left. reflexivity.
Defined.

(* ================================================================== *)
(** * Properties of the rollout scripts *)
(* ================================================================== *)

Section RolloutFacts.

Import Supabase Rollout.

Lemma filter_update_where (sel t : RolloutConfiguration -> bool)
  (g : RolloutConfiguration -> RolloutConfiguration)
  (rows : list RolloutConfiguration) :
  (forall r, sel (g r) = sel r) ->
  filter sel (update_where t g rows) = update_where t g (filter sel rows).
Proof.
  intros Hsel. unfold update_where.
  induction rows as [|r rows IH]; simpl; [reflexivity|].
  assert (E : sel (if t r then g r else r) = sel r)
    by (destruct (t r); [apply Hsel | reflexivity]).
  rewrite E. destruct (sel r); simpl; rewrite IH; reflexivity.
Qed.

(** Reading the active row does not depend on faults of other calls. *)
Lemma fetch_active_inr (faults : Faults) (s : Store)
  (config : RolloutConfiguration) :
  fetch_active faults s = inr config ->
  fetch_active no_faults s = inr config.
Proof.
  unfold fetch_active, no_faults.
  destruct (faults "rollout_configuration" Select); [discriminate | tauto].
Qed.

(** After the update by [id], the active row of the feature is the
    fetched row with the new percentage. *)
Lemma fetch_active_after_update (s : Store) (config : RolloutConfiguration)
  (p : Z) (now : string) (h : list RolloutHistory) :
  fetch_active no_faults s = inr config ->
  fetch_active no_faults
    {| rollout_configuration :=
         update_where (fun r => String.eqb (id r) (id config))
           (set_percentage p now) (rollout_configuration s);
       rollout_history := h |}
  = inr (set_percentage p now config).
Proof.
  unfold fetch_active, no_faults. simpl.
  rewrite filter_update_where by reflexivity.
  destruct (filter _ (rollout_configuration s)) as [|c [|c' rest]];
    simpl; try discriminate.
  intros H. injection H as ->. rewrite String.eqb_refl. reflexivity.
Qed.

Ltac run_script :=
  unfold setRolloutPercentage;
  repeat match goal with
    | |- context [match ?x with _ => _ end] => destruct x eqn:?
    end; simpl.

(** The script ends with exit code 0 or 1; on 1 the store is untouched. *)
Lemma setRolloutPercentage_failure (env : Env) (faults : Faults)
  (now : string) (s : Store) :
  let r := setRolloutPercentage env faults now s in
  (exit_code r = 0 \/ exit_code r = 1)
  /\ (exit_code r <> 0 -> store r = s).
Proof.
  run_script; split; auto; intros H; try reflexivity; congruence.
Qed.

(** What a run that ends with exit code 0 has done. *)
Lemma setRolloutPercentage_success (env : Env) (faults : Faults)
  (now : string) (s : Store) :
  let r := setRolloutPercentage env faults now s in
  exit_code r = 0 ->
  exists config p,
    Js.parseInt (targetPercentage env) = Some p
    /\ 0 <= p <= 100
    /\ fetch_active no_faults s = inr config
    /\ emergency_stop config = false
    /\ faults "rollout_configuration" Update = None
    /\ rollout_configuration (store r) =
         update_where (fun r => String.eqb (id r) (id config))
           (set_percentage p now) (rollout_configuration s)
    /\ match faults "rollout_history" Insert with
       | Some msg =>
           rollout_history (store r) = rollout_history s
           /\ In (error_line "Error logging rollout history:" msg) (console r)
       | None =>
           rollout_history (store r) =
             (rollout_history s ++
              [ {| rollout_config_id := id config;
                   action := "updated";
                   previous_percentage := rollout_percentage config;
                   new_percentage := p;
                   reason := reason_text env;
                   triggered_by := "manual";
                   metadata := {| md_timestamp := now;
                                  md_script := "set-rollout-percentage.js" |} |} ])%list
       end.
Proof.
  unfold setRolloutPercentage.
  destruct (negb (present (SUPABASE_URL env))
            || negb (present (SUPABASE_SERVICE_KEY env))); [discriminate|].
  destruct (Js.parseInt (targetPercentage env)) as [p|]; [|discriminate].
  destruct ((p <? 0) || (100 <? p)) eqn:Hrange; [discriminate|].
  destruct (fetch_active faults s) as [msg|config] eqn:Hfetch; [discriminate|].
  destruct (emergency_stop config) eqn:Hstop; [discriminate|].
  destruct (faults "rollout_configuration" Update) eqn:Hup; [discriminate|].
  intros _. exists config, p.
  apply orb_false_iff in Hrange. destruct Hrange as [H0 H100].
  apply Z.ltb_ge in H0, H100.
  split; [reflexivity|]. split; [lia|].
  split; [eapply fetch_active_inr; eassumption|].
  split; [assumption|]. split; [reflexivity|].
  destruct (faults "rollout_history" Insert); simpl.
  - split; [reflexivity|]. split; [reflexivity | left; reflexivity].
  - split; reflexivity.
Qed.

(** The percentage in effect after a run that ends with exit code 0 is
    the requested one. *)
Lemma setRolloutPercentage_in_effect (env : Env) (faults : Faults)
  (now : string) (s : Store) :
  let r := setRolloutPercentage env faults now s in
  exit_code r = 0 ->
  exists before p,
    Js.parseInt (targetPercentage env) = Some p
    /\ percentage_in_effect s = Some before
    /\ percentage_in_effect (store r) = Some p.
Proof.
  intros r H.
  destruct (setRolloutPercentage_success env faults now s H)
    as [config [p [Hp [_ [Hf [_ [_ [Hc _]]]]]]]].
  exists (rollout_percentage config), p. split; [exact Hp|].
  unfold percentage_in_effect. rewrite Hf. split; [reflexivity|].
  fold r in Hc. destruct (store r) as [rows hist]. simpl in Hc. subst rows.
  rewrite (fetch_active_after_update s config p now hist Hf). reflexivity.
Qed.

(** C2, as the code has it.  The update of the configuration row and the
    append to the history are two store calls made in this order.  When
    the update call fails the store is left as it was.  A history entry
    is appended only by a run that also updated the row.  When the update
    succeeds and the insert fails, the row keeps the new percentage, no
    entry is appended, the failure is printed and the script still ends
    with exit code 0. *)
Theorem update_then_history (env : Env) (faults : Faults) (now : string)
  (s : Store) :
  let r := setRolloutPercentage env faults now s in
  (faults "rollout_configuration" Update <> None -> store r = s)
  /\ (rollout_history (store r) <> rollout_history s ->
      exit_code r = 0 /\ audited s (store r))
  /\ (forall msg,
        exit_code r = 0 ->
        faults "rollout_history" Insert = Some msg ->
        (exists p, Js.parseInt (targetPercentage env) = Some p
                   /\ percentage_in_effect (store r) = Some p)
        /\ rollout_history (store r) = rollout_history s
        /\ In (error_line "Error logging rollout history:" msg) (console r)).
Proof.
  intros r.
  pose proof (setRolloutPercentage_failure env faults now s) as [Hcode Hfail].
  pose proof (setRolloutPercentage_success env faults now s) as Hok.
  pose proof (setRolloutPercentage_in_effect env faults now s) as Heff.
  fold r in Hcode, Hfail, Hok, Heff.
  assert (Hdec : exit_code r = 0 \/ exit_code r <> 0) by lia.
  split; [|split].
  - intros Hup. destruct Hdec as [H0 | H1]; [|auto].
    destruct (Hok H0) as [config [p [_ [_ [_ [_ [Hnone _]]]]]]]. contradiction.
  - intros Hhist. destruct Hdec as [H0 | H1].
    + split; [exact H0|].
      destruct (Hok H0) as [config [p [Hp [_ [Hf [_ [_ [_ Hins]]]]]]]].
      destruct (Heff H0) as [before [p' [Hp' [Hb Ha]]]].
      destruct (faults "rollout_history" Insert) as [msg|].
      * destruct Hins as [Hsame _]. contradiction.
      * eexists. exists before, p'. repeat split; try eassumption.
        -- simpl. unfold percentage_in_effect in Hb. rewrite Hf in Hb.
           congruence.
        -- simpl. congruence.
    + rewrite (Hfail H1) in Hhist. contradiction.
  - intros msg H0 Hmsg.
    destruct (Hok H0) as [config [p [Hp [_ [_ [_ [_ [_ Hins]]]]]]]].
    destruct (Heff H0) as [before [p' [Hp' [_ Ha]]]].
    rewrite Hmsg in Hins. destruct Hins as [Hsame Hline].
    split; [exists p'; split; assumption|]. split; assumption.
Qed.

(** C3, as the code has it.  A run of [set-rollout-percentage.js] that
    ends with exit code 0 and whose history insert is accepted appends
    exactly one entry, of action [updated] and triggered by [manual],
    whose previous percentage is the one in effect before the run and
    whose new percentage is the one in effect after it. *)
Theorem successful_update_is_audited (env : Env) (faults : Faults)
  (now : string) (s : Store) :
  let r := setRolloutPercentage env faults now s in
  exit_code r = 0 ->
  faults "rollout_history" Insert = None ->
  audited s (store r)
  /\ exists e,
       rollout_history (store r) = (rollout_history s ++ [e])%list
       /\ action e = "updated"
       /\ triggered_by e = "manual"
       /\ reason e = reason_text env
       /\ Some (new_percentage e) = Js.parseInt (targetPercentage env).
Proof.
  intros r H0 Hins.
  destruct (setRolloutPercentage_success env faults now s H0)
    as [config [p [Hp [_ [Hf [_ [_ [_ Hh]]]]]]]].
  destruct (setRolloutPercentage_in_effect env faults now s H0)
    as [before [p' [Hp' [Hb Ha]]]].
  fold r in Hh, Ha. rewrite Hins in Hh.
  split.
  - eexists. exists before, p'. repeat split; try eassumption.
    + simpl. unfold percentage_in_effect in Hb. rewrite Hf in Hb. congruence.
    + simpl. congruence.
  - eexists. split; [exact Hh|]. simpl. repeat split. congruence.
Qed.

(** With the emergency stop set on the active row, the update script
    refuses and leaves the store as it was. *)
Lemma setRolloutPercentage_refuses_when_stopped (env : Env)
  (faults : Faults) (now : string) (s : Store)
  (config : RolloutConfiguration) :
  fetch_active faults s = inr config ->
  emergency_stop config = true ->
  let r := setRolloutPercentage env faults now s in
  exit_code r = 1 /\ store r = s.
Proof.
  intros Hf Hs. unfold setRolloutPercentage. rewrite Hf, Hs.
  repeat match goal with
    | |- context [match ?x with _ => _ end] => destruct x eqn:?
    end; simpl; split; reflexivity.
Qed.

(** A percentage outside [0, 100], or no number at all, is refused by
    the update script: nothing is written. *)
Lemma setRolloutPercentage_refuses_out_of_range (env : Env)
  (faults : Faults) (now : string) (s : Store) :
  (forall p, Js.parseInt (targetPercentage env) = Some p -> p < 0 \/ 100 < p) ->
  let r := setRolloutPercentage env faults now s in
  exit_code r = 1 /\ store r = s.
Proof.
  intros Hbad r.
  pose proof (setRolloutPercentage_failure env faults now s) as [Hcode Hfail].
  pose proof (setRolloutPercentage_success env faults now s) as Hok.
  fold r in Hcode, Hfail, Hok.
  destruct Hcode as [H0 | H1].
  - destruct (Hok H0) as [config [p [Hp [Hr _]]]].
    destruct (Hbad p Hp); lia.
  - split; [exact H1 | apply Hfail; lia].
Qed.

(** The CLI refuses a percentage outside [0, 100] as well. *)
Lemma updateRolloutPercentage_refuses_out_of_range (faults : Faults)
  (now featureName : string) (p : Z) (s : Store) :
  p < 0 \/ 100 < p ->
  exists lines, updateRolloutPercentage faults now featureName p s
                = (None, lines, s).
Proof.
  intros H. unfold updateRolloutPercentage.
  replace ((p <? 0) || (100 <? p)) with true.
  - eexists. reflexivity.
  - symmetry. apply orb_true_iff.
    destruct H; [left | right]; apply Z.ltb_lt; assumption.
Qed.

(** The CLI's update never looks at the emergency stop: on the one row of
    the feature it writes any percentage in range. *)
Lemma updateRolloutPercentage_ignores_stop (now featureName : string)
  (p : Z) (s : Store) (row : RolloutConfiguration) :
  0 <= p <= 100 ->
  config_of featureName s = Some row ->
  exists lines s',
    updateRolloutPercentage no_faults now featureName p s
      = (Some (set_percentage p now row), lines, s')
    /\ config_of featureName s' = Some (set_percentage p now row)
    /\ rollout_history s' = rollout_history s.
Proof.
  intros Hp Hrow. unfold updateRolloutPercentage, update_single, no_faults.
  replace ((p <? 0) || (100 <? p)) with false
    by (symmetry; apply orb_false_iff; split; apply Z.ltb_ge; lia).
  unfold config_of in Hrow. unfold single.
  destruct (filter _ (rollout_configuration s)) as [|c [|c' rest]] eqn:Hfil;
    try discriminate.
  injection Hrow as ->.
  eexists. eexists. split; [reflexivity|]. split; [|reflexivity].
  unfold config_of. simpl.
  rewrite filter_update_where by reflexivity. rewrite Hfil. simpl.
  assert (Hin : In row (filter
    (fun r => String.eqb (feature_name r) featureName)
    (rollout_configuration s))) by (rewrite Hfil; left; reflexivity).
  apply filter_In in Hin. destruct Hin as [_ Hsel]. rewrite Hsel.
  reflexivity.
Qed.

(** The verification step computes its report from the expected value
    alone: two workspaces with the same files get the same verdict
    whatever their stores hold. *)
Lemma verify_rollback_ignores_store (expected : option string)
  (now stamp : string) (w1 w2 : Workspace) :
  ws_files w1 = ws_files w2 ->
  fst (verify_rollback expected now stamp w1)
    = fst (verify_rollback expected now stamp w2)
  /\ ws_files (snd (verify_rollback expected now stamp w1))
     = ws_files (snd (verify_rollback expected now stamp w2)).
Proof. intros H. unfold verify_rollback. simpl. rewrite H. split; reflexivity. Qed.

Lemma verify_rollback_always_verified (expected : option string)
  (now stamp : string) (w : Workspace) :
  let out := verify_rollback expected now stamp w in
  fst out = 0
  /\ ws_store (snd out) = ws_store w
  /\ exists path report,
       ws_files (snd out) = (ws_files w ++ [(path, report)])%list
       /\ status report = "verified"
       /\ actualPercentage report = expectedPercentage report.
Proof.
  unfold verify_rollback. simpl. repeat split.
  eexists. eexists. repeat split.
Qed.

End RolloutFacts.

(** C2, as stated, fails.  The store refuses the insert into the
    history; the script has then already written fifty percent into the
    configuration row, appends nothing, and ends with exit code 0. *)
Lemma update_without_history_is_reachable :
  let r := Rollout.setRolloutPercentage (Examples.env_target "50")
             Examples.history_insert_fails Examples.later
             Examples.store_at_10 in
  Rollout.exit_code r = 0
  /\ Rollout.percentage_in_effect Examples.store_at_10 = Some 10
  /\ Rollout.percentage_in_effect (Rollout.store r) = Some 50
  /\ Rollout.rollout_history (Rollout.store r) = []
  /\ ~ Rollout.atomic Examples.store_at_10 (Rollout.store r).
Proof.
  repeat split; try reflexivity.
  intros [H | [e [b [a [_ [_ [H _]]]]]]].
  - vm_compute in H. discriminate.
  - vm_compute in H. discriminate.
Qed.

Lemma update_then_history_witness :
  let r := Rollout.setRolloutPercentage (Examples.env_target "50")
             Examples.history_insert_fails Examples.later
             Examples.store_at_10 in
  Rollout.exit_code r = 0
  /\ Examples.history_insert_fails "rollout_history" Supabase.Insert
     = Some "permission denied for table rollout_history"
  /\ (exists p, Js.parseInt (Rollout.targetPercentage (Examples.env_target "50"))
                = Some p
                /\ Rollout.percentage_in_effect (Rollout.store r) = Some p)
  /\ Rollout.rollout_history (Rollout.store r)
     = Rollout.rollout_history Examples.store_at_10
  /\ In (Rollout.error_line "Error logging rollout history:"
           "permission denied for table rollout_history")
       (Rollout.console r).
Proof.
  split; [reflexivity|]. split; [reflexivity|].
  apply (proj2 (proj2 (update_then_history (Examples.env_target "50")
                         Examples.history_insert_fails Examples.later
                         Examples.store_at_10))
           "permission denied for table rollout_history");
    reflexivity.
Defined.

(** C3, as stated, fails.  A run of the update script whose history
    insert is refused changes the percentage in effect from 10 to 50 and
    ends with exit code 0 without any audit entry; the operator CLI's
    [update] changes it the same way and never writes the history. *)
Lemma update_without_audit_entry :
  let r1 := Rollout.setRolloutPercentage (Examples.env_target "50")
              Examples.history_insert_fails Examples.later
              Examples.store_at_10 in
  let r2 := Rollout.main Supabase.no_faults Examples.later "update"
              (Some "50") None Examples.store_at_10 in
  (Rollout.exit_code r1 = 0
   /\ Rollout.percentage_in_effect Examples.store_at_10 = Some 10
   /\ Rollout.percentage_in_effect (Rollout.store r1) = Some 50
   /\ ~ Rollout.audited Examples.store_at_10 (Rollout.store r1))
  /\ (Rollout.percentage_in_effect (Rollout.store r2) = Some 50
      /\ Rollout.rollout_history (Rollout.store r2) = []
      /\ ~ Rollout.audited Examples.store_at_10 (Rollout.store r2)).
Proof.
  repeat split; try reflexivity;
    intros [e [b [a [_ [_ [H _]]]]]]; vm_compute in H; discriminate.
Qed.

Lemma successful_update_is_audited_witness :
  let r := Rollout.setRolloutPercentage (Examples.env_target "50")
             Supabase.no_faults Examples.later Examples.store_at_10 in
  Rollout.exit_code r = 0
  /\ Supabase.no_faults "rollout_history" Supabase.Insert = None
  /\ Rollout.audited Examples.store_at_10 (Rollout.store r).
Proof.
  split; [reflexivity|]. split; [reflexivity|].
  apply (proj1 (successful_update_is_audited (Examples.env_target "50")
                  Supabase.no_faults Examples.later Examples.store_at_10
                  eq_refl eq_refl)).
Defined.

(** C4, at the failing input.  The configuration is stopped at fifty
    percent; the operator CLI's [update 75] does not fail: it rewrites
    the stored percentage to 75 while the emergency stop stays set.  The
    update script, on a row flagged the same way, refuses with exit
    code 1 and leaves the store as it was. *)
Theorem cli_update_despite_emergency_stop :
  let r := Rollout.main Supabase.no_faults Examples.later "update"
             (Some "75") None Examples.store_stopped_at_50 in
  let r' := Rollout.setRolloutPercentage (Examples.env_target "75")
              Supabase.no_faults Examples.later
              Examples.store_flagged_at_50 in
  Rollout.config_of Rollout.the_feature Examples.store_stopped_at_50
    = Some Examples.row_stopped_at_50
  /\ Rollout.emergency_stop Examples.row_stopped_at_50 = true
  /\ option_map Rollout.rollout_percentage
       (Rollout.config_of Rollout.the_feature (Rollout.store r)) = Some 75
  /\ option_map Rollout.emergency_stop
       (Rollout.config_of Rollout.the_feature (Rollout.store r)) = Some true
  /\ Rollout.console r =
       [Rollout.log_line "Rollout percentage updated successfully!";
        Rollout.log_line "Current rollout configuration:"]
  /\ Rollout.exit_code r' = 1
  /\ Rollout.store r' = Examples.store_flagged_at_50
  /\ Rollout.console r' =
       [Rollout.error_line
          "Cannot update rollout percentage: Emergency stop is active" ""].
Proof. repeat split; reflexivity. Qed.

(** C5, at the failing input.  The store holds fifty percent with no
    emergency stop, so the effective percentage is 50; the verification
    step run with an expected percentage of 0 ends with exit code 0 and a
    report whose status is [verified] and whose actual percentage is the
    expected one, 0. *)
Theorem verify_rollback_reports_unread_percentage :
  let w := {| Rollout.ws_store := Examples.store_at_50;
              Rollout.ws_files := [] |} in
  let out := Rollout.verify_rollback (Some "0") Examples.later
               "1751414400000" w in
  option_map Rollout.effective_percentage
    (Rollout.config_of Rollout.the_feature Examples.store_at_50) = Some 50
  /\ fst out = 0
  /\ Rollout.ws_store (snd out) = Examples.store_at_50
  /\ map (fun f => (Rollout.expectedPercentage (snd f),
                    Rollout.actualPercentage (snd f),
                    Rollout.status (snd f)))
       (Rollout.ws_files (snd out))
     = [("0", "0", "verified")].
Proof. repeat split; reflexivity. Qed.

(* ================================================================== *)
(** * Properties of the progress tracker *)
(* ================================================================== *)

Section TrackerFacts.

Import Supabase ProgressTracker.

(** C8, as the code has it.  When the store accepts the update,
    [updateJobStatus] gives the tracked job the new status, never writes
    [started_at], writes [completed_at] exactly when the new status is
    [completed] and otherwise leaves it as it was; for the status
    [failed] it records a non-empty error text instead. *)
Theorem updateJobStatus_timestamps (faults : Faults) (now : string)
  (t : Tracker) (st : string) (err : option string) (s : Store) (j' : Job) :
  faults "progressive_capture_jobs" Update = None ->
  In j' (progressive_capture_jobs (updateJobStatus faults now t st err s)) ->
  id j' = jobId t ->
  exists j,
    In j (progressive_capture_jobs s)
    /\ id j = jobId t
    /\ status j' = st
    /\ started_at j' = started_at j
    /\ completed_at j' =
         (if String.eqb st "completed" then Some now else completed_at j)
    /\ (st = "failed" -> present err = true -> error j' = err).
Proof.
  intros Hf Hin Hid. unfold updateJobStatus in Hin. rewrite Hf in Hin.
  simpl in Hin. apply in_map_iff in Hin. destruct Hin as [j [Hj Hin]].
  exists j. destruct (String.eqb (id j) (jobId t)) eqn:E.
  - apply String.eqb_eq in E. subst j'. simpl.
    repeat split; try assumption.
    intros -> Hp. simpl. rewrite Hp. reflexivity.
  - subst j'. apply String.eqb_neq in E. contradiction.
Qed.

(** A failure of the store call is swallowed: the store stays as it was. *)
Lemma updateJobStatus_fault (faults : Faults) (now : string) (t : Tracker)
  (st : string) (err : option string) (s : Store) (msg : string) :
  faults "progressive_capture_jobs" Update = Some msg ->
  updateJobStatus faults now t st err s = s.
Proof. intros H. unfold updateJobStatus. rewrite H. reflexivity. Qed.

(** After [complete()] the tracked job is completed and carries a
    completion time. *)
Lemma complete_sets_completed_at (now : string) (t : Tracker) (s : Store)
  (j' : Job) :
  In j' (progressive_capture_jobs (complete no_faults now t s)) ->
  id j' = jobId t ->
  status j' = "completed" /\ completed_at j' = Some now.
Proof.
  unfold complete, updateJobStatus, no_faults.
  cbn [progressive_capture_jobs]. intros Hin Hid.
  apply in_map_iff in Hin. destruct Hin as [j [Hj _]].
  destruct (String.eqb (id j) (jobId t)) eqn:E.
  - subst j'. split; reflexivity.
  - subst j'. apply String.eqb_neq in E. contradiction.
Qed.

End TrackerFacts.

Lemma updateJobStatus_timestamps_witness :
  exists j,
    In j (ProgressTracker.progressive_capture_jobs Examples.jobs_store)
    /\ ProgressTracker.id j = "job-1"
    /\ ProgressTracker.status
         (ProgressTracker.apply_updateData Examples.later "failed"
            (Some "boom") Examples.job_processing) = "failed"
    /\ ProgressTracker.started_at
         (ProgressTracker.apply_updateData Examples.later "failed"
            (Some "boom") Examples.job_processing)
       = ProgressTracker.started_at j
    /\ ProgressTracker.completed_at
         (ProgressTracker.apply_updateData Examples.later "failed"
            (Some "boom") Examples.job_processing)
       = (if String.eqb "failed" "completed" then Some Examples.later
          else ProgressTracker.completed_at j)
    /\ ("failed" = "failed" -> Supabase.present (Some "boom") = true ->
        ProgressTracker.error
          (ProgressTracker.apply_updateData Examples.later "failed"
             (Some "boom") Examples.job_processing) = Some "boom").
Proof.
  apply (updateJobStatus_timestamps Supabase.no_faults Examples.later
           Examples.tracker_of_job_1 "failed" (Some "boom")
           Examples.jobs_store
           (ProgressTracker.apply_updateData Examples.later "failed"
              (Some "boom") Examples.job_processing)).
  - reflexivity.
  - left. reflexivity.
  - reflexivity.
Defined.

(** C8, as stated, fails.  A job in [processing] with a start time and no
    completion time satisfies the invariant; after [fail] its status is
    [failed] and its completion time is still null.  A pending job that
    [complete] finishes gets a completion time but no start time. *)
Lemma failed_job_has_no_completed_timestamp :
  let s' := ProgressTracker.fail Supabase.no_faults Examples.later
              Examples.tracker_of_job_1 "boom" Examples.jobs_store in
  ProgressTracker.timestamps_consistent Examples.job_processing = true
  /\ map (fun j => (ProgressTracker.status j, ProgressTracker.started_at j,
                    ProgressTracker.completed_at j, ProgressTracker.error j))
       (ProgressTracker.progressive_capture_jobs s')
     = [("failed", Some "2025-07-01T00:00:05.000Z", None, Some "boom")]
  /\ map ProgressTracker.timestamps_consistent
       (ProgressTracker.progressive_capture_jobs s') = [false]
  /\ ProgressTracker.timestamps_consistent Examples.job_pending = true
  /\ map (fun j => (ProgressTracker.status j, ProgressTracker.started_at j,
                    ProgressTracker.completed_at j,
                    ProgressTracker.timestamps_consistent j))
       (ProgressTracker.progressive_capture_jobs
          (ProgressTracker.complete Supabase.no_faults Examples.later
             Examples.tracker_of_job_1 Examples.pending_store))
     = [("completed", None, Some Examples.later, false)].
Proof. repeat split; reflexivity. Qed.

(* ================================================================== *)
(** * Further properties of the rate-limit monitor *)
(* ================================================================== *)

Section MonitorMore.

Import RateLimitMonitor.

Lemma addAlert_length (now : Z) (lvl : string) (msg : Message) (m : Monitor) :
  List.length (alerts (addAlert now lvl msg m))
  = Nat.min 50 (List.length (alerts m) + 1).
Proof.
  unfold addAlert. cbn [alerts].
  destruct (Nat.ltb_spec 50 (List.length (alerts m ++
      [ {| level := lvl; message := msg; alert_timestamp := now |} ])))
    as [H | H]; rewrite length_app in H; cbn [List.length] in H.
  - unfold slice_last. rewrite length_skipn, length_app.
    cbn [List.length]. lia.
  - rewrite length_app. cbn [List.length]. lia.
Qed.

Lemma addAlert_history (now : Z) (lvl : string) (msg : Message) (m : Monitor) :
  history (addAlert now lvl msg m) = history m
  /\ thresholds (addAlert now lvl msg m) = thresholds m.
Proof. split; reflexivity. Qed.

Lemma checkThresholds_history (now : Z) (entry : Entry) (m : Monitor) :
  history (checkThresholds now entry m) = history m.
Proof.
  unfold checkThresholds.
  repeat match goal with
    | |- context [if ?c then _ else _] => destruct c
    end; reflexivity.
Qed.

Lemma checkThresholds_alerts (now : Z) (entry : Entry) (m : Monitor) :
  (List.length (alerts m) <= 50 ->
   List.length (alerts (checkThresholds now entry m)) <= 50)%nat
  /\ (List.length (alerts (checkThresholds now entry m))
      <= List.length (alerts m) + 2)%nat.
Proof.
  unfold checkThresholds.
  repeat match goal with
    | |- context [if ?c then _ else _] => destruct c
    end;
    rewrite ?addAlert_length; split; lia.
Qed.

(** The alert list stays bounded: a monitor that holds at most fifty
    alerts still holds at most fifty after a [track], and one [track]
    adds at most two. *)
Theorem track_keeps_alerts_bounded (now : Z) (rl : RateLimit)
  (qt : option string) (items : option float) (m : Monitor) :
  (List.length (alerts m) <= 50)%nat ->
  let m' := snd (track now rl qt items m) in
  (List.length (alerts m') <= 50)%nat
  /\ (List.length (alerts m') <= List.length (alerts m) + 2)%nat.
Proof.
  intros H. unfold track. simpl.
  match goal with
  | |- context [checkThresholds now ?e ?m0] =>
      pose proof (checkThresholds_alerts now e m0) as [H1 H2]
  end.
  simpl in H1, H2. split; [apply H1; exact H | exact H2].
Qed.

(** The history after a [track]: the earlier samples that are younger
    than twenty-four hours, then the new sample. *)
Lemma track_history (now : Z) (rl : RateLimit) (qt : option string)
  (items : option float) (m : Monitor) :
  history (snd (track now rl qt items m))
  = (filter (fun e => now - 86400000 <? timestamp e) (history m)
     ++ [fst (track now rl qt items m)])%list.
Proof.
  unfold track. cbn [fst snd]. unfold cleanOldEntries. cbn [history].
  rewrite checkThresholds_history. cbn [history].
  rewrite filter_app. cbn [filter timestamp].
  replace (24 * 3600 * 1000) with 86400000 by reflexivity.
  replace (now - 86400000 <? now) with true
    by (symmetry; apply Z.ltb_lt; lia).
  reflexivity.
Qed.

(** The sample just tracked is never evicted: after [track] it is the
    most recent entry of the history, so [predict] and [getStats] answer. *)
Theorem track_makes_prediction_available (now : Z) (rl : RateLimit)
  (qt : option string) (items : option float) (m : Monitor) (q : float) :
  let out := track now rl qt items m in
  most_recent (history (snd out)) = Some (fst out)
  /\ timestamp (fst out) = now
  /\ predict q (snd out) <> None
  /\ getStats (snd out) <> None.
Proof.
  intros out. subst out.
  pose proof (track_history now rl qt items m) as H.
  split; [|split; [reflexivity|]].
  - rewrite H. unfold most_recent. rewrite rev_app_distr. reflexivity.
  - unfold predict, getStats. rewrite H.
    destruct (filter _ (history m)); split; discriminate.
Qed.


(** The statistics agree with the prediction: [getStats] counts all
    samples, looks at no more than ten, and reports the remaining budget
    and the average cost that [predict] uses, the latter unrounded. *)
Theorem getStats_agrees_with_predict (m : Monitor) (q : float) (s : Stats)
  (r : Prediction) :
  getStats m = Some s ->
  predict q m = Some r ->
  totalQueries s = List.length (history m)
  /\ recentQueries s = Nat.min 10 (List.length (history m))
  /\ stats_alerts s = List.length (alerts m)
  /\ currentRemaining r = stats_currentRemaining s
  /\ averageCost r = Js.toFixed (stats_averageCost s) 2
  /\ predictedCost r = Js.toFixed (PrimFloat.mul q (stats_averageCost s)) 0.
Proof.
  unfold getStats, predict. destruct (history m) as [|e h] eqn:E;
    [discriminate|].
  intros Hs Hr. injection Hs as <-. injection Hr as <-. simpl.
  rewrite slice_last_length. simpl. repeat split.
Qed.

End MonitorMore.

Lemma track_keeps_alerts_bounded_witness :
  (List.length (RateLimitMonitor.alerts RateLimitMonitor.constructor) <= 50)%nat
  /\ (List.length
        (RateLimitMonitor.alerts
           (snd (RateLimitMonitor.track 0
                   {| RateLimitMonitor.rl_cost := 50;
                      RateLimitMonitor.rl_remaining := 40;
                      RateLimitMonitor.rl_limit := 5000;
                      RateLimitMonitor.rl_resetAt := None |}
                   None None RateLimitMonitor.constructor))) <= 50)%nat.
Proof.
  split; [simpl; lia|].
  apply (proj1 (track_keeps_alerts_bounded 0 _ None None
                  RateLimitMonitor.constructor (Nat.le_0_l 50))).
Defined.

Lemma getStats_agrees_with_predict_witness :
  exists s r,
    RateLimitMonitor.getStats Examples.three_samples = Some s
    /\ RateLimitMonitor.predict 3 Examples.three_samples = Some r
    /\ RateLimitMonitor.totalQueries s = 3%nat
    /\ RateLimitMonitor.currentRemaining r
       = RateLimitMonitor.stats_currentRemaining s.
Proof.
  eexists. eexists. split; [vm_compute; reflexivity|].
  split; [vm_compute; reflexivity|].
  pose proof (getStats_agrees_with_predict Examples.three_samples 3 _ _
                eq_refl eq_refl) as H.
  split; [apply H | apply H].
Defined.

(* ================================================================== *)
(** * Further properties of the hybrid forge client *)
(* ================================================================== *)

Section ClientMore.

Import HybridGitHubClient.

Variable Payload : Type.
Variable forge : Forge Payload.
Variable mapPRCompleteData :
  Payload -> Js.JsError + (Payload * Payload * Payload * Payload * Payload).
Variable mapPRReviews : Payload -> Js.JsError + Payload.
Variable mapPRComments : Payload -> Js.JsError + (Payload * Payload).
Variable mapRecentPRs : Payload -> Js.JsError + Payload.

Ltac run_ops :=
  unfold getPRCompleteData, getPRCompleteDataREST, getPRReviews,
    getPRReviewsREST, getPRComments, getPRCommentsREST, getRecentPRs,
    getRecentPRsREST, graphql_query, rest_call, promise_all, issue_all,
    add_restQueries, incr_fallbacks, incr_graphqlQueries, add_pointsSaved,
    update_metrics, try_catch, bind, get_client, set_client, emit, issue,
    lift, throw, ret, transformPRCompleteData, transformPRReviews,
    transformPRComments, transformRecentPRs;
  cbn [fst snd client console calls useGraphQL metrics lastRateLimit
       graphqlQueries restQueries fallbacks totalPointsSaved first_error].

Ltac split_cases :=
  repeat match goal with
    | |- context [match ?x with _ => _ end] =>
        match x with
        | context [match _ with _ => _ end] => fail 1
        | _ => destruct x eqn:?
        end
    end.

(** A compound query that succeeds serves the call alone: the record
    carries the forge's own rate limit, one compound query is counted,
    the points saved against five REST calls are added, and no REST call
    is made. *)
Theorem compound_success_serves_alone (owner repo : string) (n : Z)
  (w : World) (res : GraphQLResult Payload) (rl : RateLimit)
  (p1 p2 p3 p4 p5 : Payload) :
  useGraphQL (client w) = true ->
  graphql forge GET_PR_COMPLETE_DATA (pr_variables owner repo n) = inr res ->
  rateLimit res = Some rl ->
  mapPRCompleteData (data res) = inr (p1, p2, p3, p4, p5) ->
  let out := getPRCompleteData Payload forge mapPRCompleteData owner repo n w in
  fst out = inr {| pullRequest := p1; files := p2; reviews := p3;
                   issueComments := p4; reviewComments := p5;
                   cd_rateLimit := Some rl |}
  /\ calls (snd out)
     = (calls w ++ [GraphqlCall GET_PR_COMPLETE_DATA
                      (pr_variables owner repo n)])%list
  /\ metrics (client (snd out))
     = {| graphqlQueries := graphqlQueries (metrics (client w)) + 1;
          restQueries := restQueries (metrics (client w));
          fallbacks := fallbacks (metrics (client w));
          totalPointsSaved :=
            PrimFloat.add (totalPointsSaved (metrics (client w)))
              (calculatePointsSaved 5 (rl_cost rl)) |}
  /\ lastRateLimit (client (snd out)) = Some rl.
Proof.
  intros Hu Hq Hrl Hmap. run_ops. rewrite Hu.
  fold (pr_variables owner repo n). rewrite Hq. cbn. rewrite Hrl. cbn.
  destruct (PrimFloat.ltb (rl_remaining rl) 1000); cbn;
    rewrite Hmap; cbn; rewrite Hrl; cbn; repeat split.
Qed.


(** With the compound path disabled the four operations talk to the REST
    endpoints only: exactly the REST calls of the fine-grained path reach
    the forge, whether they succeed or not, and neither the compound
    counter, nor the fallback counter, nor the remembered rate limit
    moves. *)
Theorem disabled_compound_path_is_never_called (w : World) :
  useGraphQL (client w) = false ->
  (forall owner repo n,
     only_rest w
       (snd (getPRCompleteData Payload forge mapPRCompleteData owner repo n w))
       (complete_data_calls owner repo n))
  /\ (forall owner repo n,
        only_rest w
          (snd (getPRReviews Payload forge mapPRReviews owner repo n w))
          [pulls_listReviews owner repo n])
  /\ (forall owner repo n,
        only_rest w
          (snd (getPRComments Payload forge mapPRComments owner repo n w))
          [issues_listComments owner repo n;
           pulls_listReviewComments owner repo n])
  /\ (forall owner repo since limit,
        only_rest w
          (snd (getRecentPRs Payload forge mapRecentPRs owner repo since limit w))
          [pulls_list owner repo since (default_limit limit)]).
Proof.
  intros Hu. repeat split; intros; run_ops; rewrite Hu; unfold complete_data_calls;
    cbn [first_error map];
    split_cases;
    cbn [fst snd client console calls useGraphQL metrics lastRateLimit
         graphqlQueries restQueries fallbacks totalPointsSaved];
    reflexivity.
Qed.


(** When the fine-grained path fails after a fallback, its error is the
    one the caller sees, not the error of the compound query; the failure
    is printed, the fallback stays counted and no REST query is counted. *)
Theorem fallback_failure_surfaces_rest_error (owner repo : string) (n : Z)
  (w : World) (e1 e2 : Js.JsError) :
  useGraphQL (client w) = true ->
  graphql forge GET_PR_COMPLETE_DATA (pr_variables owner repo n) = inl e1 ->
  first_error Payload forge (complete_data_calls owner repo n) = inl e2 ->
  let out := getPRCompleteData Payload forge mapPRCompleteData owner repo n w in
  fst out = inl e2
  /\ In (console_error "REST API failed for PR" (Js.err_message e2))
       (console (snd out))
  /\ fallbacks (metrics (client (snd out)))
     = fallbacks (metrics (client w)) + 1
  /\ restQueries (metrics (client (snd out)))
     = restQueries (metrics (client w)).
Proof.
  intros Hu Hq Hfe out. subst out.
  rewrite (getPRCompleteData_failure Payload forge mapPRCompleteData
             owner repo n e1 w Hu Hq).
  unfold complete_data_calls in Hfe.
  unfold getPRCompleteDataREST, try_catch, bind, promise_all, issue_all,
    lift, emit, throw.
  cbn [fst snd client console calls]. rewrite Hfe.
  cbn [fst snd client console calls after_failure metrics fallbacks
       restQueries].
  repeat split. apply in_or_app. right. left. reflexivity.
Qed.

(** A client that has never used the compound path reports no number as
    its fallback rate: the rate divides by the sum of compound queries
    and fallbacks, which is zero. *)
Theorem getMetrics_fallbackRate_undefined (c : Client) :
  graphqlQueries (metrics c) = 0 ->
  fallbacks (metrics c) = 0 ->
  PrimFloat.is_nan (fallbackRate (getMetrics c)) = true.
Proof.
  intros Hg Hf. unfold getMetrics. cbn [fallbackRate]. rewrite Hg, Hf.
  vm_compute. reflexivity.
Qed.

End ClientMore.

Lemma compound_success_serves_alone_witness :
  fst (HybridGitHubClient.getPRCompleteData string Examples.forge_healthy
         Examples.map5 "o" "r" 7 Examples.fresh_world)
  = inr {| HybridGitHubClient.pullRequest := "data";
           HybridGitHubClient.files := "data";
           HybridGitHubClient.reviews := "data";
           HybridGitHubClient.issueComments := "data";
           HybridGitHubClient.reviewComments := "data";
           HybridGitHubClient.cd_rateLimit :=
             Some {| RateLimitMonitor.rl_cost := 1;
                     RateLimitMonitor.rl_remaining := 4200;
                     RateLimitMonitor.rl_limit := 5000;
                     RateLimitMonitor.rl_resetAt := Some "soon" |} |}.
Proof.
  apply (compound_success_serves_alone string Examples.forge_healthy
           Examples.map5 "o" "r" 7 Examples.fresh_world _ _
           "data" "data" "data" "data" "data" eq_refl eq_refl eq_refl eq_refl).
Defined.

Lemma disabled_compound_path_is_never_called_witness :
  HybridGitHubClient.useGraphQL
    (HybridGitHubClient.client Examples.rest_only_world) = false
  /\ HybridGitHubClient.only_rest Examples.rest_only_world
       (snd (HybridGitHubClient.getPRCompleteData string
               Examples.forge_healthy Examples.map5 "o" "r" 7
               Examples.rest_only_world))
       (HybridGitHubClient.complete_data_calls "o" "r" 7).
Proof.
  split; [reflexivity|].
  apply (proj1 (disabled_compound_path_is_never_called string
                  Examples.forge_healthy Examples.map5 (fun p => inr p)
                  (fun p => inr (p, p)) (fun p => inr p)
                  Examples.rest_only_world eq_refl)).
Defined.

Lemma fallback_failure_surfaces_rest_error_witness :
  fst (HybridGitHubClient.getPRCompleteData string Examples.forge_all_404
         Examples.map5 "o" "r" 7 Examples.fresh_world)
  = inl Examples.not_found.
Proof.
  apply (fallback_failure_surfaces_rest_error string Examples.forge_all_404
           Examples.map5 "o" "r" 7 Examples.fresh_world Examples.not_found
           Examples.not_found eq_refl eq_refl eq_refl).
Defined.

Lemma getMetrics_fallbackRate_undefined_witness :
  PrimFloat.is_nan
    (HybridGitHubClient.fallbackRate
       (HybridGitHubClient.getMetrics
          (HybridGitHubClient.client Examples.rest_only_world))) = true.
Proof.
  apply (getMetrics_fallbackRate_undefined
           (HybridGitHubClient.client Examples.rest_only_world)
           eq_refl eq_refl).
Defined.

(* ================================================================== *)
(** * Further properties of the rollout scripts *)
(* ================================================================== *)

Section RolloutMore.

Import Supabase Rollout.

Lemma update_where_Forall2 (P : RolloutConfiguration -> RolloutConfiguration -> Prop)
  (sel : RolloutConfiguration -> bool)
  (f : RolloutConfiguration -> RolloutConfiguration)
  (rows : list RolloutConfiguration) :
  (forall r, P r r) -> (forall r, P r (f r)) ->
  Forall2 P rows (update_where sel f rows).
Proof.
  intros Hrefl Hf. unfold update_where.
  induction rows as [|r rows IH]; simpl; constructor; [|exact IH].
  destruct (sel r); [apply Hf | apply Hrefl].
Qed.

Lemma Forall2_refl_rows (P : RolloutConfiguration -> RolloutConfiguration -> Prop)
  (rows : list RolloutConfiguration) :
  (forall r, P r r) -> Forall2 P rows rows.
Proof. intros H. induction rows; constructor; auto. Qed.

Lemma same_but_percentage_refl (r : RolloutConfiguration) :
  same_but_percentage r r.
Proof. repeat split. Qed.

Lemma same_but_flags_refl (r : RolloutConfiguration) : same_but_flags r r.
Proof. repeat split. Qed.

(** The update script writes nothing but percentages and appends at most
    one history entry: whatever the run, every configuration row keeps
    its identity, feature, strategy and flags, no row appears or
    disappears, a row with another [id] than the active row of the
    feature is left as it was, and the earlier history entries stay in
    place. *)
Theorem setRolloutPercentage_writes_only_percentage (env : Env)
  (faults : Faults) (now : string) (s : Store) :
  let r := setRolloutPercentage env faults now s in
  Forall2 same_but_percentage (rollout_configuration s)
    (rollout_configuration (store r))
  /\ (forall row config,
        fetch_active no_faults s = inr config ->
        In row (rollout_configuration s) ->
        id row <> id config ->
        In row (rollout_configuration (store r)))
  /\ exists more,
       rollout_history (store r) = (rollout_history s ++ more)%list
       /\ (List.length more <= 1)%nat.
Proof.
  intros r.
  pose proof (setRolloutPercentage_failure env faults now s) as [Hcode Hfail].
  pose proof (setRolloutPercentage_success env faults now s) as Hok.
  fold r in Hcode, Hfail, Hok.
  destruct Hcode as [H0 | H1].
  - destruct (Hok H0) as [config [p [_ [_ [Hf [_ [_ [Hc Hh]]]]]]]].
    split; [|split].
    + rewrite Hc. apply update_where_Forall2.
      * apply same_but_percentage_refl.
      * intros row. repeat split.
    + intros row config' Hf' Hin Hne. rewrite Hf in Hf'.
      injection Hf' as <-. rewrite Hc. unfold update_where.
      apply in_map_iff. exists row. split; [|exact Hin].
      apply String.eqb_neq in Hne. rewrite Hne. reflexivity.
    + destruct (faults "rollout_history" Insert).
      * exists []. rewrite app_nil_r. split; [apply Hh | simpl; lia].
      * eexists. split; [exact Hh | simpl; lia].
  - rewrite (Hfail ltac:(lia)). split; [|split].
    + apply Forall2_refl_rows, same_but_percentage_refl.
    + intros row config' _ Hin _. exact Hin.
    + exists []. rewrite app_nil_r. split; [reflexivity | simpl; lia].
Qed.


(** A write of the CLI on the one row of a feature. *)
Lemma update_single_ok (featureName : string)
  (g : RolloutConfiguration -> RolloutConfiguration) (s : Store)
  (row : RolloutConfiguration) :
  (forall r, feature_name (g r) = feature_name r) ->
  config_of featureName s = Some row ->
  exists s',
    update_single no_faults featureName g s = (inr (g row), s')
    /\ config_of featureName s' = Some (g row)
    /\ rollout_history s' = rollout_history s
    /\ rollout_configuration s'
       = update_where (fun r => String.eqb (feature_name r) featureName) g
           (rollout_configuration s).
Proof.
  intros Hg Hrow. unfold update_single, no_faults.
  unfold config_of in Hrow. unfold single.
  destruct (filter _ (rollout_configuration s)) as [|c [|c' rest]] eqn:Hfil;
    try discriminate.
  injection Hrow as ->.
  eexists. split; [reflexivity|]. split; [|split; reflexivity].
  unfold config_of. cbn [rollout_configuration].
  rewrite filter_update_where by (intros r; rewrite Hg; reflexivity).
  rewrite Hfil. cbn [update_where map].
  assert (Hin : In row (filter
    (fun r => String.eqb (feature_name r) featureName)
    (rollout_configuration s))) by (rewrite Hfil; left; reflexivity).
  apply filter_In in Hin. destruct Hin as [_ Hsel]. rewrite Hsel.
  reflexivity.
Qed.

(** [stop] then [resume] on the one row of a feature: after [stop] the
    row is stopped and inactive, after [resume] it is running and active
    again, and in both states it still holds the percentage and strategy
    it had; the history is not written. *)
Theorem stop_then_resume_restores (now1 now2 featureName : string)
  (s : Store) (row : RolloutConfiguration) :
  config_of featureName s = Some row ->
  let s1 := snd (emergencyStop no_faults now1 featureName s) in
  let s2 := snd (resumeRollout no_faults now2 featureName s1) in
  (exists r1, config_of featureName s1 = Some r1
              /\ emergency_stop r1 = true /\ is_active r1 = false
              /\ same_but_flags row r1)
  /\ (exists r2, config_of featureName s2 = Some r2
                 /\ emergency_stop r2 = false /\ is_active r2 = true
                 /\ same_but_flags row r2)
  /\ rollout_history s2 = rollout_history s.
Proof.
  intros Hrow.
  destruct (update_single_ok featureName (set_stop true false now1) s row
              (fun _ => eq_refl) Hrow) as [s1' [E1 [C1 [H1 _]]]].
  destruct (update_single_ok featureName (set_stop false true now2) s1' _
              (fun _ => eq_refl) C1) as [s2' [E2 [C2 [H2 _]]]].
  unfold emergencyStop, resumeRollout. rewrite E1. cbn [snd].
  rewrite E2. cbn [snd].
  split; [|split].
  - eexists. split; [exact C1|]. repeat split.
  - eexists. split; [exact C2|]. repeat split.
  - congruence.
Qed.

Lemma no_active_row_after_stop (now featureName : string)
  (rows : list RolloutConfiguration) :
  filter (fun r => String.eqb (feature_name r) featureName && is_active r)
    (update_where (fun r => String.eqb (feature_name r) featureName)
       (set_stop true false now) rows) = [].
Proof.
  unfold update_where. induction rows as [|r rows IH]; [reflexivity|].
  cbn [map filter].
  destruct (String.eqb (feature_name r) featureName) eqn:E.
  - cbn [set_stop feature_name is_active]. rewrite E. exact IH.
  - rewrite E. exact IH.
Qed.

(** After the CLI's [stop] the update script finds no active row of the
    feature: every run ends with exit code 1 and writes nothing, until
    the rollout is resumed. *)
Theorem update_script_refuses_after_cli_stop (env : Env) (faults : Faults)
  (now now' : string) (s : Store) (row : RolloutConfiguration) :
  config_of the_feature s = Some row ->
  let s1 := store (main no_faults now "stop" None None s) in
  let r := setRolloutPercentage env faults now' s1 in
  exit_code r = 1 /\ store r = s1.
Proof.
  intros Hrow.
  destruct (update_single_ok the_feature (set_stop true false now) s row
              (fun _ => eq_refl) Hrow) as [s1' [E1 [_ [_ Hc]]]].
  unfold main. cbn [String.eqb Ascii.eqb Bool.eqb arg_or_default or_string].
  unfold emergencyStop. rewrite E1. cbn [store].
  assert (Hfetch : forall f, exists msg, fetch_active f s1' = inl msg).
  { intros f. unfold fetch_active.
    destruct (f "rollout_configuration" Select); [eexists; reflexivity|].
    rewrite Hc, no_active_row_after_stop. eexists. reflexivity. }
  destruct (Hfetch faults) as [msg Hmsg].
  unfold setRolloutPercentage. rewrite Hmsg.
  repeat match goal with
    | |- context [match ?x with _ => _ end] => destruct x eqn:?
    end; split; reflexivity.
Qed.

(** Conditions under which the update script ends with exit code 0. *)
Lemma setRolloutPercentage_exit0 (env : Env) (faults : Faults)
  (now : string) (s : Store) (p : Z) (config : RolloutConfiguration) :
  present (SUPABASE_URL env) = true ->
  present (SUPABASE_SERVICE_KEY env) = true ->
  Js.parseInt (targetPercentage env) = Some p ->
  0 <= p <= 100 ->
  fetch_active faults s = inr config ->
  emergency_stop config = false ->
  faults "rollout_configuration" Update = None ->
  exit_code (setRolloutPercentage env faults now s) = 0.
Proof.
  intros Hu Hk Hp Hr Hf Hs Hup. unfold setRolloutPercentage.
  rewrite Hu, Hk, Hp, Hf, Hs, Hup. cbn [negb orb].
  replace ((p <? 0) || (100 <? p)) with false
    by (symmetry; apply orb_false_iff; split; apply Z.ltb_ge; lia).
  destruct (faults "rollout_history" Insert); reflexivity.
Qed.

Lemma setRolloutPercentage_success_env (env : Env) (faults : Faults)
  (now : string) (s : Store) :
  exit_code (setRolloutPercentage env faults now s) = 0 ->
  present (SUPABASE_URL env) = true
  /\ present (SUPABASE_SERVICE_KEY env) = true
  /\ exists config, fetch_active faults s = inr config.
Proof.
  unfold setRolloutPercentage.
  destruct (present (SUPABASE_URL env));
    destruct (present (SUPABASE_SERVICE_KEY env)); cbn [negb orb];
    try discriminate.
  destruct (Js.parseInt (targetPercentage env)) as [p|]; [|discriminate].
  destruct ((p <? 0) || (100 <? p)); [discriminate|].
  destruct (fetch_active faults s) as [msg|config]; [discriminate|].
  intros _. repeat split. exists config. reflexivity.
Qed.

(** Repeating an update.  When a run of the update script has succeeded,
    a second run with the same target and the same answers of the store
    succeeds too; it leaves the percentage in effect as the first run set
    it and appends a second history entry, whose previous and new
    percentage are both the target. *)
Theorem repeated_update_is_logged_twice (env : Env) (faults : Faults)
  (now1 now2 : string) (s : Store) :
  faults "rollout_history" Insert = None ->
  let r1 := setRolloutPercentage env faults now1 s in
  let r2 := setRolloutPercentage env faults now2 (store r1) in
  exit_code r1 = 0 ->
  exit_code r2 = 0
  /\ exists p e1 e2,
       Js.parseInt (targetPercentage env) = Some p
       /\ rollout_history (store r2) = (rollout_history s ++ [e1; e2])%list
       /\ new_percentage e1 = p
       /\ previous_percentage e2 = p
       /\ new_percentage e2 = p
       /\ percentage_in_effect (store r1) = Some p
       /\ percentage_in_effect (store r2) = Some p.
Proof.
  intros Hins r1 r2 H1.
  destruct (setRolloutPercentage_success env faults now1 s H1)
    as [config [p [Hp [Hr [Hf [Hs [Hup [Hc Hh]]]]]]]].
  destruct (setRolloutPercentage_success_env env faults now1 s H1)
    as [Hu [Hk [config0 Hf0]]].
  fold r1 in Hc, Hh. rewrite Hins in Hh.
  assert (Hsel : faults "rollout_configuration" Select = None).
  { unfold fetch_active in Hf0.
    destruct (faults "rollout_configuration" Select); [discriminate|reflexivity]. }
  assert (Hf1 : fetch_active no_faults (store r1)
                = inr (set_percentage p now1 config)).
  { destruct (store r1) as [rows hist]. cbn [rollout_configuration] in Hc.
    subst rows. apply fetch_active_after_update. exact Hf. }
  assert (Hf1' : fetch_active faults (store r1)
                 = inr (set_percentage p now1 config)).
  { unfold fetch_active in *. rewrite Hsel. exact Hf1. }
  assert (H2 : exit_code r2 = 0).
  { apply (setRolloutPercentage_exit0 env faults now2 (store r1) p
             (set_percentage p now1 config)); assumption. }
  split; [exact H2|].
  destruct (setRolloutPercentage_success env faults now2 (store r1) H2)
    as [config2 [p2 [Hp2 [_ [Hf2 [_ [_ [_ Hh2]]]]]]]].
  fold r2 in Hh2. rewrite Hins in Hh2.
  rewrite Hf1 in Hf2. injection Hf2 as <-.
  assert (p2 = p) by congruence. subst p2.
  destruct (setRolloutPercentage_in_effect env faults now1 s H1)
    as [b1 [q1 [Hq1 [_ Ha1]]]].
  destruct (setRolloutPercentage_in_effect env faults now2 (store r1) H2)
    as [b2 [q2 [Hq2 [_ Ha2]]]].
  fold r1 in Ha1. fold r2 in Ha2.
  eexists p, _, _. split; [exact Hp|].
  split; [rewrite Hh2, Hh, <- app_assoc; reflexivity|].
  cbn [new_percentage previous_percentage set_percentage rollout_percentage].
  repeat split; congruence.
Qed.

End RolloutMore.

Lemma setRolloutPercentage_writes_only_percentage_witness :
  Rollout.fetch_active Supabase.no_faults Examples.store_at_10
    = inr Examples.row_at_10
  /\ Forall2 Rollout.same_but_percentage
       (Rollout.rollout_configuration Examples.store_at_10)
       (Rollout.rollout_configuration
          (Rollout.store
             (Rollout.setRolloutPercentage (Examples.env_target "50")
                Supabase.no_faults Examples.later Examples.store_at_10))).
Proof.
  split; [reflexivity|].
  apply (proj1 (setRolloutPercentage_writes_only_percentage
                  (Examples.env_target "50") Supabase.no_faults
                  Examples.later Examples.store_at_10)).
Defined.

Lemma stop_then_resume_restores_witness :
  Rollout.config_of "hybrid_progressive_capture" Examples.store_at_10
    = Some Examples.row_at_10
  /\ Rollout.rollout_history
       (snd (Rollout.resumeRollout Supabase.no_faults Examples.later
               "hybrid_progressive_capture"
               (snd (Rollout.emergencyStop Supabase.no_faults Examples.later
                       "hybrid_progressive_capture" Examples.store_at_10))))
     = Rollout.rollout_history Examples.store_at_10.
Proof.
  split; [reflexivity|].
  apply (stop_then_resume_restores Examples.later Examples.later
           "hybrid_progressive_capture" Examples.store_at_10
           Examples.row_at_10 eq_refl).
Defined.

Lemma update_script_refuses_after_cli_stop_witness :
  Rollout.config_of Rollout.the_feature Examples.store_at_10
    = Some Examples.row_at_10
  /\ Rollout.exit_code
       (Rollout.setRolloutPercentage (Examples.env_target "50")
          Supabase.no_faults Examples.later
          (Rollout.store
             (Rollout.main Supabase.no_faults Examples.later "stop" None None
                Examples.store_at_10))) = 1.
Proof.
  split; [reflexivity|].
  apply (update_script_refuses_after_cli_stop (Examples.env_target "50")
           Supabase.no_faults Examples.later Examples.later
           Examples.store_at_10 Examples.row_at_10 eq_refl).
Defined.

Lemma repeated_update_is_logged_twice_witness :
  Supabase.no_faults "rollout_history" Supabase.Insert = None
  /\ Rollout.exit_code
       (Rollout.setRolloutPercentage (Examples.env_target "50")
          Supabase.no_faults Examples.later Examples.store_at_10) = 0
  /\ Rollout.exit_code
       (Rollout.setRolloutPercentage (Examples.env_target "50")
          Supabase.no_faults Examples.later
          (Rollout.store
             (Rollout.setRolloutPercentage (Examples.env_target "50")
                Supabase.no_faults Examples.later Examples.store_at_10))) = 0.
Proof.
  split; [reflexivity|]. split; [reflexivity|].
  apply (repeated_update_is_logged_twice (Examples.env_target "50")
           Supabase.no_faults Examples.later Examples.later
           Examples.store_at_10 eq_refl eq_refl).
Defined.

(* ================================================================== *)
(** * Further properties of the progress tracker *)
(* ================================================================== *)

Section TrackerMore.

Import Supabase ProgressTracker.

Lemma perform_counts (faults : Faults) (c : string * Call)
  (t : Tracker) (s : Store) :
  let t' := fst (perform faults (fst c) (snd c) (t, s)) in
  processedItems t' = processedItems t + (if is_increment c then 1 else 0)
  /\ failedItems t' = failedItems t + (if is_recordError c then 1 else 0)
  /\ List.length (errors t')
     = (List.length (errors t) + (if is_recordError c then 1 else 0))%nat
  /\ jobId t' = jobId t.
Proof.
  destruct c as [now [id total | item | item msg | | msg]];
    unfold perform, is_increment, is_recordError, start, increment, recordError;
    cbn [fst snd];
    repeat match goal with
      | |- context [match ?x with _ => _ end] => destruct x
      end;
    cbn [fst processedItems failedItems errors jobId];
    rewrite ?length_app; cbn [List.length]; repeat split; lia.
Qed.

Lemma perform_all_counts (faults : Faults) (cs : list (string * Call))
  (t : Tracker) (s : Store) :
  let t' := fst (perform_all faults cs (t, s)) in
  processedItems t'
    = processedItems t + Z.of_nat (List.length (filter is_increment cs))
  /\ failedItems t'
     = failedItems t + Z.of_nat (List.length (filter is_recordError cs))
  /\ List.length (errors t')
     = (List.length (errors t) + List.length (filter is_recordError cs))%nat
  /\ jobId t' = jobId t.
Proof.
  revert t s. induction cs as [|c cs IH]; intros t s.
  - cbn. repeat split; lia.
  - unfold perform_all. cbn [fold_left].
    destruct (perform faults (fst c) (snd c) (t, s)) as [t1 s1] eqn:E.
    pose proof (perform_counts faults c t s) as Hc. rewrite E in Hc.
    cbn [fst] in Hc. destruct Hc as [Hp [Hf [He Hj]]].
    specialize (IH t1 s1). unfold perform_all in IH.
    destruct IH as [Ip [If [Ie Ij]]].
    cbn [filter].
    destruct (is_increment c); destruct (is_recordError c);
      cbn [List.length]; repeat split; try lia; congruence.
Qed.

(** The counters of the tracker count its calls, whatever the store
    answers: after any sequence of calls on a new tracker,
    [processedItems] is the number of [increment] calls, [failedItems]
    the number of [recordError] calls, and the error list holds one
    record for each failed item. *)
Theorem tracker_counts_its_calls (faults : Faults) (job : string)
  (cs : list (string * Call)) (s : Store) :
  let t' := fst (perform_all faults cs (constructor job, s)) in
  processedItems t' = Z.of_nat (List.length (filter is_increment cs))
  /\ failedItems t' = Z.of_nat (List.length (filter is_recordError cs))
  /\ List.length (errors t') = List.length (filter is_recordError cs)
  /\ jobId t' = job.
Proof.
  intros t'. subst t'.
  pose proof (perform_all_counts faults cs (constructor job) s) as G.
  cbn zeta in G.
  cbn [constructor processedItems failedItems errors jobId List.length] in G.
  destruct G as [Gp [Gf [Ge Gj]]]. repeat split; try lia; assumption.
Qed.

Lemma item_calls_without_progress_row (faults : Faults)
  (cs : list (string * Call)) (t : Tracker) (s : Store) :
  progressId t = None ->
  forallb is_item_call cs = true ->
  snd (perform_all faults cs (t, s)) = s
  /\ progressId (fst (perform_all faults cs (t, s))) = None.
Proof.
  revert t s. induction cs as [|c cs IH]; intros t s Hp Hall.
  - split; [reflexivity | exact Hp].
  - cbn [forallb] in Hall. apply andb_true_iff in Hall.
    destruct Hall as [Hc Hall].
    unfold perform_all. cbn [fold_left].
    destruct c as [now [id total | item | item msg | | msg]];
      try discriminate; cbn [perform fst snd];
      unfold increment, recordError; cbn [progressId]; rewrite Hp;
      apply IH; try assumption; reflexivity.
Qed.

(** When the insert of the progress row fails, the tracker works in
    memory only: the [increment] and [recordError] calls that follow
    leave the store exactly as it was. *)
Theorem failed_start_keeps_item_calls_off_the_store (faults : Faults)
  (job new_id now : string) (total : Z) (msg : string)
  (cs : list (string * Call)) (s : Store) :
  faults "progressive_capture_progress" Insert = Some msg ->
  forallb is_item_call cs = true ->
  let out := perform_all faults ((now, call_start new_id total) :: cs)
               (constructor job, s) in
  snd out = s
  /\ progressId (fst out) = None
  /\ processedItems (fst out) = Z.of_nat (List.length (filter is_increment cs)).
Proof.
  intros Hf Hall out.
  pose proof (perform_all_counts faults
                ((now, call_start new_id total) :: cs) (constructor job) s)
    as [Hc _].
  fold out in Hc.
  cbn [filter is_increment snd constructor processedItems] in Hc.
  rewrite Z.add_0_l in Hc. subst out. unfold perform_all in *. cbn [fold_left perform fst snd] in *.
  unfold start in *. rewrite Hf in *.
  destruct (item_calls_without_progress_row faults cs
              {| jobId := job; progressId := None; totalItems := total;
                 processedItems := 0; failedItems := 0; errors := [] |}
              s eq_refl Hall) as [Hs Hp].
  unfold perform_all in Hs, Hp. cbn [constructor jobId progressId
    processedItems failedItems errors] in *.
  repeat split; assumption.
Qed.

(** [complete()] writes the final counts of the tracker to its progress
    row and marks the job completed, also when items have failed. *)
Theorem complete_publishes_final_counts (now pid : string) (t : Tracker)
  (s : Store) :
  progressId t = Some pid ->
  let s' := complete no_faults now t s in
  (forall p', In p' (progressive_capture_progress s') -> p_id p' = pid ->
     processed_items p' = processedItems t
     /\ failed_items p' = failedItems t
     /\ current_item p' = "Completed")
  /\ (forall j', In j' (progressive_capture_jobs s') -> id j' = jobId t ->
        status j' = "completed" /\ completed_at j' = Some now)
  /\ List.length (progressive_capture_progress s')
     = List.length (progressive_capture_progress s)
  /\ List.length (progressive_capture_jobs s')
     = List.length (progressive_capture_jobs s).
Proof.
  intros Hp. unfold complete, updateJobStatus, update_progress, no_faults.
  rewrite Hp. cbn [progressive_capture_progress progressive_capture_jobs].
  split; [|split; [|split]].
  - intros p' Hin Hid. apply in_map_iff in Hin. destruct Hin as [p [E _]].
    destruct (String.eqb (p_id p) pid) eqn:Eq.
    + subst p'. repeat split.
    + subst p'. apply String.eqb_neq in Eq. contradiction.
  - intros j' Hin Hid. apply in_map_iff in Hin. destruct Hin as [j [E _]].
    destruct (String.eqb (id j) (jobId t)) eqn:Eq.
    + subst j'. split; reflexivity.
    + subst j'. apply String.eqb_neq in Eq. contradiction.
  - apply length_map.
  - apply length_map.
Qed.

End TrackerMore.

Lemma failed_start_keeps_item_calls_off_the_store_witness :
  let faults : Supabase.Faults :=
    fun table verb =>
      match verb with
      | Supabase.Insert => Some "insert refused"
      | _ => None
      end in
  faults "progressive_capture_progress" Supabase.Insert = Some "insert refused"
  /\ snd (ProgressTracker.perform_all faults
            [ (Examples.later, ProgressTracker.call_start "p-1" 2);
              (Examples.later, ProgressTracker.call_increment None);
              (Examples.later,
               ProgressTracker.call_recordError (Some "7") "boom") ]
            (ProgressTracker.constructor "job-1", Examples.jobs_store))
     = Examples.jobs_store.
Proof.
  intros faults. split; [reflexivity|].
  apply (failed_start_keeps_item_calls_off_the_store faults "job-1" "p-1"
           Examples.later 2 "insert refused"
           [ (Examples.later, ProgressTracker.call_increment None);
             (Examples.later,
              ProgressTracker.call_recordError (Some "7") "boom") ]
           Examples.jobs_store eq_refl eq_refl).
Defined.

Lemma complete_publishes_final_counts_witness :
  let t := {| ProgressTracker.jobId := "job-1";
              ProgressTracker.progressId := Some "p-1";
              ProgressTracker.totalItems := 2;
              ProgressTracker.processedItems := 1;
              ProgressTracker.failedItems := 1;
              ProgressTracker.errors := [] |} in
  ProgressTracker.progressId t = Some "p-1"
  /\ forall j',
       In j' (ProgressTracker.progressive_capture_jobs
                (ProgressTracker.complete Supabase.no_faults Examples.later t
                   Examples.jobs_store)) ->
       ProgressTracker.id j' = "job-1" ->
       ProgressTracker.status j' = "completed"
       /\ ProgressTracker.completed_at j' = Some Examples.later.
Proof.
  intros t. split; [reflexivity|].
  apply (proj1 (proj2 (complete_publishes_final_counts Examples.later "p-1" t
                         Examples.jobs_store eq_refl))).
Defined.

(* ================================================================== *)
(** * Properties of the rate limiter *)
(* ================================================================== *)

Section LimiterFacts.

Import RateLimiter.

Lemma calculateWaitTime_nonneg (now : Z) (l : Limiter) :
  0 <= calculateWaitTime now l.
Proof.
  unfold calculateWaitTime.
  destruct (Z.leb_spec (resetTime l - now) 0);
    destruct (Z.ltb_spec (remainingRequests l) 10);
    try destruct (PrimFloat.ltb 1 _); lia.
Qed.

(** The wait time is never negative; it is zero once the reset time has
    passed; with fewer than ten requests left it is the whole time until
    the reset; otherwise it is zero or one second. *)
Theorem calculateWaitTime_cases (now : Z) (l : Limiter) :
  0 <= calculateWaitTime now l
  /\ (resetTime l <= now -> calculateWaitTime now l = 0)
  /\ (now < resetTime l -> remainingRequests l < 10 ->
      calculateWaitTime now l = resetTime l - now)
  /\ (10 <= remainingRequests l ->
      calculateWaitTime now l = 0 \/ calculateWaitTime now l = 1000).
Proof.
  unfold calculateWaitTime.
  destruct (Z.leb_spec (resetTime l - now) 0);
    destruct (Z.ltb_spec (remainingRequests l) 10);
    try destruct (PrimFloat.ltb 1 _);
    repeat split; intros; try lia; auto.
Qed.

Lemma checkRateLimit_clock (api : Api) (w : World) :
  clock w <= clock (checkRateLimit api w)
  /\ requestCount (limiter (checkRateLimit api w)) = requestCount (limiter w)
  /\ checkInterval (limiter (checkRateLimit api w)) = checkInterval (limiter w)
  /\ (queries (checkRateLimit api w) = S (queries w)).
Proof.
  unfold checkRateLimit, sleep.
  destruct (api _); cbn; repeat split; lia.
Qed.

(** One [checkAndWait] counts one request, queries the forge at most
    twice and never turns the clock back. *)
Theorem checkAndWait_counts_one_request (api : Api) (w : World) :
  let w' := checkAndWait api w in
  requestCount (limiter w') = requestCount (limiter w) + 1
  /\ checkInterval (limiter w') = checkInterval (limiter w)
  /\ clock w <= clock w'
  /\ (queries w <= queries w' <= queries w + 2)%nat.
Proof.
  unfold checkAndWait.
  set (w0 := count_request w).
  assert (H0 : requestCount (limiter w0) = requestCount (limiter w) + 1
               /\ checkInterval (limiter w0) = checkInterval (limiter w)
               /\ clock w0 = clock w /\ queries w0 = queries w)
    by (repeat split).
  destruct H0 as [Hc0 [Hi0 [Hk0 Hq0]]].
  set (w1 := if (Z.rem (requestCount (limiter w0)) (checkInterval (limiter w0))
                 =? 0) || (remainingRequests (limiter w0) <? 100)
             then checkRateLimit api w0 else w0).
  assert (H1 : requestCount (limiter w1) = requestCount (limiter w0)
               /\ checkInterval (limiter w1) = checkInterval (limiter w0)
               /\ clock w0 <= clock w1
               /\ (queries w0 <= queries w1 <= S (queries w0))%nat).
  { subst w1. destruct (_ || _).
    - pose proof (checkRateLimit_clock api w0) as [A [B [C D]]].
      repeat split; try assumption; lia.
    - repeat split; lia. }
  destruct H1 as [Hc1 [Hi1 [Hk1 Hq1]]].
  destruct (remainingRequests (limiter w1) <? 50); [|cbn zeta; lia].
  pose proof (calculateWaitTime_nonneg (clock w1) (limiter w1)) as Hpos.
  destruct (Z.ltb_spec 0 (calculateWaitTime (clock w1) (limiter w1)));
    [|cbn zeta; lia].
  pose proof (checkRateLimit_clock api
                (sleep (calculateWaitTime (clock w1) (limiter w1)) w1))
    as [A [B [C D]]].
  cbn [sleep clock limiter queries] in A, B, C, D.
  cbn zeta. repeat split; lia.
Qed.




End LimiterFacts.

Section RouterMore.

Import HybridQueueManager.

(** Every job queued with Inngest carries an item cap of at most
    fifty: the requested [maxItems] when it is between 1 and 50, and 50
    when it is absent, zero or larger. *)
Theorem inngest_maxItems_capped (data : JobData) :
  inngest_maxItems data <= 50
  /\ (forall n, maxItems data = Some n -> 1 <= n <= 50 ->
        inngest_maxItems data = n)
  /\ (maxItems data = None \/ maxItems data = Some 0
      \/ (exists n, maxItems data = Some n /\ 50 <= n) ->
      inngest_maxItems data = 50).
Proof.
  unfold inngest_maxItems. split; [lia|]. split.
  - intros n -> Hn. destruct (Z.eqb_spec n 0); lia.
  - intros [-> | [-> | [n [-> Hn]]]]; try reflexivity.
    destruct (Z.eqb_spec n 0); lia.
Qed.

End RouterMore.

(* ================================================================== *)
(** * Properties of the capture run *)
(* ================================================================== *)

Section RunFacts.

Import Supabase ProgressTracker BaseCaptureScript.

Variable Item : Type.
Variable W : Type.
Variable getItemsToProcess : W -> (Js.JsError + list Item) * W.
Variable processItem : Item -> W -> (Js.JsError + unit) * W.
Variable getTotalItems : Z.
Variable checkAndWait : W -> W.
Variable item_key : Item -> option string.

Let step := process_one Item W processItem checkAndWait item_key.

(** What the loop keeps: each item is counted once, as processed or as
    failed, in the run and in the tracker alike. *)
Lemma loop_counts (faults : Faults) (now : string) (items : list Item)
  (st : State W) :
  let st' := fold_left (step faults now) items st in
  processed st' + failed st'
    = processed st + failed st + Z.of_nat (List.length items)
  /\ processed st <= processed st'
  /\ failed st <= failed st'
  /\ processedItems (tracker st') - processedItems (tracker st)
     = processed st' - processed st
  /\ failedItems (tracker st') - failedItems (tracker st)
     = failed st' - failed st
  /\ jobId (tracker st') = jobId (tracker st)
  /\ progressId (tracker st') = progressId (tracker st).
Proof.
  revert st. induction items as [|item items IH]; intros st.
  - cbn. repeat split; lia.
  - cbn [fold_left List.length].
    specialize (IH (step faults now st item)).
    assert (H1 : let s1 := step faults now st item in
                 processed s1 + failed s1 = processed st + failed st + 1
                 /\ processed st <= processed s1
                 /\ failed st <= failed s1
                 /\ processedItems (tracker s1) - processedItems (tracker st)
                    = processed s1 - processed st
                 /\ failedItems (tracker s1) - failedItems (tracker st)
                    = failed s1 - failed st
                 /\ jobId (tracker s1) = jobId (tracker st)
                 /\ progressId (tracker s1) = progressId (tracker st)).
    { unfold step, process_one, increment, recordError.
      destruct (processItem item (checkAndWait (world st))) as [[e|u] w];
        destruct (progressId (tracker st));
        cbn [tracker processed failed processedItems failedItems jobId
             progressId];
        repeat split; lia. }
    cbn zeta in IH, H1.
    destruct IH as [A [B [C [D [E [F G]]]]]].
    destruct H1 as [A1 [B1 [C1 [D1 [E1 [F1 G1]]]]]].
    repeat split; try lia; congruence.
Qed.

Lemma job_rows_after_update (faults : Faults) (now : string) (t : Tracker)
  (st : string) (err : option string) (s : Store) (j' : Job) :
  faults "progressive_capture_jobs" Update = None ->
  In j' (progressive_capture_jobs (updateJobStatus faults now t st err s)) ->
  id j' = jobId t ->
  status j' = st
  /\ (st = "failed" -> present err = true -> error j' = err).
Proof.
  intros Hf Hin Hid. unfold updateJobStatus in Hin. rewrite Hf in Hin.
  cbn [progressive_capture_jobs] in Hin.
  apply in_map_iff in Hin. destruct Hin as [j [Hj Hin]].
  destruct (String.eqb (id j) (jobId t)) eqn:E.
  - subst j'. cbn [apply_updateData status error]. split; [reflexivity|].
    intros -> Hp. cbn. rewrite Hp. reflexivity.
  - subst j'. apply String.eqb_neq in E. contradiction.
Qed.

(** A run whose items were found reaches [complete()] without throwing
    and marks the job completed there, however many items failed; every
    item is counted exactly once, as processed or as failed, and the
    tracker holds the same two counts. *)
Theorem run_counts_every_item (faults : Faults) (new_id now job : string)
  (s0 : Store) (w0 w1 : W) (items : list Item) :
  getItemsToProcess w0 = (inr items, w1) ->
  let out := run Item W getItemsToProcess processItem getTotalItems
               checkAndWait item_key faults new_id now (constructor job)
               s0 w0 in
  fst out = inr tt
  /\ processed (snd out) + failed (snd out) = Z.of_nat (List.length items)
  /\ 0 <= processed (snd out) /\ 0 <= failed (snd out)
  /\ processedItems (tracker (snd out)) = processed (snd out)
  /\ failedItems (tracker (snd out)) = failed (snd out)
  /\ (faults "progressive_capture_jobs" Update = None ->
      forall j', In j' (progressive_capture_jobs (store (snd out))) ->
                 id j' = job -> status j' = "completed").
Proof.
  intros Hitems. unfold run.
  destruct (start faults new_id now getTotalItems (constructor job) s0)
    as [t1 s1] eqn:Hstart.
  rewrite Hitems. cbn [fst snd tracker store processed failed].
  assert (Ht1 : processedItems t1 = 0 /\ failedItems t1 = 0 /\ jobId t1 = job).
  { unfold start in Hstart.
    destruct (faults "progressive_capture_progress" Insert);
      injection Hstart as <- <-; repeat split. }
  destruct Ht1 as [Hp1 [Hf1 Hj1]].
  pose proof (loop_counts faults now items
                {| tracker := t1; store := s1; world := w1;
                   processed := 0; failed := 0 |}) as H.
  cbn zeta in H. cbn [tracker processed failed] in H. fold step.
  destruct H as [A [B [C [D [E [F _]]]]]].
  repeat split; try lia.
  intros Hup j' Hin Hid. unfold complete in Hin.
  eapply job_rows_after_update; [exact Hup | exact Hin | congruence].
Qed.

(** A run whose items cannot be found rethrows the error, processes
    nothing and marks the job failed with the error's message. *)
Theorem run_fails_when_items_cannot_be_found (faults : Faults)
  (new_id now job : string) (s0 : Store) (w0 w1 : W) (error : Js.JsError) :
  getItemsToProcess w0 = (inl error, w1) ->
  let out := run Item W getItemsToProcess processItem getTotalItems
               checkAndWait item_key faults new_id now (constructor job)
               s0 w0 in
  fst out = inl error
  /\ world (snd out) = w1
  /\ processed (snd out) = 0 /\ failed (snd out) = 0
  /\ (faults "progressive_capture_jobs" Update = None ->
      forall j', In j' (progressive_capture_jobs (store (snd out))) ->
                 id j' = job ->
                 status j' = "failed"
                 /\ (Js.err_message error <> "" ->
                     ProgressTracker.error j' = Some (Js.err_message error))).
Proof.
  intros Hitems. unfold run.
  destruct (start faults new_id now getTotalItems (constructor job) s0)
    as [t1 s1] eqn:Hstart.
  rewrite Hitems. cbn [fst snd tracker store world processed failed].
  assert (Hj1 : jobId t1 = job).
  { unfold start in Hstart.
    destruct (faults "progressive_capture_progress" Insert);
      injection Hstart as <- <-; reflexivity. }
  repeat split.
  - unfold fail in H0.
    eapply job_rows_after_update; [exact H | exact H0 | congruence].
  - intros Hne. unfold fail in H0.
    eapply job_rows_after_update;
      [exact H | exact H0 | congruence | reflexivity |].
    unfold present. destruct (Js.err_message error); [contradiction|reflexivity].
Qed.

End RunFacts.

(* ================================================================== *)
(** * Properties of the pull-request details capture script *)
(* ================================================================== *)

Section ScriptFacts.

Import HybridGitHubClient PRDetailsGraphQLCaptureScript.

Variable Payload : Type.
Variable forge : Forge Payload.
Variable mapPRCompleteData :
  Payload -> Js.JsError + (Payload * Payload * Payload * Payload * Payload).
Variable mapRecentPRs : Payload -> Js.JsError + Payload.
Variable numbers_of : Payload -> list Z.
Variable persist : PRCompleteData Payload -> Js.JsError + unit.
Variable owner repo : string.

(** The world after a compound query and the fine-grained path have both
    failed for one pull request. *)
Lemma getPRCompleteData_double_failure (n : Z) (w : World)
  (e1 e2 : Js.JsError) :
  useGraphQL (client w) = true ->
  graphql forge GET_PR_COMPLETE_DATA (pr_variables owner repo n) = inl e1 ->
  first_error Payload forge (complete_data_calls owner repo n) = inl e2 ->
  exists w',
    getPRCompleteData Payload forge mapPRCompleteData owner repo n w
      = (inl e2, w')
    /\ useGraphQL (client w') = true
    /\ fallbacks (metrics (client w')) = fallbacks (metrics (client w)) + 1
    /\ graphqlQueries (metrics (client w')) = graphqlQueries (metrics (client w))
    /\ restQueries (metrics (client w')) = restQueries (metrics (client w))
    /\ calls w'
       = (calls w ++ GraphqlCall GET_PR_COMPLETE_DATA (pr_variables owner repo n)
                 :: map RestApiCall (complete_data_calls owner repo n))%list.
Proof.
  intros Hu Hq Hfe.
  rewrite (getPRCompleteData_failure Payload forge mapPRCompleteData
             owner repo n e1 w Hu Hq).
  unfold complete_data_calls in *.
  unfold getPRCompleteDataREST, try_catch, bind, promise_all, issue_all,
    lift, emit, throw.
  cbn [fst snd client console calls]. rewrite Hfe.
  eexists. split; [reflexivity|].
  cbn [client console calls after_failure metrics fallbacks restQueries
       graphqlQueries useGraphQL].
  repeat split; try assumption.
  rewrite <- app_assoc. reflexivity.
Qed.

(** [processItem] swallows exactly the errors that are a 404: when the
    hybrid client fails with a 404 the item ends normally, with the
    client's counters and calls as the client left them; any other error
    of the client, and any error of the upserts that is not a 404, is
    thrown on. *)
Theorem processItem_swallows_only_not_found (n : Z) (w w' : World) :
  (forall e,
     getPRCompleteData Payload forge mapPRCompleteData owner repo n w
       = (inl e, w') ->
     Js.isNotFound e = true ->
     let out := processItem Payload forge mapPRCompleteData persist
                  owner repo n w in
     fst out = inr tt
     /\ client (snd out) = client w' /\ calls (snd out) = calls w')
  /\ (forall e,
        getPRCompleteData Payload forge mapPRCompleteData owner repo n w
          = (inl e, w') ->
        Js.isNotFound e = false ->
        processItem Payload forge mapPRCompleteData persist owner repo n w
          = (inl e, w'))
  /\ (forall d e,
        getPRCompleteData Payload forge mapPRCompleteData owner repo n w
          = (inr d, w') ->
        persist d = inl e ->
        Js.isNotFound e = false ->
        processItem Payload forge mapPRCompleteData persist owner repo n w
          = (inl e, w'))
  /\ (forall d,
        getPRCompleteData Payload forge mapPRCompleteData owner repo n w
          = (inr d, w') ->
        persist d = inr tt ->
        processItem Payload forge mapPRCompleteData persist owner repo n w
          = (inr tt, w')).
Proof.
  unfold processItem, try_catch, bind, lift, emit, throw.
  repeat split; intros.
  - rewrite H. cbn [fst snd]. rewrite H0. reflexivity.
  - rewrite H. rewrite H0. reflexivity.
  - rewrite H. rewrite H0. reflexivity.
  - rewrite H. rewrite H0. reflexivity.
  - rewrite H, H0, H1. reflexivity.
  - rewrite H, H0. reflexivity.
Qed.


(** One deleted pull request: with the compound path enabled and a forge
    that answers every call with the same 404, [processItem] ends
    normally after one compound query and the five REST calls. *)
Lemma processItem_deleted (n : Z) (w : World) (e1 e2 : Js.JsError) :
  (forall q v, graphql forge q v = inl e1) ->
  (forall c, rest forge c = inl e2) ->
  Js.isNotFound e2 = true ->
  useGraphQL (client w) = true ->
  exists w',
    processItem Payload forge mapPRCompleteData persist owner repo n w
      = (inr tt, w')
    /\ useGraphQL (client w') = true
    /\ fallbacks (metrics (client w')) = fallbacks (metrics (client w)) + 1
    /\ graphqlQueries (metrics (client w')) = graphqlQueries (metrics (client w))
    /\ restQueries (metrics (client w')) = restQueries (metrics (client w))
    /\ List.length (calls w') = (List.length (calls w) + 6)%nat.
Proof.
  intros Hg Hr Hnf Hu.
  assert (Hfe : first_error Payload forge (complete_data_calls owner repo n)
                = inl e2).
  { unfold complete_data_calls. cbn [first_error]. rewrite Hr. reflexivity. }
  destruct (getPRCompleteData_double_failure n w e1 e2 Hu (Hg _ _) Hfe)
    as [w1 [E [Hu1 [Hf1 [Hq1 [Hr1 Hc1]]]]]].
  unfold processItem, try_catch, bind, lift, emit.
  rewrite E, Hnf. eexists. split; [reflexivity|].
  cbn [client calls]. repeat split; try assumption.
  rewrite Hc1, length_app. cbn [List.length map complete_data_calls]. lia.
Qed.

End ScriptFacts.

Section ScriptRun.

Import HybridGitHubClient PRDetailsGraphQLCaptureScript.
Import Supabase ProgressTracker BaseCaptureScript.

Variable Payload : Type.
Variable forge : Forge Payload.
Variable mapPRCompleteData :
  Payload -> Js.JsError + (Payload * Payload * Payload * Payload * Payload).
Variable mapRecentPRs : Payload -> Js.JsError + Payload.
Variable numbers_of : Payload -> list Z.
Variable persist : PRCompleteData Payload -> Js.JsError + unit.
Variable owner repo : string.
Variable L : Type.
Variable wait : L -> L.

Let body (faults : Faults) (now : string) :=
  process_one Z (World * L)
    (fun number wl =>
       let '(r, w) := processItem Payload forge mapPRCompleteData persist
                        owner repo number (fst wl) in
       (r, (w, snd wl)))
    (fun wl => (fst wl, wait (snd wl)))
    (fun number => Some (Js.int_string number)) faults now.

Lemma loop_over_deleted (faults : Faults) (now : string)
  (e1 e2 : Js.JsError) (items : list Z) (st : State (World * L)) :
  (forall q v, graphql forge q v = inl e1) ->
  (forall c, rest forge c = inl e2) ->
  Js.isNotFound e2 = true ->
  useGraphQL (client (fst (world st))) = true ->
  let st' := fold_left (body faults now) items st in
  processed st' = processed st + Z.of_nat (List.length items)
  /\ failed st' = failed st
  /\ errors (tracker st') = errors (tracker st)
  /\ jobId (tracker st') = jobId (tracker st)
  /\ fallbacks (metrics (client (fst (world st'))))
     = fallbacks (metrics (client (fst (world st))))
       + Z.of_nat (List.length items)
  /\ restQueries (metrics (client (fst (world st'))))
     = restQueries (metrics (client (fst (world st))))
  /\ List.length (calls (fst (world st')))
     = (List.length (calls (fst (world st))) + 6 * List.length items)%nat.
Proof.
  intros Hg Hr Hnf. revert st.
  induction items as [|n items IH]; intros st Hu.
  - cbn. repeat split; lia.
  - cbn [fold_left List.length].
    destruct (processItem_deleted Payload forge mapPRCompleteData persist
                owner repo n (fst (world st)) e1 e2 Hg Hr Hnf Hu)
      as [w1 [E [Hu1 [Hf1 [Hq1 [Hr1 Hc1]]]]]].
    assert (Hstep : exists t s,
      body faults now st n
      = {| tracker := t; store := s; world := (w1, wait (snd (world st)));
           processed := processed st + 1; failed := failed st |}
      /\ errors t = errors (tracker st) /\ jobId t = jobId (tracker st)).
    { unfold body, process_one. cbn [fst snd]. rewrite E.
      unfold increment.
      destruct (progressId (tracker st)); eexists; eexists;
        (split; [reflexivity | split; reflexivity]). }
    destruct Hstep as [t [s [Hb [He Hj]]]]. rewrite Hb.
    specialize (IH {| tracker := t; store := s;
                      world := (w1, wait (snd (world st)));
                      processed := processed st + 1; failed := failed st |}
                  Hu1).
    cbn zeta in IH.
    cbn [world fst processed failed tracker] in IH.
    destruct IH as [A [B [C [D [F [G H]]]]]].
    repeat split; try lia; try congruence.
Qed.

(** A run over pull requests that no longer exist.  With the compound
    path enabled and a forge that answers every call with a 404, the run
    over a non-empty list of requested numbers reaches [complete()]
    without throwing, counts every pull request as processed and none as
    failed, records no error, falls back once and makes six forge calls
    for each of them, and marks the job completed. *)
Theorem run_over_deleted_pull_requests (faults : Faults)
  (new_id now job since : string) (flag : bool) (db : string + list Z)
  (s0 : Store) (w0 : World) (l0 : L) (e1 e2 : Js.JsError)
  (prNumbers : list Z) :
  (forall q v, graphql forge q v = inl e1) ->
  (forall c, rest forge c = inl e2) ->
  Js.isNotFound e2 = true ->
  useGraphQL (client w0) = true ->
  prNumbers <> [] ->
  let out := run_script Payload forge mapPRCompleteData mapRecentPRs
               numbers_of persist owner repo L wait prNumbers flag since db
               faults new_id now job s0 (w0, l0) in
  let n := List.length prNumbers in
  fst out = inr tt
  /\ processed (snd out) = Z.of_nat n
  /\ failed (snd out) = 0
  /\ errors (tracker (snd out)) = []
  /\ fallbacks (metrics (client (fst (world (snd out)))))
     = fallbacks (metrics (client w0)) + Z.of_nat n
  /\ restQueries (metrics (client (fst (world (snd out)))))
     = restQueries (metrics (client w0))
  /\ List.length (calls (fst (world (snd out))))
     = (List.length (calls w0) + 6 * n)%nat
  /\ (faults "progressive_capture_jobs" Update = None ->
      forall j', In j' (progressive_capture_jobs (store (snd out))) ->
                 id j' = job -> status j' = "completed").
Proof.
  intros Hg Hr Hnf Hu Hne.
  unfold run_script, run.
  destruct (start faults new_id now (getTotalItems prNumbers)
              (constructor job) s0) as [t1 s1] eqn:Hstart.
  assert (Ht1 : errors t1 = [] /\ jobId t1 = job).
  { unfold start in Hstart.
    destruct (faults "progressive_capture_progress" Insert);
      injection Hstart as <- <-; split; reflexivity. }
  destruct Ht1 as [He1 Hj1].
  cbn [fst snd].
  destruct prNumbers as [|n0 rest]; [contradiction|].
  assert (Hitems : getItemsToProcess Payload forge mapRecentPRs numbers_of
                     owner repo (n0 :: rest) flag since db w0
                   = (inr (n0 :: rest), w0)) by reflexivity.
  rewrite Hitems.
  pose proof (loop_over_deleted faults now e1 e2 (n0 :: rest)
                {| tracker := t1; store := s1; world := (w0, l0);
                   processed := 0; failed := 0 |} Hg Hr Hnf Hu) as H.
  cbn zeta in H. cbn [world fst processed failed tracker] in H.
  unfold body in H.
  destruct H as [A [B [C [D [F [G K]]]]]].
  cbn [fst snd processed failed tracker world store].
  repeat split; try lia; try congruence.
  intros Hup j' Hin Hid. unfold complete in Hin.
  eapply job_rows_after_update; [exact Hup | exact Hin | congruence].
Qed.

End ScriptRun.

(* ================================================================== *)
(** * Instances of the properties above *)
(* ================================================================== *)


Lemma run_counts_every_item_witness :
  let out := BaseCaptureScript.run Z unit Examples.three_items
               Examples.second_item_throws 3 (fun w => w)
               (fun n => Some (Js.int_string n)) Supabase.no_faults
               "p-1" Examples.later (ProgressTracker.constructor "job-1")
               Examples.jobs_store tt in
  Examples.three_items tt = (inr [1; 2; 3], tt)
  /\ fst out = inr tt
  /\ BaseCaptureScript.processed (snd out)
     + BaseCaptureScript.failed (snd out) = 3.
Proof.
  intros out. split; [reflexivity|].
  pose proof (run_counts_every_item Z unit Examples.three_items
                Examples.second_item_throws 3 (fun w => w)
                (fun n => Some (Js.int_string n)) Supabase.no_faults
                "p-1" Examples.later "job-1" Examples.jobs_store tt tt
                [1; 2; 3] eq_refl) as [H1 [H2 _]].
  split; [exact H1 | exact H2].
Defined.

Lemma run_fails_when_items_cannot_be_found_witness :
  let out := BaseCaptureScript.run Z unit Examples.items_unavailable
               Examples.second_item_throws 3 (fun w => w)
               (fun n => Some (Js.int_string n)) Supabase.no_faults
               "p-1" Examples.later (ProgressTracker.constructor "job-1")
               Examples.jobs_store tt in
  BaseCaptureScript.processed (snd out) = 0
  /\ forall j',
       In j' (ProgressTracker.progressive_capture_jobs
                (BaseCaptureScript.store (snd out))) ->
       ProgressTracker.id j' = "job-1" ->
       ProgressTracker.status j' = "failed".
Proof.
  intros out.
  pose proof (run_fails_when_items_cannot_be_found Z unit
                Examples.items_unavailable Examples.second_item_throws 3
                (fun w => w) (fun n => Some (Js.int_string n))
                Supabase.no_faults "p-1" Examples.later "job-1"
                Examples.jobs_store tt tt _ eq_refl)
    as [_ [_ [H1 [_ H2]]]].
  split; [exact H1|].
  intros j' Hin Hid. apply (H2 eq_refl j' Hin Hid).
Defined.

Lemma run_over_deleted_pull_requests_witness :
  let out := PRDetailsGraphQLCaptureScript.run_script string
               Examples.forge_all_404 Examples.map5 (fun p => inr p)
               (fun _ => []) (fun _ => inr tt) "o" "r" unit (fun l => l)
               [7; 8] true "2025-06-01T00:00:00.000Z" (inr [])
               Supabase.no_faults "p-1" Examples.later "job-1"
               Examples.jobs_store (Examples.fresh_world, tt) in
  Js.isNotFound Examples.not_found = true
  /\ fst out = inr tt
  /\ BaseCaptureScript.processed (snd out) = 2
  /\ BaseCaptureScript.failed (snd out) = 0
  /\ HybridGitHubClient.fallbacks
       (HybridGitHubClient.metrics
          (HybridGitHubClient.client
             (fst (BaseCaptureScript.world (snd out))))) = 2.
Proof.
  intros out. split; [reflexivity|].
  pose proof (run_over_deleted_pull_requests string Examples.forge_all_404
                Examples.map5 (fun p => inr p) (fun _ => []) (fun _ => inr tt)
                "o" "r" unit (fun l => l) Supabase.no_faults "p-1"
                Examples.later "job-1" "2025-06-01T00:00:00.000Z" true
                (inr []) Examples.jobs_store Examples.fresh_world tt
                Examples.not_found Examples.not_found [7; 8]
                (fun _ _ => eq_refl) (fun _ => eq_refl) eq_refl eq_refl
                ltac:(discriminate))
    as [H1 [H2 [H3 [_ [H4 _]]]]].
  repeat split; assumption.
Defined.

Lemma processItem_swallows_only_not_found_witness :
  fst (PRDetailsGraphQLCaptureScript.processItem string
         Examples.forge_all_404 Examples.map5 (fun _ => inr tt) "o" "r" 7
         Examples.fresh_world) = inr tt
  /\ fst (PRDetailsGraphQLCaptureScript.processItem string
            Examples.forge_all_500 Examples.map5 (fun _ => inr tt) "o" "r" 7
            Examples.fresh_world) = inl Examples.server_error.
Proof.
  split.
  - pose proof (processItem_swallows_only_not_found string
                  Examples.forge_all_404 Examples.map5 (fun _ => inr tt)
                  "o" "r" 7 Examples.fresh_world
                  (snd (HybridGitHubClient.getPRCompleteData string
                          Examples.forge_all_404 Examples.map5 "o" "r" 7
                          Examples.fresh_world))) as [H _].
    exact (proj1 (H Examples.not_found eq_refl eq_refl)).
  - pose proof (processItem_swallows_only_not_found string
                  Examples.forge_all_500 Examples.map5 (fun _ => inr tt)
                  "o" "r" 7 Examples.fresh_world
                  (snd (HybridGitHubClient.getPRCompleteData string
                          Examples.forge_all_500 Examples.map5 "o" "r" 7
                          Examples.fresh_world))) as [_ [H _]].
    rewrite (H Examples.server_error eq_refl eq_refl). reflexivity.
Defined.

